(** * PulseSeer: pulse-pattern detection, lock tracking and auto-gain control

    A shallow embedding of the processing core of [src/PulseSeer.py]
    ([MainWindow.sample_data], [MainWindow.detect_cycle_in_batch],
    [MainWindow.auto_adjust_gain], [MainWindow.show_no_pattern_detected], the
    buffer maintenance of [MainWindow.update_graph_from_buffer],
    [MainWindow.get_dynamic_averaging_window], [ltc6903_config_bytes]), of
    the register and data transfers of [src/ADS131M02_driver.py]
    ([_create_command_frame], [read_register], [write_register], [set_gain],
    [read_data_raw]) and of [set_threshold], [read_channel] and
    [_raw_to_voltage] from [src/ADS7142_driver_new.py].

    Python floats are IEEE-754 binary64 values; they are modelled by Rocq's
    primitive floats, which are the same format with the same rounding, so
    every concrete evaluation below can be replayed in Python.  Dictionaries
    keyed by wavelength name are finite maps over strings. *)

From Stdlib Require Import ZArith List Bool Lia Floats Uint63 Sorted Permutation.
From stdpp Require Import gmap strings list.

Set Warnings "-inexact-float".

(** ** Python numbers *)

Module Py.

Local Open Scope float_scope.

(** [float(z)] for a Python int (exact below 2^53, correctly rounded up to
    the 63 bits a list length or index can have). *)
Definition float_of_Z (z : Z) : float :=
  if (z <? 0)%Z then - PrimFloat.of_uint63 (Uint63.of_Z (- z))
  else PrimFloat.of_uint63 (Uint63.of_Z z).

Definition float_of_nat (n : nat) : float := float_of_Z (Z.of_nat n).

(** The builtin [max(a, b)]: the first argument is kept unless the second
    compares greater. *)
Definition max2 (a b : float) : float := if a <? b then b else a.

(** The builtins [max(iterable)] and [min(iterable)]: a running value that is
    replaced by every later item comparing strictly greater (smaller). *)
Definition max_list (x : float) (l : list float) : float :=
  fold_left (fun maxval item => if maxval <? item then item else maxval) l x.

Definition min_list (x : float) (l : list float) : float :=
  fold_left (fun minval item => if item <? minval then item else minval) l x.

(** [int(round(x))]: round half to even.  On an infinity or a NaN Python
    raises; the one call site passes a finite product of the batch length, and
    the value 0 stands there. *)
Definition round (x : float) : Z :=
  match Prim2SF x with
  | S754_finite s m e =>
      let mag :=
        if (0 <=? e)%Z then (Z.pos m * 2 ^ e)%Z
        else
          let d := (2 ^ (- e))%Z in
          let q := (Z.pos m / d)%Z in
          let r := (Z.pos m mod d)%Z in
          if (d <? 2 * r)%Z then (q + 1)%Z
          else if (2 * r =? d)%Z then (if Z.even q then q else q + 1)%Z
          else q in
      if s then (- mag)%Z else mag
  | _ => 0%Z
  end.

(** [lst.sort(key=...)]: a stable ascending sort by [<] on the keys.  An item
    is inserted after every item whose key is not greater, which is the
    order CPython's insertion keeps among equal keys. *)
Fixpoint sort_insert {A} (key : A -> float) (x : A) (sorted : list A) : list A :=
  match sorted with
  | [] => [x]
  | y :: rest =>
      if key x <? key y then x :: y :: rest
      else y :: sort_insert key x rest
  end.

Definition sort_by {A} (key : A -> float) (l : list A) : list A :=
  fold_left (fun sorted x => sort_insert key x sorted) l [].

(** [lst.sort(key=..., reverse=True)]: CPython reverses the list, sorts it
    ascending and reverses the outcome, which keeps equal keys in their
    original order. *)
Definition sort_by_reverse {A} (key : A -> float) (l : list A) : list A :=
  rev (sort_by key (rev l)).

End Py.

(** ** The numpy reductions the detector calls *)

Module Np.

Local Open Scope float_scope.

(** [np.add.reduce] over a float64 array, which [np.sum], [np.mean] and
    [np.std] call: numpy sums pairwise.  Fewer than eight items are added
    from left to right.  Up to 128 items are added in eight interleaved
    accumulators, which are then combined as a tree; the items after the
    last full group of eight are added at the end.  A longer array is cut at
    half its length, rounded down to a multiple of eight, and the sums of
    the two parts are added.  The outcome is added to the initial value 0 of
    the reduction.  (The sign of a zero sum is as far as this goes.) *)
Definition sum_lt8 (a : list float) : float := fold_left PrimFloat.add a 0.

(** [r[k] += a[i + k]] for [groups] groups of eight. *)
Fixpoint add_groups (groups : nat) (r a : list float) : list float * list float :=
  match groups with
  | O => (r, a)
  | S groups => add_groups groups (zip_with PrimFloat.add r (take 8 a)) (drop 8 a)
  end.

Definition sum_block (a : list float) : float :=
  let '(r, rest) := add_groups (length a / 8 - 1) (take 8 a) (drop 8 a) in
  let res :=
    match r with
    | [r0; r1; r2; r3; r4; r5; r6; r7] =>
        ((r0 + r1) + (r2 + r3)) + ((r4 + r5) + (r6 + r7))
    | _ => 0
    end in
  fold_left PrimFloat.add rest res.

(** The recursion halves the array, so a fuel of its length is never used
    up ([pairwise_sum_fuel] below). *)
Fixpoint pairwise_sum (fuel : nat) (a : list float) : float :=
  let n := length a in
  if (n <? 8)%nat then sum_lt8 a
  else if (n <=? 128)%nat then sum_block a
  else
    match fuel with
    | O => nan
    | S fuel =>
        let n2 := (n / 2)%nat in
        let n2 := (n2 - n2 mod 8)%nat in
        pairwise_sum fuel (take n2 a) + pairwise_sum fuel (drop n2 a)
    end.

Definition sum (l : list float) : float := 0 + pairwise_sum (length l) l.

(** [np.mean]: the float64 sum over the count; [nan] on an empty input
    (numpy warns and does not raise). *)
Definition mean (l : list float) : float := sum l / Py.float_of_nat (length l).

(** [np.std]: the square root of the mean squared deviation (ddof = 0). *)
Definition std (l : list float) : float :=
  let m := mean l in
  PrimFloat.sqrt (mean (map (fun x => (x - m) * (x - m)) l)).

(** [np.min] and [np.max] keep a NaN once met, and raise [ValueError] on an
    empty array: [None] is that exception. *)
Definition minimum (a b : float) : float :=
  if (a <=? b) || PrimFloat.is_nan a then a else b.

Definition maximum (a b : float) : float :=
  if (b <=? a) || PrimFloat.is_nan a then a else b.

Definition min (l : list float) : option float :=
  match l with
  | [] => None
  | x :: rest => Some (fold_left minimum rest x)
  end.

Definition max (l : list float) : option float :=
  match l with
  | [] => None
  | x :: rest => Some (fold_left maximum rest x)
  end.

End Np.

(** ** Outcome of a call: a value, or a raised exception *)

Inductive exn := ValueError | IndexError | OSError.

Inductive outcome (A : Type) :=
| Returned (a : A)
| Raised (e : exn).
Arguments Returned {A} a.
Arguments Raised {A} e.

Definition bind {A B} (c : outcome A) (k : A -> outcome B) : outcome B :=
  match c with
  | Returned a => k a
  | Raised e => Raised e
  end.

Definition of_option {A} (e : exn) (o : option A) : outcome A :=
  match o with
  | Some a => Returned a
  | None => Raised e
  end.

(** ** detect_cycle_in_batch *)

Local Open Scope float_scope.

Definition EXPECTED_PULSE_COUNT : nat := 6.
Definition EXPECTED_CYCLE_FREQUENCY_HZ : float := 256.0.
Definition EXPECTED_CYCLE_DURATION_MS : float := 1000.0 / EXPECTED_CYCLE_FREQUENCY_HZ.
Definition VOLTAGE_THRESHOLD : float := 0.1.
Definition batch_duration_ms : float := 20.0.

Definition avg_sps (voltages : list float) : float :=
  (Py.float_of_nat (length voltages) / batch_duration_ms) * 1000.

Definition samples_per_cycle (voltages : list float) : Z :=
  Py.round (EXPECTED_CYCLE_DURATION_MS * (avg_sps voltages / 1000)).

Record VoltageStats := {
  vs_mean : float;
  vs_std : float;
  vs_min : float;
  vs_max : float
}.

(** The dictionary appended to [valid_cycles]. *)
Record ValidCycle := {
  c_start_idx : nat;
  c_quality : float;
  c_pulses : list float;
  c_widths : list float;
  c_clusters : list (list nat);
  c_voltages : list float;
  c_sorted_pulse_times : list float;
  c_sorted_pulse_widths : list float;
  c_sorted_pulse_clusters : list (list nat);
  c_sorted_pulse_voltages : list float
}.

(** The [result] dictionary.  The keys that exist only after a detection are
    [None] before. *)
Record DetectionResult := {
  detected : bool;
  score : float;
  quality : float;
  pulse_count : nat;
  high_samples : nat;
  pulse_width_ms : float;
  actual_sps : float;
  voltage_stats : VoltageStats;
  sorted_pulse_times : option (list float);
  sorted_pulse_widths : option (list float);
  sorted_pulse_clusters : option (list (list nat));
  sorted_pulse_voltages : option (list float);
  total_valid_cycles : option nat;
  all_valid_cycles : option (list ValidCycle)
}.

(** The initial [result]; [np.min] raises on an empty batch. *)
Definition initial_result (voltages : list float) : outcome DetectionResult :=
  let mean := Np.mean voltages in
  let std := Np.std voltages in
  bind (of_option ValueError (Np.min voltages)) (fun vmin =>
  bind (of_option ValueError (Np.max voltages)) (fun vmax =>
  Returned {|
    detected := false; score := 0.0; quality := 0.0; pulse_count := 0;
    high_samples := 0; pulse_width_ms := 0.0; actual_sps := avg_sps voltages;
    voltage_stats := {| vs_mean := mean; vs_std := std; vs_min := vmin; vs_max := vmax |};
    sorted_pulse_times := None; sorted_pulse_widths := None;
    sorted_pulse_clusters := None; sorted_pulse_voltages := None;
    total_valid_cycles := None; all_valid_cycles := None |})).

(** Step 1: [pulse_mask = buf > VOLTAGE_THRESHOLD]. *)
Definition pulse_mask (buf : list float) : list bool :=
  map (fun v => VOLTAGE_THRESHOLD <? v) buf.

(** Step 3: the scan that groups consecutive high samples; [i] is the index
    of the head of [mask]. *)
Fixpoint cluster_scan (mask : list bool) (i : nat) (pulse_clusters : list (list nat))
    (current_cluster : list nat) (in_pulse : bool) : list (list nat) :=
  match mask with
  | [] =>
      if in_pulse && (0 <? length current_cluster)%nat
      then pulse_clusters ++ [current_cluster] else pulse_clusters
  | high :: rest =>
      if high then
        if negb in_pulse then cluster_scan rest (S i) pulse_clusters [i] true
        else cluster_scan rest (S i) pulse_clusters (current_cluster ++ [i]) true
      else
        if in_pulse then
          cluster_scan rest (S i)
            (if (0 <? length current_cluster)%nat
             then pulse_clusters ++ [current_cluster] else pulse_clusters)
            [] false
        else cluster_scan rest (S i) pulse_clusters current_cluster false
  end.

Definition pulse_clusters (buf : list float) : list (list nat) :=
  cluster_scan (pulse_mask buf) 0 [] [] false.

(** Step 4: centre time, width and mean voltage of a cluster. *)
Definition center_time (sps : float) (cluster : list nat) : float :=
  Np.mean (map Py.float_of_nat cluster) / sps * 1000.

Definition cluster_width (sps : float) (cluster : list nat) : float :=
  Py.float_of_Z (Z.of_nat (List.last cluster 0%nat) - Z.of_nat (List.hd 0%nat cluster)) / sps * 1000.

Definition cluster_voltage (buf : list float) (cluster : list nat) : float :=
  Np.mean (map (fun idx => nth idx buf 0) cluster).

Definition pulse_center_times (buf : list float) : list float :=
  map (center_time (avg_sps buf)) (pulse_clusters buf).

Definition pulse_widths (buf : list float) : list float :=
  map (cluster_width (avg_sps buf)) (pulse_clusters buf).

Definition pulse_voltages (buf : list float) : list float :=
  map (cluster_voltage buf) (pulse_clusters buf).

(** The slice [l[start : start + n]]. *)
Definition slice {A} (start n : nat) (l : list A) : list A := take n (drop start l).

(** [cycle_pulses[i] - cycle_pulses[i-1]] for [i] from 1. *)
Fixpoint spacings_of (cycle_pulses : list float) : list float :=
  match cycle_pulses with
  | a :: (b :: _) as rest => (b - a) :: spacings_of rest
  | _ => []
  end.

Definition min_or_0 (l : list float) : float :=
  match l with [] => 0 | x :: rest => Py.min_list x rest end.

Definition max_or_0 (l : list float) : float :=
  match l with [] => 0 | x :: rest => Py.max_list x rest end.

(** The characteristics of one window of pulses. *)
Definition cycle_duration (cycle_pulses cycle_widths : list float) : float :=
  List.last cycle_pulses 0 - List.hd 0 cycle_pulses + Np.mean cycle_widths.

Definition avg_pulse_width (cycle_widths : list float) : float := Np.mean cycle_widths.

Definition cycle_duration_ok (cycle_pulses cycle_widths : list float) : bool :=
  (2.0 <=? cycle_duration cycle_pulses cycle_widths)
  && (cycle_duration cycle_pulses cycle_widths <=? 6.0).

Definition pulse_width_ok (cycle_widths : list float) : bool :=
  (0.1 <=? avg_pulse_width cycle_widths) && (avg_pulse_width cycle_widths <=? 0.5).

Definition spacing_ok (cycle_pulses : list float) : bool :=
  let spacings := spacings_of cycle_pulses in
  ((0.1 <=? min_or_0 spacings) && (min_or_0 spacings <=? 2.0))
  && ((0.1 <=? max_or_0 spacings) && (max_or_0 spacings <=? 2.0)).

Definition pulse_count_ok (cycle_pulses : list float) : bool :=
  (length cycle_pulses =? EXPECTED_PULSE_COUNT)%nat.

Definition cycle_ok (cycle_pulses cycle_widths : list float) : bool :=
  cycle_duration_ok cycle_pulses cycle_widths && pulse_width_ok cycle_widths
  && spacing_ok cycle_pulses && pulse_count_ok cycle_pulses.

(** The quality score of a window that passed the checks. *)
Definition quality_score (cycle_pulses cycle_widths : list float) : float :=
  let duration_error :=
    PrimFloat.abs (cycle_duration cycle_pulses cycle_widths - EXPECTED_CYCLE_DURATION_MS)
    / EXPECTED_CYCLE_DURATION_MS in
  let width_error := PrimFloat.abs (avg_pulse_width cycle_widths - 0.24) / 0.24 in
  let spacings := spacings_of cycle_pulses in
  let avg_spacing := Np.mean spacings in
  let spacing_std := Np.std spacings in
  let spacing_consistency :=
    if 0 <? avg_spacing then 1.0 - (spacing_std / avg_spacing) else 0.0 in
  let spacing_consistency := Py.max2 0 spacing_consistency in
  Py.max2 0 (1 - (duration_error + width_error + (1 - spacing_consistency)) / 3).

(** One entry of [pulse_data]: (time, width, cluster, voltage). *)
Definition pulse_datum : Type := float * float * list nat * float.

Definition zip4 (ts ws : list float) (cs : list (list nat)) (vs : list float) : list pulse_datum :=
  zip (zip (zip ts ws) cs) vs.

Definition pd_time (p : pulse_datum) : float := p.1.1.1.
Definition pd_width (p : pulse_datum) : float := p.1.1.2.
Definition pd_cluster (p : pulse_datum) : list nat := p.1.2.
Definition pd_voltage (p : pulse_datum) : float := p.2.

(** Step 5, the body of the loop over [start_idx]: [Some] is the dictionary
    appended to [valid_cycles], [None] a window that is skipped or rejected. *)
Definition scan_cycle (buf : list float) (start_idx : nat) : option ValidCycle :=
  let cycle_pulses := slice start_idx EXPECTED_PULSE_COUNT (pulse_center_times buf) in
  let cycle_widths := slice start_idx EXPECTED_PULSE_COUNT (pulse_widths buf) in
  let cycle_clusters := slice start_idx EXPECTED_PULSE_COUNT (pulse_clusters buf) in
  let cycle_voltages := slice start_idx EXPECTED_PULSE_COUNT (pulse_voltages buf) in
  if negb (length cycle_pulses =? EXPECTED_PULSE_COUNT)%nat then None
  else if cycle_ok cycle_pulses cycle_widths then
    let pulse_data :=
      Py.sort_by pd_time (zip4 cycle_pulses cycle_widths cycle_clusters cycle_voltages) in
    Some {|
      c_start_idx := start_idx;
      c_quality := quality_score cycle_pulses cycle_widths;
      c_pulses := cycle_pulses;
      c_widths := cycle_widths;
      c_clusters := cycle_clusters;
      c_voltages := cycle_voltages;
      c_sorted_pulse_times := map pd_time pulse_data;
      c_sorted_pulse_widths := map pd_width pulse_data;
      c_sorted_pulse_clusters := map pd_cluster pulse_data;
      c_sorted_pulse_voltages := map pd_voltage pulse_data |}
  else None.

(** [range(len(pulse_center_times) - EXPECTED_PULSE_COUNT + 1)]: empty when
    the bound is not positive. *)
Definition start_indices (buf : list float) : list nat :=
  seq 0 (Z.to_nat (Z.of_nat (length (pulse_center_times buf))
                   - Z.of_nat EXPECTED_PULSE_COUNT + 1)).

(** [valid_cycles] when the loop ends, in scan order. *)
Definition scanned_cycles (buf : list float) : list ValidCycle :=
  omap (scan_cycle buf) (start_indices buf).

(** [valid_cycles] after [valid_cycles.sort(key=quality, reverse=True)]. *)
Definition valid_cycles (buf : list float) : list ValidCycle :=
  Py.sort_by_reverse c_quality (scanned_cycles buf).

Definition count_high (voltages : list float) : nat :=
  length (List.filter (fun v => VOLTAGE_THRESHOLD <? v) voltages).

Definition detect_cycle_in_batch (voltages : list float) : outcome DetectionResult :=
  bind (initial_result voltages) (fun result =>
  if (Z.of_nat (length voltages) <? samples_per_cycle voltages)%Z then Returned result
  else
    match valid_cycles voltages with
    | best_cycle :: _ =>
        Returned {|
          detected := true;
          score := c_quality best_cycle;
          quality := c_quality best_cycle;
          pulse_count := EXPECTED_PULSE_COUNT;
          high_samples := count_high voltages;
          pulse_width_ms := Np.mean (c_sorted_pulse_widths best_cycle);
          actual_sps := actual_sps result;
          voltage_stats := voltage_stats result;
          sorted_pulse_times := Some (c_sorted_pulse_times best_cycle);
          sorted_pulse_widths := Some (c_sorted_pulse_widths best_cycle);
          sorted_pulse_clusters := Some (c_sorted_pulse_clusters best_cycle);
          sorted_pulse_voltages := Some (c_sorted_pulse_voltages best_cycle);
          total_valid_cycles := Some (length (valid_cycles voltages));
          all_valid_cycles := Some (valid_cycles voltages) |}
    | [] => Returned result
    end).

(** ** Concrete batches *)

(** 200 samples (10 kHz effective rate): six pulses of three samples each,
    one every six samples, of amplitude [amp], on a floor of [floor]. *)
Definition six_pulses (floor amp : float) : list float :=
  repeat floor 2
  ++ concat (repeat (repeat amp 3 ++ repeat floor 3) 6)
  ++ repeat floor 162.

(** The same with seven pulses: two overlapping windows of six. *)
Definition seven_pulses (floor amp : float) : list float :=
  repeat floor 2
  ++ concat (repeat (repeat amp 3 ++ repeat floor 3) 7)
  ++ repeat floor 156.

Definition quiet_batch : list float := repeat 0.05 200.

(** 4000 samples (200 kHz effective rate): six pulses of 43 samples each,
    one every 130 samples, one unit in the last place above the threshold,
    on a floor of 0.  Their mean as numpy sums it is below 0.1. *)
Definition faint_pulses : list float :=
  repeat 0 2
  ++ concat (repeat (repeat 0x1.999999999999bp-4 43 ++ repeat 0 87) 6)
  ++ repeat 0 3218.

(** ** The ADS131M02 driver: gain register *)

(** The driver object as far as the core uses it: the gain of the two
    channels ([channel_gains], a two-item list indexed by 0 and 1), and
    whether an SPI transfer to the converter completes ([spi_ok]) or raises. *)
Record ADS131M02 := {
  channel_gains : Z * Z;
  spi_ok : bool
}.

Definition GAIN_1 : nat := 0.
Definition GAIN_2 : nat := 1.
Definition GAIN_4 : nat := 2.
Definition GAIN_8 : nat := 3.

Definition driver_gain_values : list Z := [1; 2; 4; 8; 16; 32; 64; 128]%Z.

Definition gain_of_channel (channel : nat) (drv : ADS131M02) : Z :=
  match channel with
  | O => fst (channel_gains drv)
  | _ => snd (channel_gains drv)
  end.

(** [ADS131M02.set_gain]: the register write, then the stored gain. *)
Definition set_gain (channel gain : nat) (drv : ADS131M02) : outcome ADS131M02 :=
  if negb ((channel =? 0)%nat || (channel =? 1)%nat) then Raised ValueError
  else if negb (spi_ok drv) then Raised OSError
  else
    match driver_gain_values !! gain with
    | None => Raised IndexError
    | Some g =>
        Returned {|
          channel_gains :=
            if (channel =? 0)%nat then (g, snd (channel_gains drv))
            else (fst (channel_gains drv), g);
          spi_ok := spi_ok drv |}
    end.

(** The converter behind [self.adc]; [self.adc_type] is its constructor.
    The ADS7142 driver has no [channel_gains]. *)
Inductive ADC :=
| ADS131M02_adc (drv : ADS131M02)
| ADS7142_adc.

(** ** The state of MainWindow *)

(** A single-shot [QTimer]: inactive, or active with the milliseconds left
    until its timeout signal. *)
Definition QTimer : Type := option Z.

Record Label := {
  text : string;
  visible : bool
}.

Record CycleVoltageStats := {
  cv_mean : float;
  cv_std : float;
  cv_min : float;
  cv_max : float;
  cv_high_samples : nat;
  cv_pulse_voltages : option (list float)
}.

(** The cycle statistics attributes of MainWindow. *)
Record CycleStatistics := {
  cycle_detected_count : nat;
  total_cycles_detected : nat;
  cycle_timestamps : list float;
  cycle_intervals : list float;
  cycle_scores : list float;
  cycle_qualities : list float;
  cycle_pulse_counts : list nat;
  cycle_voltage_stats : list CycleVoltageStats;
  cycle_rate_history : list float;
  pattern_quality_history : list float
}.

(** The attributes the processing core reads and writes.  The last two are
    not attributes: [auto_gain_calls] counts the calls of [auto_adjust_gain]
    and [pattern_lost_signals] the calls of [show_no_pattern_detected]. *)
Record MainWindow := {
  adc : option ADC;
  sample_buffer : gmap string (list float);
  continuous_sample_buffer : gmap string (list float);
  continuous_wavelength_cycle : nat;
  adc_read_count : nat;
  sample_timestamps : list float;
  consecutive_cycles : nat;
  is_locked : bool;
  no_pattern_timer : QTimer;
  pattern_detection_active : bool;
  status_label : Label;
  wavelength_cycle_count : nat;
  current_wavelength : string;
  stats : CycleStatistics;
  auto_gain_calls : nat;
  pattern_lost_signals : nat
}.

Definition set_adc (v : option ADC) (s : MainWindow) : MainWindow :=
  {| adc := v; sample_buffer := sample_buffer s;
     continuous_sample_buffer := continuous_sample_buffer s;
     continuous_wavelength_cycle := continuous_wavelength_cycle s;
     adc_read_count := adc_read_count s; sample_timestamps := sample_timestamps s;
     consecutive_cycles := consecutive_cycles s; is_locked := is_locked s;
     no_pattern_timer := no_pattern_timer s;
     pattern_detection_active := pattern_detection_active s; status_label := status_label s;
     wavelength_cycle_count := wavelength_cycle_count s;
     current_wavelength := current_wavelength s; stats := stats s;
     auto_gain_calls := auto_gain_calls s; pattern_lost_signals := pattern_lost_signals s |}.

Definition set_sample_buffer (v : gmap string (list float)) (s : MainWindow) : MainWindow :=
  {| adc := adc s; sample_buffer := v; continuous_sample_buffer := continuous_sample_buffer s;
     continuous_wavelength_cycle := continuous_wavelength_cycle s;
     adc_read_count := adc_read_count s; sample_timestamps := sample_timestamps s;
     consecutive_cycles := consecutive_cycles s; is_locked := is_locked s;
     no_pattern_timer := no_pattern_timer s;
     pattern_detection_active := pattern_detection_active s; status_label := status_label s;
     wavelength_cycle_count := wavelength_cycle_count s;
     current_wavelength := current_wavelength s; stats := stats s;
     auto_gain_calls := auto_gain_calls s; pattern_lost_signals := pattern_lost_signals s |}.

Definition set_continuous_sample_buffer (v : gmap string (list float)) (s : MainWindow) : MainWindow :=
  {| adc := adc s; sample_buffer := sample_buffer s; continuous_sample_buffer := v;
     continuous_wavelength_cycle := continuous_wavelength_cycle s;
     adc_read_count := adc_read_count s; sample_timestamps := sample_timestamps s;
     consecutive_cycles := consecutive_cycles s; is_locked := is_locked s;
     no_pattern_timer := no_pattern_timer s;
     pattern_detection_active := pattern_detection_active s; status_label := status_label s;
     wavelength_cycle_count := wavelength_cycle_count s;
     current_wavelength := current_wavelength s; stats := stats s;
     auto_gain_calls := auto_gain_calls s; pattern_lost_signals := pattern_lost_signals s |}.

Definition set_continuous_wavelength_cycle (v : nat) (s : MainWindow) : MainWindow :=
  {| adc := adc s; sample_buffer := sample_buffer s;
     continuous_sample_buffer := continuous_sample_buffer s; continuous_wavelength_cycle := v;
     adc_read_count := adc_read_count s; sample_timestamps := sample_timestamps s;
     consecutive_cycles := consecutive_cycles s; is_locked := is_locked s;
     no_pattern_timer := no_pattern_timer s;
     pattern_detection_active := pattern_detection_active s; status_label := status_label s;
     wavelength_cycle_count := wavelength_cycle_count s;
     current_wavelength := current_wavelength s; stats := stats s;
     auto_gain_calls := auto_gain_calls s; pattern_lost_signals := pattern_lost_signals s |}.

Definition set_adc_read_count (v : nat) (s : MainWindow) : MainWindow :=
  {| adc := adc s; sample_buffer := sample_buffer s;
     continuous_sample_buffer := continuous_sample_buffer s;
     continuous_wavelength_cycle := continuous_wavelength_cycle s; adc_read_count := v;
     sample_timestamps := sample_timestamps s; consecutive_cycles := consecutive_cycles s;
     is_locked := is_locked s; no_pattern_timer := no_pattern_timer s;
     pattern_detection_active := pattern_detection_active s; status_label := status_label s;
     wavelength_cycle_count := wavelength_cycle_count s;
     current_wavelength := current_wavelength s; stats := stats s;
     auto_gain_calls := auto_gain_calls s; pattern_lost_signals := pattern_lost_signals s |}.

Definition set_sample_timestamps (v : list float) (s : MainWindow) : MainWindow :=
  {| adc := adc s; sample_buffer := sample_buffer s;
     continuous_sample_buffer := continuous_sample_buffer s;
     continuous_wavelength_cycle := continuous_wavelength_cycle s;
     adc_read_count := adc_read_count s; sample_timestamps := v;
     consecutive_cycles := consecutive_cycles s; is_locked := is_locked s;
     no_pattern_timer := no_pattern_timer s;
     pattern_detection_active := pattern_detection_active s; status_label := status_label s;
     wavelength_cycle_count := wavelength_cycle_count s;
     current_wavelength := current_wavelength s; stats := stats s;
     auto_gain_calls := auto_gain_calls s; pattern_lost_signals := pattern_lost_signals s |}.

Definition set_consecutive_cycles (v : nat) (s : MainWindow) : MainWindow :=
  {| adc := adc s; sample_buffer := sample_buffer s;
     continuous_sample_buffer := continuous_sample_buffer s;
     continuous_wavelength_cycle := continuous_wavelength_cycle s;
     adc_read_count := adc_read_count s; sample_timestamps := sample_timestamps s;
     consecutive_cycles := v; is_locked := is_locked s; no_pattern_timer := no_pattern_timer s;
     pattern_detection_active := pattern_detection_active s; status_label := status_label s;
     wavelength_cycle_count := wavelength_cycle_count s;
     current_wavelength := current_wavelength s; stats := stats s;
     auto_gain_calls := auto_gain_calls s; pattern_lost_signals := pattern_lost_signals s |}.

Definition set_is_locked (v : bool) (s : MainWindow) : MainWindow :=
  {| adc := adc s; sample_buffer := sample_buffer s;
     continuous_sample_buffer := continuous_sample_buffer s;
     continuous_wavelength_cycle := continuous_wavelength_cycle s;
     adc_read_count := adc_read_count s; sample_timestamps := sample_timestamps s;
     consecutive_cycles := consecutive_cycles s; is_locked := v;
     no_pattern_timer := no_pattern_timer s;
     pattern_detection_active := pattern_detection_active s; status_label := status_label s;
     wavelength_cycle_count := wavelength_cycle_count s;
     current_wavelength := current_wavelength s; stats := stats s;
     auto_gain_calls := auto_gain_calls s; pattern_lost_signals := pattern_lost_signals s |}.

Definition set_no_pattern_timer (v : QTimer) (s : MainWindow) : MainWindow :=
  {| adc := adc s; sample_buffer := sample_buffer s;
     continuous_sample_buffer := continuous_sample_buffer s;
     continuous_wavelength_cycle := continuous_wavelength_cycle s;
     adc_read_count := adc_read_count s; sample_timestamps := sample_timestamps s;
     consecutive_cycles := consecutive_cycles s; is_locked := is_locked s;
     no_pattern_timer := v; pattern_detection_active := pattern_detection_active s;
     status_label := status_label s; wavelength_cycle_count := wavelength_cycle_count s;
     current_wavelength := current_wavelength s; stats := stats s;
     auto_gain_calls := auto_gain_calls s; pattern_lost_signals := pattern_lost_signals s |}.

Definition set_pattern_detection_active (v : bool) (s : MainWindow) : MainWindow :=
  {| adc := adc s; sample_buffer := sample_buffer s;
     continuous_sample_buffer := continuous_sample_buffer s;
     continuous_wavelength_cycle := continuous_wavelength_cycle s;
     adc_read_count := adc_read_count s; sample_timestamps := sample_timestamps s;
     consecutive_cycles := consecutive_cycles s; is_locked := is_locked s;
     no_pattern_timer := no_pattern_timer s; pattern_detection_active := v;
     status_label := status_label s; wavelength_cycle_count := wavelength_cycle_count s;
     current_wavelength := current_wavelength s; stats := stats s;
     auto_gain_calls := auto_gain_calls s; pattern_lost_signals := pattern_lost_signals s |}.

Definition set_status_label (v : Label) (s : MainWindow) : MainWindow :=
  {| adc := adc s; sample_buffer := sample_buffer s;
     continuous_sample_buffer := continuous_sample_buffer s;
     continuous_wavelength_cycle := continuous_wavelength_cycle s;
     adc_read_count := adc_read_count s; sample_timestamps := sample_timestamps s;
     consecutive_cycles := consecutive_cycles s; is_locked := is_locked s;
     no_pattern_timer := no_pattern_timer s;
     pattern_detection_active := pattern_detection_active s; status_label := v;
     wavelength_cycle_count := wavelength_cycle_count s;
     current_wavelength := current_wavelength s; stats := stats s;
     auto_gain_calls := auto_gain_calls s; pattern_lost_signals := pattern_lost_signals s |}.

Definition set_wavelength_cycle_count (v : nat) (s : MainWindow) : MainWindow :=
  {| adc := adc s; sample_buffer := sample_buffer s;
     continuous_sample_buffer := continuous_sample_buffer s;
     continuous_wavelength_cycle := continuous_wavelength_cycle s;
     adc_read_count := adc_read_count s; sample_timestamps := sample_timestamps s;
     consecutive_cycles := consecutive_cycles s; is_locked := is_locked s;
     no_pattern_timer := no_pattern_timer s;
     pattern_detection_active := pattern_detection_active s; status_label := status_label s;
     wavelength_cycle_count := v; current_wavelength := current_wavelength s; stats := stats s;
     auto_gain_calls := auto_gain_calls s; pattern_lost_signals := pattern_lost_signals s |}.

Definition set_current_wavelength (v : string) (s : MainWindow) : MainWindow :=
  {| adc := adc s; sample_buffer := sample_buffer s;
     continuous_sample_buffer := continuous_sample_buffer s;
     continuous_wavelength_cycle := continuous_wavelength_cycle s;
     adc_read_count := adc_read_count s; sample_timestamps := sample_timestamps s;
     consecutive_cycles := consecutive_cycles s; is_locked := is_locked s;
     no_pattern_timer := no_pattern_timer s;
     pattern_detection_active := pattern_detection_active s; status_label := status_label s;
     wavelength_cycle_count := wavelength_cycle_count s; current_wavelength := v;
     stats := stats s; auto_gain_calls := auto_gain_calls s;
     pattern_lost_signals := pattern_lost_signals s |}.

Definition set_stats (v : CycleStatistics) (s : MainWindow) : MainWindow :=
  {| adc := adc s; sample_buffer := sample_buffer s;
     continuous_sample_buffer := continuous_sample_buffer s;
     continuous_wavelength_cycle := continuous_wavelength_cycle s;
     adc_read_count := adc_read_count s; sample_timestamps := sample_timestamps s;
     consecutive_cycles := consecutive_cycles s; is_locked := is_locked s;
     no_pattern_timer := no_pattern_timer s;
     pattern_detection_active := pattern_detection_active s; status_label := status_label s;
     wavelength_cycle_count := wavelength_cycle_count s;
     current_wavelength := current_wavelength s; stats := v;
     auto_gain_calls := auto_gain_calls s; pattern_lost_signals := pattern_lost_signals s |}.

Definition set_auto_gain_calls (v : nat) (s : MainWindow) : MainWindow :=
  {| adc := adc s; sample_buffer := sample_buffer s;
     continuous_sample_buffer := continuous_sample_buffer s;
     continuous_wavelength_cycle := continuous_wavelength_cycle s;
     adc_read_count := adc_read_count s; sample_timestamps := sample_timestamps s;
     consecutive_cycles := consecutive_cycles s; is_locked := is_locked s;
     no_pattern_timer := no_pattern_timer s;
     pattern_detection_active := pattern_detection_active s; status_label := status_label s;
     wavelength_cycle_count := wavelength_cycle_count s;
     current_wavelength := current_wavelength s; stats := stats s; auto_gain_calls := v;
     pattern_lost_signals := pattern_lost_signals s |}.

Definition set_pattern_lost_signals (v : nat) (s : MainWindow) : MainWindow :=
  {| adc := adc s; sample_buffer := sample_buffer s;
     continuous_sample_buffer := continuous_sample_buffer s;
     continuous_wavelength_cycle := continuous_wavelength_cycle s;
     adc_read_count := adc_read_count s; sample_timestamps := sample_timestamps s;
     consecutive_cycles := consecutive_cycles s; is_locked := is_locked s;
     no_pattern_timer := no_pattern_timer s;
     pattern_detection_active := pattern_detection_active s; status_label := status_label s;
     wavelength_cycle_count := wavelength_cycle_count s;
     current_wavelength := current_wavelength s; stats := stats s;
     auto_gain_calls := auto_gain_calls s; pattern_lost_signals := v |}.

Definition PARAMETERS : list string :=
  ["700nm"; "800nm"; "850nm"; "900nm"; "970nm"; "1050nm"]%string.

Definition LOCK_THRESHOLD : nat := 2.

(** [{param: [] for param in PARAMETERS}] *)
Definition empty_buffers : gmap string (list float) :=
  list_to_map (map (fun param => (param, [])) PARAMETERS).

(** [d[key].append(x)]; the two buffers always hold the six keys. *)
Definition buffer_append (key : string) (x : float) (d : gmap string (list float))
    : gmap string (list float) :=
  <[key := (d !!! key) ++ [x]]> d.

(** ** auto_adjust_gain *)

Definition gain_steps : list nat := [GAIN_1; GAIN_2; GAIN_4; GAIN_8].
Definition gain_values : list Z := [1; 2; 4; 8]%Z.

(** The loop that looks [current_gain] up in [gain_values]; index 0 when it
    is not there. *)
Fixpoint find_gain_idx (current_gain : Z) (values : list Z) (i : nat) : nat :=
  match values with
  | [] => 0%nat
  | gain_val :: rest =>
      if (current_gain =? gain_val)%Z then i else find_gain_idx current_gain rest (S i)
  end.

Definition current_gain_idx (current_gain : Z) : nat :=
  find_gain_idx current_gain gain_values 0.

(** [self.adc.set_gain(channel, gain)] inside [try], then the reset of the
    continuous buffer; an exception of the driver leaves both as they were. *)
Definition try_set_gain (channel gain : nat) (drv : ADS131M02) (s : MainWindow) : MainWindow :=
  match set_gain channel gain drv with
  | Returned drv' =>
      set_continuous_sample_buffer empty_buffers (set_adc (Some (ADS131M02_adc drv')) s)
  | Raised _ => s
  end.

Definition any_above (threshold_high : float) (voltage_batch : list float) : bool :=
  existsb (fun v => threshold_high <? PrimFloat.abs v) voltage_batch.

Definition any_below (threshold_low : float) (voltage_batch : list float) : bool :=
  existsb (fun v => PrimFloat.abs v <? threshold_low) voltage_batch.

(** [max(abs(v) for v in voltage_batch)] of a batch that is not empty. *)
Definition max_voltage (voltage_batch : list float) : float :=
  max_or_0 (map PrimFloat.abs voltage_batch).

Definition auto_adjust_gain (channel : nat) (voltage_batch : list float)
    (threshold_low threshold_high : float) (s : MainWindow) : MainWindow :=
  let s := set_auto_gain_calls (S (auto_gain_calls s)) s in
  match adc s with
  | Some (ADS131M02_adc drv) =>
      if negb (channel =? 0)%nat then s
      else
        let current_gain := gain_of_channel channel drv in
        let idx := current_gain_idx current_gain in
        match voltage_batch with
        | [] => s
        | _ :: _ =>
            if any_above threshold_high voltage_batch then
              if (0 <? idx)%nat
              then try_set_gain channel (nth (idx - 1) gain_steps 0%nat) drv s
              else s
            else if any_below threshold_low voltage_batch
                    && (max_voltage voltage_batch <=? threshold_high) then
              if (idx <? length gain_steps - 1)%nat
              then try_set_gain channel (nth (idx + 1) gain_steps 0%nat) drv s
              else s
            else s
        end
  | _ => s
  end.

(** ** sample_data *)

(** [lst.pop(0)] when [lst] has more than [n] items. *)
Definition pop_over {A} (n : nat) (l : list A) : list A :=
  if (n <? length l)%nat then tail l else l.

(** [lst[-n:]] *)
Definition last_n {A} (n : nat) (l : list A) : list A := drop (length l - n) l.

(** The continuous average: one wavelength per batch, round robin. *)
Definition record_batch (now : float) (voltages : list float) (s : MainWindow) : MainWindow :=
  let s := set_adc_read_count (adc_read_count s + length voltages) s in
  let s := set_sample_timestamps (sample_timestamps s ++ repeat now (length voltages)) s in
  let avg_val := Np.mean voltages in
  let s := set_continuous_wavelength_cycle (S (continuous_wavelength_cycle s)) s in
  let continuous_wavelength_idx := (continuous_wavelength_cycle s - 1) mod length PARAMETERS in
  let continuous_wavelength := nth continuous_wavelength_idx PARAMETERS ""%string in
  set_continuous_sample_buffer
    (buffer_append continuous_wavelength avg_val (continuous_sample_buffer s)) s.

Definition wavelengths : list string :=
  ["700nm"; "800nm"; "850nm"; "900nm"; "970nm"; "1050nm"]%string.

(** The gain that normalises a pulse voltage. *)
Definition normalising_gain (s : MainWindow) : Z :=
  match adc s with
  | Some (ADS131M02_adc drv) => gain_of_channel 0 drv
  | _ => 1%Z
  end.

(** The loop over [enumerate(zip(times, clusters, voltages))]: pulse [i]
    goes to [wavelengths[i]]. *)
Fixpoint assign_pulses (i : nat) (pulses : list (float * list nat * float)) (s : MainWindow)
    : MainWindow :=
  match pulses with
  | [] => s
  | (_, _, pulse_voltage) :: rest =>
      let s :=
        match wavelengths !! i with
        | Some wavelength =>
            set_sample_buffer
              (buffer_append wavelength (pulse_voltage / Py.float_of_Z (normalising_gain s))
                 (sample_buffer s)) s
        | None => s
        end in
      assign_pulses (S i) rest s
  end.

(** The body of the loop over the cycles to process. *)
Definition process_cycle (voltages : list float) (cycle_data : ValidCycle) (s : MainWindow)
    : MainWindow :=
  if ((length (c_sorted_pulse_times cycle_data) =? 6)%nat
      && (length (c_sorted_pulse_clusters cycle_data) =? 6)%nat) then
    let s :=
      assign_pulses 0
        (zip (zip (c_sorted_pulse_times cycle_data) (c_sorted_pulse_clusters cycle_data))
           (c_sorted_pulse_voltages cycle_data)) s in
    let s := set_wavelength_cycle_count (S (wavelength_cycle_count s)) s in
    if existsb (fun v => PrimFloat.abs v <? 0.1) (c_sorted_pulse_voltages cycle_data)
    then auto_adjust_gain 0 voltages 0.1 1.0 s
    else s
  else s.

(** The cycles of a result that the loop visits: at most three. *)
Definition cycles_to_process (pattern_result : DetectionResult) : list ValidCycle :=
  let all_valid_cycles := default [] (all_valid_cycles pattern_result) in
  let total_valid_cycles := default 0%nat (total_valid_cycles pattern_result) in
  take (Nat.min 3 total_valid_cycles) all_valid_cycles.

Definition process_cycles (voltages : list float) (pattern_result : DetectionResult)
    (s : MainWindow) : MainWindow :=
  fold_left (fun s cycle_data => process_cycle voltages cycle_data s)
    (cycles_to_process pattern_result) s.

Definition voltage_stats_entry (voltages : list float) (pattern_result : DetectionResult)
    : CycleVoltageStats :=
  match sorted_pulse_voltages pattern_result with
  | Some ((v :: rest) as pulse_voltages) =>
      {| cv_mean := Np.mean pulse_voltages; cv_std := Np.std pulse_voltages;
         cv_min := fold_left Np.minimum rest v; cv_max := fold_left Np.maximum rest v;
         cv_high_samples := high_samples pattern_result;
         cv_pulse_voltages := Some pulse_voltages |}
  | _ =>
      {| cv_mean := Np.mean voltages; cv_std := Np.std voltages;
         cv_min := default nan (Np.min voltages); cv_max := default nan (Np.max voltages);
         cv_high_samples := high_samples pattern_result;
         cv_pulse_voltages := None |}
  end.

(** The cycle statistics after a detection at time [now]. *)
Definition update_statistics (now : float) (voltages : list float)
    (pattern_result : DetectionResult) (st : CycleStatistics) : CycleStatistics :=
  let timestamps := cycle_timestamps st ++ [now] in
  let intervals :=
    if (1 <? length timestamps)%nat
    then pop_over 100 (cycle_intervals st ++ [now - List.last (cycle_timestamps st) 0])
    else cycle_intervals st in
  let qualities := pop_over 100 (cycle_qualities st ++ [quality pattern_result]) in
  {| cycle_detected_count := S (cycle_detected_count st);
     total_cycles_detected := S (total_cycles_detected st);
     cycle_timestamps := timestamps;
     cycle_intervals := intervals;
     cycle_scores := pop_over 100 (cycle_scores st ++ [score pattern_result]);
     cycle_qualities := qualities;
     cycle_pulse_counts := pop_over 100 (cycle_pulse_counts st ++ [pulse_count pattern_result]);
     cycle_voltage_stats :=
       pop_over 100 (cycle_voltage_stats st ++ [voltage_stats_entry voltages pattern_result]);
     cycle_rate_history :=
       if (0 <? length intervals)%nat then
         let avg_interval := Np.mean intervals in
         pop_over 50 (cycle_rate_history st
                      ++ [if 0 <? avg_interval then 1.0 / avg_interval else 0])
       else cycle_rate_history st;
     pattern_quality_history :=
       if (0 <? length qualities)%nat
       then pop_over 50 (pattern_quality_history st ++ [Np.mean (last_n 10 qualities)])
       else pattern_quality_history st |}.

(** The branch [if pattern_result['detected']]. *)
Definition on_detected (now : float) (voltages : list float) (pattern_result : DetectionResult)
    (s : MainWindow) : MainWindow :=
  let s := set_no_pattern_timer None s in
  let s := set_pattern_detection_active false s in
  let s := process_cycles voltages pattern_result s in
  let s :=
    set_current_wavelength
      (nth (wavelength_cycle_count s mod length wavelengths) wavelengths ""%string) s in
  let s := set_stats (update_statistics now voltages pattern_result (stats s)) s in
  let s := set_consecutive_cycles (S (consecutive_cycles s)) s in
  let s := if (LOCK_THRESHOLD <=? consecutive_cycles s)%nat then set_is_locked true s else s in
  set_status_label {| text := text (status_label s); visible := false |} s.

(** The branch [else]: no pattern in the batch. *)
Definition on_not_detected (voltages : list float) (s : MainWindow) : MainWindow :=
  let s := set_consecutive_cycles 0 s in
  let s := set_is_locked false s in
  let s :=
    if negb (pattern_detection_active s)
    then set_pattern_detection_active true (set_no_pattern_timer (Some 3000%Z) s)
    else s in
  auto_adjust_gain 0 voltages 0.1 1.0 s.

(** [sample_data], on the batch [read_adc_batch] returned and the clock
    reading [now]. *)
Definition sample_data (now : float) (batch : list (float * float)) (s : MainWindow)
    : outcome MainWindow :=
  match adc s with
  | None => Returned s
  | Some _ =>
      let voltages := map snd batch in
      match voltages with
      | [] => Returned s
      | _ :: _ =>
          bind (detect_cycle_in_batch voltages) (fun pattern_result =>
          let s := record_batch now voltages s in
          if detected pattern_result
          then Returned (on_detected now voltages pattern_result s)
          else Returned (on_not_detected voltages s))
      end
  end.

(** ** The silence timer *)

(** [show_no_pattern_detected]: the slot of the timer's timeout. *)
Definition show_no_pattern_detected (s : MainWindow) : MainWindow :=
  let s := set_pattern_lost_signals (S (pattern_lost_signals s)) s in
  let s := set_status_label {| text := "NO PATTERN DETECTED"; visible := true |} s in
  set_pattern_detection_active false s.

(** [dt] milliseconds pass in the event loop: an active single-shot timer
    whose time is up emits its timeout once and is inactive afterwards. *)
Definition elapse (dt : Z) (s : MainWindow) : MainWindow :=
  match no_pattern_timer s with
  | Some remaining =>
      if (remaining <=? dt)%Z then show_no_pattern_detected (set_no_pattern_timer None s)
      else set_no_pattern_timer (Some (remaining - dt)%Z) s
  | None => s
  end.

(** What the event loop delivers to the core. *)
Inductive event :=
| Sample (now : float) (batch : list (float * float))
| Elapse (dt : Z).

Definition step (s : MainWindow) (ev : event) : MainWindow :=
  match ev with
  | Sample now batch =>
      match sample_data now batch s with
      | Returned s' => s'
      | Raised _ => s
      end
  | Elapse dt => elapse dt s
  end.

Definition run (evs : list event) (s : MainWindow) : MainWindow := fold_left step evs s.

Definition elapsed_of (ev : event) : Z :=
  match ev with Elapse dt => dt | Sample _ _ => 0%Z end.

Definition total_elapsed (evs : list event) : Z := fold_right Z.add 0%Z (map elapsed_of evs).

(** ** update_graph_from_buffer: maintenance of the two histories *)

(** [recent_pattern_detection] at the clock reading [current_time]. *)
Definition recent_pattern_detection (current_time : float) (s : MainWindow) : bool :=
  match cycle_timestamps (stats s) with
  | [] => false
  | ts => (current_time - List.last ts 0) <? 2.0
  end.

(** The pattern data is dropped when the last detection is older than 5 s. *)
Definition clear_stale (current_time : float) (s : MainWindow) : MainWindow :=
  match cycle_timestamps (stats s) with
  | [] => s
  | ts =>
      if negb (recent_pattern_detection current_time s)
         && (5.0 <? (current_time - List.last ts 0))
      then
        set_sample_buffer
          (fold_left
             (fun d param =>
                match d !!! param with [] => d | _ :: _ => <[param := []]> d end)
             PARAMETERS (sample_buffer s)) s
      else s
  end.

(** The continuous history of a wavelength that is reported from is cut to
    its last 50 values once it holds more than 100. *)
Definition trim_continuous (recent : bool) (s : MainWindow) (param : string) : MainWindow :=
  let continuous := continuous_sample_buffer s !!! param in
  let pattern := sample_buffer s !!! param in
  let reported_from_continuous :=
    match continuous, pattern with
    | _ :: _, [] => true
    | _ :: _, _ :: _ => negb recent
    | [], _ => false
    end in
  if reported_from_continuous && (100 <? length continuous)%nat
  then set_continuous_sample_buffer
         (<[param := last_n 50 continuous]> (continuous_sample_buffer s)) s
  else s.

(** The effect of [update_graph_from_buffer] on the two histories; the rows
    it plots and logs are not part of this state. *)
Definition update_graph_from_buffer (current_time : float) (s : MainWindow) : MainWindow :=
  let recent := recent_pattern_detection current_time s in
  let s := clear_stale current_time s in
  fold_left (trim_continuous recent) PARAMETERS s.

(** ** Concrete states *)

Definition initial_stats : CycleStatistics :=
  {| cycle_detected_count := 0; total_cycles_detected := 0; cycle_timestamps := [];
     cycle_intervals := []; cycle_scores := []; cycle_qualities := [];
     cycle_pulse_counts := []; cycle_voltage_stats := []; cycle_rate_history := [];
     pattern_quality_history := [] |}.

(** MainWindow after [__init__] with an ADS131M02 whose channel 0 has the
    gain [g]. *)
Definition window_with_gain (g : Z) (ok : bool) : MainWindow :=
  {| adc := Some (ADS131M02_adc {| channel_gains := (g, 1%Z); spi_ok := ok |});
     sample_buffer := empty_buffers; continuous_sample_buffer := empty_buffers;
     continuous_wavelength_cycle := 0; adc_read_count := 0; sample_timestamps := [];
     consecutive_cycles := 0; is_locked := false; no_pattern_timer := None;
     pattern_detection_active := false;
     status_label := {| text := ""; visible := false |};
     wavelength_cycle_count := 0; current_wavelength := "700nm";
     stats := initial_stats; auto_gain_calls := 0; pattern_lost_signals := 0 |}.

Definition initial_window : MainWindow := window_with_gain 1 true.

(** MainWindow with a continuous history of 101 values for 800 nm. *)
Definition long_history_window : MainWindow :=
  set_continuous_sample_buffer
    (<["800nm"%string := map Py.float_of_nat (seq 0 101)]> empty_buffers) initial_window.

(** A batch as [read_adc_batch] returns it: (timestamp, voltage) pairs. *)
Definition stamped (voltages : list float) : list (float * float) :=
  map (fun v => (0, v)) voltages.

(** Seven pulses, the second one early: the window that starts at 0 has
    uneven spacings, the window that starts at 1 is regular. *)
Definition uneven_pulses (floor amp : float) : list float :=
  repeat floor 2
  ++ repeat amp 3 ++ repeat floor 1
  ++ concat (repeat (repeat amp 3 ++ repeat floor 3) 6)
  ++ repeat floor 158.

(** ** Predicates the statements use *)

Definition not_nan (x : float) : Prop := PrimFloat.is_nan x = false.

(** The detection outcome of a batch of voltages. *)
Definition detects (voltages : list float) : bool :=
  match detect_cycle_in_batch voltages with
  | Returned r => detected r
  | Raised _ => false
  end.

(** The cycles [sample_data] assigns to wavelengths for a batch. *)
Definition processed_cycles (voltages : list float) : list ValidCycle :=
  match detect_cycle_in_batch voltages with
  | Returned r => if detected r then cycles_to_process r else []
  | Raised _ => []
  end.

Definition has_low_pulse (c : ValidCycle) : bool :=
  existsb (fun v => PrimFloat.abs v <? 0.1) (c_sorted_pulse_voltages c).

(** The window of six pulses that starts at [start_idx]. *)
Definition window_pulses (buf : list float) (start_idx : nat) : list float :=
  slice start_idx EXPECTED_PULSE_COUNT (pulse_center_times buf).

Definition window_widths (buf : list float) (start_idx : nat) : list float :=
  slice start_idx EXPECTED_PULSE_COUNT (pulse_widths buf).

Definition window_ok (buf : list float) (start_idx : nat) : bool :=
  cycle_ok (window_pulses buf start_idx) (window_widths buf start_idx).

(** The quality score in the words of the specification, for a nominal
    cycle duration [nominal]: the span is the last pulse time minus the first
    plus the mean width. *)
Definition spec_span (pulses widths : list float) : float :=
  List.last pulses 0 - List.hd 0 pulses + Np.mean widths.

Definition spec_duration_error (nominal : float) (pulses widths : list float) : float :=
  PrimFloat.abs (spec_span pulses widths - nominal) / nominal.

Definition spec_width_error (widths : list float) : float :=
  PrimFloat.abs (Np.mean widths - 0.24) / 0.24.

(** [max(0, 1 - stddev(spacings)/mean(spacings))]; with [guarded], 0 when the
    mean spacing is not positive. *)
Definition spec_spacing_consistency (guarded : bool) (pulses : list float) : float :=
  let spacings := spacings_of pulses in
  if guarded && negb (0 <? Np.mean spacings) then 0
  else Py.max2 0 (1 - Np.std spacings / Np.mean spacings).

Definition spec_quality (nominal : float) (guarded : bool) (pulses widths : list float) : float :=
  Py.max2 0
    (1 - (spec_duration_error nominal pulses widths + spec_width_error widths
          + (1 - spec_spacing_consistency guarded pulses)) / 3).

(** The rung of the ladder a window stands on. *)
Definition gain_rung (s : MainWindow) : nat := current_gain_idx (normalising_gain s).

(** The silence timer and its flag agree. *)
Definition timer_consistent (s : MainWindow) : Prop :=
  pattern_detection_active s = true <-> no_pattern_timer s <> None.

(** The gains of the two channels, when the converter has gains. *)
Definition channel_gains_of (s : MainWindow) : option (Z * Z) :=
  match adc s with
  | Some (ADS131M02_adc drv) => Some (channel_gains drv)
  | _ => None
  end.

(** An event without detection: a batch in which no cycle is detected, or
    time that passes. *)
(** The check [len(voltages) < samples_per_cycle] of the detector, for a
    batch of [n] samples. *)
Definition buffer_too_small (n : Z) : bool :=
  let samples_per_cycle :=
    Py.round (EXPECTED_CYCLE_DURATION_MS * (Py.float_of_Z n / batch_duration_ms * 1000 / 1000)) in
  (n <? samples_per_cycle)%Z.

(** No batch of [n], [n + 1], ..., [n + count - 1] samples is too small. *)
Fixpoint none_too_small (count : nat) (n : Z) : bool :=
  match count with
  | O => true
  | S count => negb (buffer_too_small n) && none_too_small count (Z.succ n)
  end.

(** A continuous history after the reporting step: cut to its newest 50
    values when it held more than 100. *)
Definition trimmed (continuous : list float) : list float :=
  if (100 <? length continuous)%nat then last_n 50 continuous else continuous.

(** The status label as [show_no_pattern_detected] leaves it. *)
Definition no_pattern_label : Label :=
  {| text := "NO PATTERN DETECTED"; visible := true |}.

Definition quiet_event (ev : event) : Prop :=
  match ev with
  | Sample _ batch => detects (map snd batch) = false
  | Elapse dt => (0 <= dt)%Z
  end.

(** The lock counter, the lock flag, the silence timer with its flag, the
    status label and the count of pattern-lost signals. *)
Definition lock_part (s : MainWindow) :=
  (consecutive_cycles s, is_locked s, no_pattern_timer s, pattern_detection_active s,
   status_label s, pattern_lost_signals s).

(** How many of the indices [i, i + n) name the wavelength [w]. *)
Definition assigned_to (w : string) (i n : nat) : nat :=
  length (List.filter (fun j => bool_decide (wavelengths !! j = Some w)) (seq i n)).

(** A cycle whose sorted lists hold six items each, as every valid cycle's do. *)
Definition six_sorted (c : ValidCycle) : Prop :=
  length (c_sorted_pulse_times c) = 6%nat
  /\ length (c_sorted_pulse_clusters c) = 6%nat
  /\ length (c_sorted_pulse_voltages c) = 6%nat.

(** The lock flag is set exactly when the count of consecutive detections
    has reached the threshold. *)
Definition lock_consistent (s : MainWindow) : Prop :=
  is_locked s = true <-> LOCK_THRESHOLD <= consecutive_cycles s.

(** The gain that normalises is a gain of the ladder. *)
Definition gain_on_ladder (s : MainWindow) : Prop := In (normalising_gain s) gain_values.


(** How the gain controller may have moved a state from [s] to [s']: not
    at all, or by a successful write of a ladder gain to channel 0 followed by
    the reset of the continuous histories. *)
Definition gain_moved (s s' : MainWindow) : Prop :=
  (adc s' = adc s /\ continuous_sample_buffer s' = continuous_sample_buffer s)
  \/ (exists drv g,
        adc s = Some (ADS131M02_adc drv) /\ spi_ok drv = true /\ In g gain_values
        /\ adc s' = Some (ADS131M02_adc {| channel_gains := (g, snd (channel_gains drv));
                                            spi_ok := spi_ok drv |})
        /\ continuous_sample_buffer s' = empty_buffers).

(** The indices of the samples above the threshold, in order. *)
Definition high_indices (buf : list float) : list nat :=
  List.filter (fun i => VOLTAGE_THRESHOLD <? nth i buf 0) (seq 0 (length buf)).

(** A run of consecutive indices that is not empty. *)
Definition index_run (c : list nat) : Prop := exists a k, c = seq a (S k).

(** At least one index lies between the indices of [c1] and those of [c2]. *)
Definition gap_between (c1 c2 : list nat) : Prop :=
  forall x y, In x c1 -> In y c2 -> x + 1 < y.

(** The indices from [i] on that a mask marks. *)
Fixpoint marked (mask : list bool) (i : nat) : list nat :=
  match mask with
  | [] => []
  | high :: rest => (if high then [i] else []) ++ marked rest (S i)
  end.

(** ** get_dynamic_averaging_window *)

(** The window returned at the clock reading [current_time]; the two
    tracking attributes the method also sets are read nowhere in the core. *)
Definition get_dynamic_averaging_window (current_time : float) (s : MainWindow) : nat :=
  let cycles_in_last_second :=
    if (0 <? length (cycle_timestamps (stats s)))%nat
    then length (List.filter (fun ts => current_time - ts <=? 1.0) (cycle_timestamps (stats s)))
    else 0%nat in
  if (0 <? cycles_in_last_second)%nat
  then Nat.max 3 (Nat.min 30 (cycles_in_last_second * 6))
  else 10%nat.

(** The detections of the last second, as the window counts them. *)
Definition cycles_in_last_second (current_time : float) (s : MainWindow) : nat :=
  length (List.filter (fun ts => current_time - ts <=? 1.0) (cycle_timestamps (stats s))).

(** The cycle statistics are in step: one detection timestamp per detection
    counted, and in every capped list one entry per detection up to the cap
    of the list; the intervals and the rates start with the second
    detection. *)
Definition stats_in_step (st : CycleStatistics) : Prop :=
  let n := length (cycle_timestamps st) in
  cycle_detected_count st = n
  /\ total_cycles_detected st = n
  /\ length (cycle_intervals st) = Nat.min 100 (n - 1)
  /\ length (cycle_scores st) = Nat.min 100 n
  /\ length (cycle_qualities st) = Nat.min 100 n
  /\ length (cycle_pulse_counts st) = Nat.min 100 n
  /\ length (cycle_voltage_stats st) = Nat.min 100 n
  /\ length (cycle_rate_history st) = Nat.min 50 (n - 1)
  /\ length (pattern_quality_history st) = Nat.min 50 n.

(** The bookkeeping of a scan is in step: one sample timestamp per sample
    read, and the cycle statistics as above. *)
Definition counters_in_step (s : MainWindow) : Prop :=
  adc_read_count s = length (sample_timestamps s) /\ stats_in_step (stats s).

(** ** The ADS131M02 driver on the SPI bus *)

Module Spi.
Section Driver.

Local Open Scope Z_scope.

(** The converter at the other end of the bus: [spi.xfer2] maps the bytes
    sent and the state of the device to the bytes received and the next
    state of the device. *)
Context {Device : Type} (xfer2 : list Z -> Device -> list Z * Device).

(** The bus: the device, and the frames sent to it so far. *)
Record Bus := {
  device : Device;
  sent : list (list Z)
}.

(** The driver object: [channel_gains] and the bus behind [self.spi]. *)
Record ADS131M02 := {
  channel_gains : list Z;
  bus : Bus
}.

Definition CMD_NULL : Z := 0x0000.
Definition CMD_RREG : Z := 0xA000.
Definition CMD_WREG : Z := 0x6000.
Definition REG_GAIN : Z := 0x04.

Definition _spi_transfer (data : list Z) (b : Bus) : list Z * Bus :=
  let (result, d) := xfer2 data (device b) in
  (result, {| device := d; sent := sent b ++ [data] |}).

(** [while len(frame) < n: frame.append(0x00)]; the loop takes at most [n]
    rounds, which is the fuel it is given. *)
Fixpoint pad_frame (fuel n : nat) (frame : list Z) : list Z :=
  match fuel with
  | O => frame
  | S fuel => if (length frame <? n)%nat then pad_frame fuel n (frame ++ [0x00]) else frame
  end.

Definition _create_command_frame (command : Z) (data : list Z) : list Z :=
  let frame := [Z.land (Z.shiftr command 8) 0xFF; Z.land command 0xFF] in
  let frame := match data with [] => frame | _ :: _ => frame ++ data end in
  pad_frame 6 6 frame.

Definition read_register (reg_addr : Z) (b : Bus) : Z * Bus :=
  let cmd := Z.lor (Z.lor CMD_RREG (Z.shiftl (Z.land reg_addr 0x1F) 7)) 0x01 in
  let frame := _create_command_frame cmd [] in
  let (_, b) := _spi_transfer frame b in
  let response_frame := _create_command_frame CMD_NULL [] in
  let (response, b) := _spi_transfer response_frame b in
  if (5 <=? length response)%nat
  then (Z.lor (Z.shiftl (nth 3 response 0) 8) (nth 2 response 0), b)
  else (0, b).

Definition write_register (reg_addr value : Z) (b : Bus) : Bus :=
  let cmd := Z.lor (Z.lor CMD_WREG (Z.shiftl (Z.land reg_addr 0x1F) 7)) 0x01 in
  let data := [Z.land (Z.shiftr value 8) 0xFF; Z.land value 0xFF] in
  let frame := _create_command_frame cmd data in
  snd (_spi_transfer frame b).

Definition gain_values : list Z := [1; 2; 4; 8; 16; 32; 64; 128].

(** [lst[i]] for a Python int [i]: a negative index counts from the end. *)
Definition py_index {A} (l : list A) (i : Z) : option A :=
  if i <? 0 then
    if - Z.of_nat (length l) <=? i then l !! Z.to_nat (Z.of_nat (length l) + i) else None
  else l !! Z.to_nat i.

(** [set_gain]: the driver afterwards, and the exception raised if any. *)
Definition set_gain (channel gain : Z) (drv : ADS131M02) : ADS131M02 * option exn :=
  if negb ((channel =? 0) || (channel =? 1)) then (drv, Some ValueError)
  else
    let (gain_reg, b) := read_register REG_GAIN (bus drv) in
    let gain_reg :=
      if channel =? 0 then Z.lor (Z.land gain_reg 0xFFF8) (Z.land gain 0x07)
      else Z.lor (Z.land gain_reg 0xFF8F) (Z.shiftl (Z.land gain 0x07) 4) in
    let b := write_register REG_GAIN gain_reg b in
    let drv := {| channel_gains := channel_gains drv; bus := b |} in
    match py_index gain_values gain with
    | None => (drv, Some IndexError)
    | Some g =>
        ({| channel_gains := <[Z.to_nat channel := g]> (channel_gains drv); bus := b |}, None)
    end.

(** [read_data_raw]; [drdy_high] says that a data-ready pin is configured
    and reads HIGH. *)
Definition signed24 (data : Z) : Z :=
  if Z.land data 0x800000 =? 0 then data else data - 0x1000000.

Definition read_data_raw (drdy_high : bool) (b : Bus) : option (list Z) * Bus :=
  if drdy_high then (None, b)
  else
    let frame := _create_command_frame CMD_NULL [] in
    let frame := pad_frame 12 12 frame in
    let (response, b) := _spi_transfer frame b in
    if (12 <=? length response)%nat then
      let ch0_data :=
        Z.lor (Z.lor (Z.shiftl (nth 4 response 0) 16) (Z.shiftl (nth 5 response 0) 8))
          (nth 6 response 0) in
      let ch1_data :=
        Z.lor (Z.lor (Z.shiftl (nth 7 response 0) 16) (Z.shiftl (nth 8 response 0) 8))
          (nth 9 response 0) in
      (Some [signed24 ch0_data; signed24 ch1_data], b)
    else (None, b).

End Driver.
End Spi.

(** ** The ADS7142 driver on the I2C bus *)

Module I2c.
Section Driver.

Local Open Scope Z_scope.

Inductive error := ADS7142Error | IndexError | ZeroDivisionError | ValueError | OverflowError.

(** The driver object: the reference voltage, the input range, and the
    register writes sent over the bus so far, each a register address and a
    value ([bus.write_byte_data]). *)
Record ADS7142 := {
  voltage_reference : float;
  input_range : Z;
  written : list (Z * Z)
}.

Definition DATA_CH0 : Z := 0x08.
Definition THRESHOLD_CH0 : Z := 0x20.

Definition RANGE_0_TO_2_5V : Z := 0x00.
Definition RANGE_0_TO_5V : Z := 0x01.
Definition RANGE_0_TO_10V : Z := 0x02.
Definition RANGE_PM_2_5V : Z := 0x03.
Definition RANGE_PM_5V : Z := 0x04.
Definition RANGE_PM_10V : Z := 0x05.

(** [int(x)] of a float: the integer part; it raises on a NaN and on an
    infinity. *)
Definition int (x : float) : error + Z :=
  match Prim2SF x with
  | S754_zero _ => inr 0
  | S754_finite s m e =>
      let mag := if 0 <=? e then Z.pos m * 2 ^ e else Z.pos m / 2 ^ (- e) in
      inr (if s then - mag else mag)
  | S754_infinity _ => inl OverflowError
  | S754_nan => inl ValueError
  end.

Definition write_register (register value : Z) (drv : ADS7142) : ADS7142 :=
  {| voltage_reference := voltage_reference drv; input_range := input_range drv;
     written := written drv ++ [(register, value)] |}.

Definition set_threshold (channel : Z) (threshold : float) (drv : ADS7142)
    : error + ADS7142 :=
  if negb ((0 <=? channel) && (channel <=? 7)) then inl ADS7142Error
  else if (voltage_reference drv =? 0)%float then inl ZeroDivisionError
  else
    match int ((threshold / voltage_reference drv) * 4095.0)%float with
    | inl e => inl e
    | inr raw_threshold =>
        let raw_threshold := Z.max 0 (Z.min 4095 raw_threshold) in
        let threshold_register := THRESHOLD_CH0 + channel in
        let drv := write_register threshold_register (Z.shiftr raw_threshold 4) drv in
        inr (write_register (threshold_register + 1)
               (Z.shiftl (Z.land raw_threshold 0x0F) 4) drv)
    end.

Definition _raw_to_voltage (raw_value : Z) (drv : ADS7142) : float :=
  let ratio := (Py.float_of_Z raw_value / 4095.0)%float in
  if input_range drv =? RANGE_0_TO_2_5V then (ratio * 2.5)%float
  else if input_range drv =? RANGE_0_TO_5V then (ratio * 5.0)%float
  else if input_range drv =? RANGE_0_TO_10V then (ratio * 10.0)%float
  else if input_range drv =? RANGE_PM_2_5V then ((ratio - 0.5) * 5.0)%float
  else if input_range drv =? RANGE_PM_5V then ((ratio - 0.5) * 10.0)%float
  else if input_range drv =? RANGE_PM_10V then ((ratio - 0.5) * 20.0)%float
  else (ratio * voltage_reference drv)%float.

(** [read_channel], on the two bytes [read_registers] returned. *)
Definition read_channel (channel : Z) (raw_data : list Z) (drv : ADS7142) : error + float :=
  if negb ((0 <=? channel) && (channel <=? 7)) then inl ADS7142Error
  else
    match raw_data with
    | d0 :: d1 :: _ =>
        let raw_value := Z.lor (Z.shiftl d0 4) (Z.shiftr d1 4) in
        inr (_raw_to_voltage raw_value drv)
    | _ => inl IndexError
    end.

End Driver.
End I2c.

(** ** LTC6903 clock setup *)

Section Ltc6903.

Local Open Scope Z_scope.

Definition oct_table : list (Z * Z * Z) :=
  [ (34050000, 68030000, 15); (17020000, 34010000, 14); (8511000, 17010000, 13);
    (4256000, 8503000, 12); (2128000, 4252000, 11); (1064000, 2126000, 10);
    (532000, 1063000, 9); (266000, 531400, 8); (133000, 265700, 7); (66500, 132900, 6);
    (33200, 66200, 5); (16600, 33220, 4); (8310, 16610, 3); (4150, 8300, 2);
    (2070, 4140, 1); (1039, 2076, 0) ].

(** The loop over [oct_table] up to its [break]. *)
Fixpoint find_oct (frequency_hz : Z) (table : list (Z * Z * Z)) : option Z :=
  match table with
  | [] => None
  | (f_min, f_max, oct_candidate) :: table =>
      if (f_min <=? frequency_hz) && (frequency_hz <? f_max) then Some oct_candidate
      else find_oct frequency_hz table
  end.

(** [ltc6903_config_bytes] of [MainWindow.__init__], on an int frequency
    below 2^53 in magnitude, where the quotient of the two ints is the
    quotient of their floats; [None] is the ZeroDivisionError on 0. *)
Definition ltc6903_config_bytes (frequency_hz : Z) : option (Z * Z * list Z) :=
  let oct_val :=
    match find_oct frequency_hz oct_table with
    | Some oct_val => oct_val
    | None => if frequency_hz <? 1039 then 0 else 15
    end in
  if frequency_hz =? 0 then None
  else
    let dac_float :=
      (2048 - Py.float_of_Z (2078 * 2 ^ (10 + oct_val)) / Py.float_of_Z frequency_hz)%float in
    let dac := Py.round dac_float in
    let dac := Z.max 0 (Z.min 1023 dac) in
    let command := Z.lor (Z.shiftl (Z.land oct_val 0xF) 12) (Z.shiftl (Z.land dac 0x3FF) 2) in
    let cmd_bytes := [Z.land (Z.shiftr command 8) 0xFF; Z.land command 0xFF] in
    Some (oct_val, dac, cmd_bytes).

End Ltc6903.

(** ** Concrete converters *)

(** A converter that answers a frame with as many bytes: two status bytes,
    the register word 0x1234 low byte first, then 0xFF. *)
Definition steady_converter (data : list Z) (d : unit) : list Z * unit :=
  (take (length data) ([0x00; 0x00; 0x34; 0x12]%Z ++ repeat 0xFF%Z (length data)), d).

(** The ADS131M02 driver after [__init__]. *)
Definition fresh_driver : Spi.ADS131M02 :=
  {| Spi.channel_gains := [1; 1]%Z; Spi.bus := {| Spi.device := tt; Spi.sent := [] |} |}.

(** The ADS7142 driver after [__init__] with the default reference. *)
Definition fresh_ADS7142 : I2c.ADS7142 :=
  {| I2c.voltage_reference := 2.5; I2c.input_range := I2c.RANGE_0_TO_2_5V;
     I2c.written := [] |}.

(** [channel_gains] of the driver as the list it is. *)
Definition gains_list (drv : ADS131M02) : list Z :=
  [fst (channel_gains drv); snd (channel_gains drv)].

(** ** Words and bytes on the two buses *)

Definition is_byte (b : Z) : Prop := (0 <= b < 256)%Z.

(** The three-bit gain field of a channel in the gain register word. *)
Definition gain_field (channel word : Z) : Z :=
  Z.land (Z.shiftr word (4 * channel)) 0x07.

(** The word [ADS131M02.set_gain] writes to the gain register, from the
    word it read. *)
Definition gain_word (channel gain gain_reg : Z) : Z :=
  if (channel =? 0)%Z then Z.lor (Z.land gain_reg 0xFFF8) (Z.land gain 0x07)
  else Z.lor (Z.land gain_reg 0xFF8F) (Z.shiftl (Z.land gain 0x07) 4).

(** The raw value [ADS7142.read_channel] assembles from two register bytes. *)
Definition raw_value (d0 d1 : Z) : Z := Z.lor (Z.shiftl d0 4) (Z.shiftr d1 4).

(** The last value written to a register. *)
Definition register_value (register : Z) (writes : list (Z * Z)) : option Z :=
  fold_left (fun value w => if (w.1 =? register)%Z then Some w.2 else value) writes None.

(** The nominal bounds of an input range of the ADS7142. *)
Definition range_bounds (input_range : Z) : float * float :=
  if (input_range =? I2c.RANGE_0_TO_2_5V)%Z then (0, 2.5)
  else if (input_range =? I2c.RANGE_0_TO_5V)%Z then (0, 5.0)
  else if (input_range =? I2c.RANGE_0_TO_10V)%Z then (0, 10.0)
  else if (input_range =? I2c.RANGE_PM_2_5V)%Z then (-2.5, 2.5)
  else if (input_range =? I2c.RANGE_PM_5V)%Z then (-5.0, 5.0)
  else (-10.0, 10.0).

(** The attributes the bookkeeping reads. *)
Definition bookkeeping (s : MainWindow) := (adc_read_count s, sample_timestamps s, stats s).

(** * Properties *)

(** ** Pairwise summation *)

(** The fuel of [Np.pairwise_sum] is never used up: any fuel of at least
    the length of the array gives the same sum. *)
Lemma pairwise_sum_fuel_irrelevant : forall fuel1 fuel2 a,
  length a <= fuel1 -> length a <= fuel2 ->
  Np.pairwise_sum fuel1 a = Np.pairwise_sum fuel2 a.
Proof.
  induction fuel1 as [|fuel1 IH]; intros fuel2 a H1 H2.
  - destruct a; [|simpl in H1; lia]. destruct fuel2; reflexivity.
  - destruct fuel2 as [|fuel2].
    + destruct a; [reflexivity|simpl in H2; lia].
    + cbn [Np.pairwise_sum].
      destruct (Nat.ltb_spec (length a) 8) as [Hlt|Hge]; [reflexivity|].
      destruct (Nat.leb_spec (length a) 128) as [Hle|Hgt]; [reflexivity|].
      set (n2 := (length a / 2 - (length a / 2) mod 8)%nat).
      assert (Hn2 : 0 < n2 < length a).
      { unfold n2. pose proof (Nat.mod_upper_bound (length a / 2) 8 ltac:(lia)).
        pose proof (Nat.div_mod_eq (length a) 2).
        pose proof (Nat.mod_upper_bound (length a) 2 ltac:(lia)). lia. }
      rewrite (IH fuel2 (take n2 a)), (IH fuel2 (drop n2 a));
        rewrite ?length_take, ?length_drop; try lia. reflexivity.
Qed.

Lemma pairwise_sum_fuel fuel a :
  length a <= fuel -> Np.pairwise_sum fuel a = Np.pairwise_sum (length a) a.
Proof. intros H. apply pairwise_sum_fuel_irrelevant; [exact H|lia]. Qed.

(** ** Order of binary64 values *)

Section SpecFloatOrder.

Local Ltac cmp_cases :=
  repeat match goal with
  | H : context [Z.compare ?a ?b] |- _ => destruct (Z.compare_spec a b); subst
  | |- context [Z.compare ?a ?b] => destruct (Z.compare_spec a b); subst
  | H : context [PosDef.Pos.compare_cont Eq ?a ?b] |- _ =>
      change (PosDef.Pos.compare_cont Eq a b) with (Pos.compare a b) in *;
      destruct (Pos.compare_spec a b); subst
  | |- context [PosDef.Pos.compare_cont Eq ?a ?b] =>
      change (PosDef.Pos.compare_cont Eq a b) with (Pos.compare a b) in *;
      destruct (Pos.compare_spec a b); subst
  end.

Local Ltac by_signs :=
  repeat match goal with s : bool |- _ => destruct s end;
  simpl in *; try congruence; cmp_cases; simpl in *; try congruence; try lia.

Lemma SFcompare_lt_trans x y z :
  SFcompare x y = Some Lt -> SFcompare y z = Some Lt -> SFcompare x z = Some Lt.
Proof. destruct x, y, z; simpl; try congruence; by_signs. Qed.

Lemma SFcompare_opp x y c : SFcompare x y = Some c -> SFcompare y x = Some (CompOpp c).
Proof. destruct x, y; simpl; try congruence; intros [= <-]; by_signs. Qed.

Lemma SFcompare_refl x : x <> S754_nan -> SFcompare x x = Some Eq.
Proof. destruct x; simpl; try congruence; intros _; by_signs. Qed.

Lemma SFcompare_comparable x y :
  x <> S754_nan -> y <> S754_nan -> exists c, SFcompare x y = Some c.
Proof. destruct x, y; simpl; intros; try congruence; eauto. Qed.

Lemma SFcompare_some_l x y c : SFcompare x y = Some c -> x <> S754_nan.
Proof. destruct x; simpl; congruence. Qed.

Lemma SFcompare_lt_cotrans x y b :
  b <> S754_nan -> SFcompare x y = Some Lt ->
  SFcompare x b = Some Lt \/ SFcompare b y = Some Lt.
Proof. destruct x, y, b; intros Hb H; try congruence; clear Hb; by_signs; auto. Qed.

Lemma SFcompare_le_trans x y z c1 c2 :
  SFcompare x y = Some c1 -> c1 <> Gt -> SFcompare y z = Some c2 -> c2 <> Gt ->
  exists c, SFcompare x z = Some c /\ c <> Gt.
Proof.
  destruct x, y, z; simpl; intros H1 N1 H2 N2; try congruence;
    injection H1 as <-; injection H2 as <-;
    (eexists; split; [reflexivity|]); by_signs.
Qed.

End SpecFloatOrder.

Section FloatOrder.

Implicit Types x y z : float.

Lemma ltb_compare x y : (x <? y) = true <-> SFcompare (Prim2SF x) (Prim2SF y) = Some Lt.
Proof.
  rewrite FloatAxioms.ltb_spec. unfold SFltb.
  destruct (SFcompare _ _) as [[]|]; split; congruence.
Qed.

Lemma leb_compare x y :
  (x <=? y) = true <->
  exists c, SFcompare (Prim2SF x) (Prim2SF y) = Some c /\ c <> Gt.
Proof.
  rewrite FloatAxioms.leb_spec. unfold SFleb.
  destruct (SFcompare _ _) as [[]|]; split; try congruence; eauto;
    try (intros (c & [= <-] & ?); congruence); intros _; eexists; split; eauto; congruence.
Qed.

Lemma not_nan_spec x : not_nan x <-> Prim2SF x <> S754_nan.
Proof.
  unfold not_nan, PrimFloat.is_nan. rewrite FloatAxioms.eqb_spec. unfold SFeqb. split.
  - intros H E. rewrite E in H. discriminate.
  - intros H. rewrite (SFcompare_refl _ H). reflexivity.
Qed.

Lemma ltb_irrefl x : (x <? x) = false.
Proof.
  destruct (x <? x) eqn:E; [|reflexivity]. apply ltb_compare in E.
  rewrite (SFcompare_refl _ (SFcompare_some_l _ _ _ E)) in E. discriminate.
Qed.

Lemma ltb_asym x y : (x <? y) = true -> (y <? x) = false.
Proof.
  intros H. destruct (y <? x) eqn:E; [|reflexivity].
  apply ltb_compare in H, E. apply SFcompare_opp in H. simpl in H. congruence.
Qed.

Lemma ltb_trans x y z : (x <? y) = true -> (y <? z) = true -> (x <? z) = true.
Proof. rewrite !ltb_compare. apply SFcompare_lt_trans. Qed.

Lemma ltb_not_nan x y : (x <? y) = true -> not_nan x /\ not_nan y.
Proof.
  intros H. apply ltb_compare in H. rewrite !not_nan_spec. split.
  - eapply SFcompare_some_l; eauto.
  - apply SFcompare_opp in H. eapply SFcompare_some_l; eauto.
Qed.

Lemma ltb_cotrans x y b :
  not_nan b -> (x <? y) = true -> (x <? b) = true \/ (b <? y) = true.
Proof. rewrite not_nan_spec, !ltb_compare. apply SFcompare_lt_cotrans. Qed.

Lemma leb_of_not_ltb x y : not_nan x -> not_nan y -> (y <? x) = false -> (x <=? y) = true.
Proof.
  rewrite !not_nan_spec. intros Hx Hy H. apply leb_compare.
  destruct (SFcompare_comparable _ _ Hx Hy) as [c Hc]. exists c. split; [assumption|].
  intros ->. apply SFcompare_opp in Hc. simpl in Hc. apply ltb_compare in Hc. congruence.
Qed.

Lemma leb_trans x y z : (x <=? y) = true -> (y <=? z) = true -> (x <=? z) = true.
Proof.
  rewrite !leb_compare. intros (c1 & H1 & N1) (c2 & H2 & N2).
  eapply SFcompare_le_trans; eauto.
Qed.

Lemma not_nan_0 : not_nan 0.
Proof. reflexivity. Qed.

(** [max(0, x)] is never a NaN. *)
Lemma max2_0_not_nan x : not_nan (Py.max2 0 x).
Proof.
  unfold Py.max2. destruct (0 <? x) eqn:E.
  - apply (ltb_not_nan _ _ E).
  - apply not_nan_0.
Qed.

End FloatOrder.

(** ** The stable sort *)

Section SortFacts.

Context {A : Type} (key : A -> float).

Local Abbreviation ins := (Py.sort_insert key).

(** Adjacent items are never inverted: the later one does not compare less. *)
Definition not_inverted (a b : A) : Prop := (key b <? key a) = false.

Lemma sort_insert_perm x s : ins x s ≡ₚ x :: s.
Proof.
  induction s as [|y s IH]; simpl; [reflexivity|].
  destruct (key x <? key y); [reflexivity|].
  rewrite IH. apply Permutation_swap.
Qed.

Lemma sort_fold_perm l acc :
  fold_left (fun sorted x => ins x sorted) l acc ≡ₚ acc ++ l.
Proof.
  revert acc. induction l as [|x l IH]; intros acc; simpl.
  - rewrite app_nil_r. reflexivity.
  - rewrite IH, sort_insert_perm. simpl. apply Permutation_middle.
Qed.

Lemma sort_by_perm l : Py.sort_by key l ≡ₚ l.
Proof. unfold Py.sort_by. rewrite sort_fold_perm. reflexivity. Qed.

Lemma sort_by_reverse_perm l : Py.sort_by_reverse key l ≡ₚ l.
Proof.
  unfold Py.sort_by_reverse.
  rewrite <- Permutation_rev, sort_by_perm, <- Permutation_rev. reflexivity.
Qed.

Lemma sort_by_length l : length (Py.sort_by key l) = length l.
Proof. apply Permutation_length, sort_by_perm. Qed.

Lemma sort_insert_hd x y s :
  (key x <? key y) = false -> HdRel not_inverted y s -> HdRel not_inverted y (ins x s).
Proof.
  intros Hxy Hs. destruct s as [|z s]; simpl.
  - constructor. exact Hxy.
  - destruct (key x <? key z); constructor; [exact Hxy|].
    inversion Hs; assumption.
Qed.

Lemma sort_insert_sorted x s : Sorted not_inverted s -> Sorted not_inverted (ins x s).
Proof.
  induction s as [|y s IH]; simpl; intros Hs.
  - repeat constructor.
  - inversion Hs as [|? ? Hs' Hhd]; subst.
    destruct (key x <? key y) eqn:E.
    + constructor; [assumption|]. constructor. apply ltb_asym, E.
    + constructor; [apply IH, Hs'|]. apply sort_insert_hd; assumption.
Qed.

Lemma sort_fold_sorted l acc :
  Sorted not_inverted acc ->
  Sorted not_inverted (fold_left (fun sorted x => ins x sorted) l acc).
Proof.
  revert acc. induction l as [|x l IH]; intros acc Hacc; simpl; [assumption|].
  apply IH, sort_insert_sorted, Hacc.
Qed.

Lemma sort_by_sorted l : Sorted not_inverted (Py.sort_by key l).
Proof. apply sort_fold_sorted. constructor. Qed.

(** Without a NaN among the keys the outcome is ascending throughout. *)
Lemma sorted_not_nan_ascending l :
  Forall (fun a => not_nan (key a)) l ->
  Sorted not_inverted l ->
  StronglySorted (fun a b => (key a <=? key b) = true) l.
Proof.
  intros Hnan Hs.
  induction Hs as [|a l Hs IH Hhd]; [constructor|].
  apply Forall_cons in Hnan as [Ha Hl].
  specialize (IH Hl). constructor; [assumption|].
  destruct Hhd as [|b l Hab]; [constructor|].
  apply Forall_cons in Hl as [Hb Hl].
  assert (Hle : (key a <=? key b) = true) by (apply leb_of_not_ltb; assumption).
  constructor; [assumption|].
  apply StronglySorted_inv in IH as [_ IH].
  eapply Forall_impl; [exact IH|]. simpl. intros c Hbc. eapply leb_trans; eauto.
Qed.

(** Insertion at the far end, and insertion before the last item. *)
Lemma sort_insert_last x s :
  Forall (fun y => (key x <? key y) = false) s -> ins x s = s ++ [x].
Proof.
  induction 1 as [|y s Hy _ IH]; simpl; [reflexivity|].
  rewrite Hy, IH. reflexivity.
Qed.

Lemma sort_insert_keeps_last x pre b :
  Exists (fun y => (key x <? key y) = true) (pre ++ [b]) ->
  exists pre', ins x (pre ++ [b]) = pre' ++ [b].
Proof.
  induction pre as [|y pre IH]; simpl; intros Hex.
  - inversion Hex as [? ? Hb|? ? Hnil]; subst; [|inversion Hnil].
    rewrite Hb. exists [x]. reflexivity.
  - destruct (key x <? key y) eqn:E.
    + exists (x :: y :: pre). reflexivity.
    + inversion Hex as [? ? Hy|? ? Hrest]; subst; [congruence|].
      destruct (IH Hrest) as [pre' ->]. exists (y :: pre'). reflexivity.
Qed.

Lemma sort_by_rev l :
  Py.sort_by key (rev l) = fold_right (fun x sorted => ins x sorted) [] l.
Proof.
  unfold Py.sort_by. rewrite <- (rev_involutive l) at 2.
  rewrite fold_left_rev_right. reflexivity.
Qed.

Context (idx : A -> nat).

(** What stands last after the items of [l] were inserted from the right:
    an item of greatest key, and among those the one of least index. *)
Definition best_in (l : list A) (b : A) : Prop :=
  In b l
  /\ (forall c, In c l -> (key b <? key c) = false)
  /\ (forall c, In c l -> idx c < idx b -> (key c <? key b) = true).

Lemma sort_right_last l :
  Forall (fun a => not_nan (key a)) l ->
  StronglySorted (fun a b => idx a < idx b) l ->
  l <> [] ->
  exists pre b, fold_right (fun x sorted => ins x sorted) [] l = pre ++ [b] /\ best_in l b.
Proof.
  induction l as [|x l IH]; intros Hnan Hidx Hne; [congruence|]. clear Hne.
  apply Forall_cons in Hnan as [Hx Hnan].
  apply StronglySorted_inv in Hidx as [Hidx Hxl].
  simpl. destruct l as [|x' l'].
  - exists [], x. split; [reflexivity|]. repeat split.
    + left. reflexivity.
    + intros c [<-|[]]. apply ltb_irrefl.
    + intros c [<-|[]] Hlt. lia.
  - destruct (IH Hnan Hidx ltac:(congruence)) as (pre & b & Hsort & Hb_in & Hb_max & Hb_first).
    set (l := x' :: l') in *. rewrite Hsort.
    assert (Hperm : pre ++ [b] ≡ₚ l).
    { rewrite <- Hsort, <- sort_by_rev, sort_by_perm, <- Permutation_rev. reflexivity. }
    destruct (decide (Exists (fun y => (key x <? key y) = true) (pre ++ [b]))) as [Hex|Hnex].
    + destruct (sort_insert_keeps_last x pre b Hex) as [pre' ->].
      exists pre', b. split; [reflexivity|].
      assert (Hxb : (key x <? key b) = true).
      { apply Exists_exists in Hex as (y & Hy & Hxy).
        assert (Hyl : In y l).
        { apply list_elem_of_In. rewrite <- Hperm. exact Hy. }
        assert (Hbnan : not_nan (key b)).
        { rewrite Forall_forall in Hnan. apply Hnan. apply list_elem_of_In. exact Hb_in. }
        destruct (ltb_cotrans _ _ _ Hbnan Hxy) as [H|H]; [exact H|].
        rewrite (Hb_max y Hyl) in H. discriminate. }
      repeat split.
      * right. exact Hb_in.
      * intros c [<-|Hc]; [apply ltb_asym, Hxb|apply Hb_max, Hc].
      * intros c [<-|Hc] Hlt; [exact Hxb|apply Hb_first; assumption].
    + rewrite sort_insert_last.
      2:{ apply Forall_forall. intros y Hy.
          destruct (key x <? key y) eqn:E; [|reflexivity].
          exfalso. apply Hnex, Exists_exists. exists y. split; assumption. }
      exists (pre ++ [b]), x. split; [reflexivity|]. repeat split.
      * left. reflexivity.
      * intros c [<-|Hc]; [apply ltb_irrefl|].
        destruct (key x <? key c) eqn:E; [|reflexivity].
        exfalso. apply Hnex, Exists_exists. exists c. split; [|exact E].
        rewrite Hperm. apply list_elem_of_In. exact Hc.
      * intros c [<-|Hc] Hlt; [lia|].
        rewrite Forall_forall in Hxl. apply list_elem_of_In, Hxl in Hc. lia.
Qed.

(** The head of a list sorted with [reverse=True]. *)
Lemma sort_by_reverse_head l :
  Forall (fun a => not_nan (key a)) l ->
  StronglySorted (fun a b => idx a < idx b) l ->
  match Py.sort_by_reverse key l with
  | [] => l = []
  | b :: _ => best_in l b
  end.
Proof.
  intros Hnan Hidx. unfold Py.sort_by_reverse. rewrite sort_by_rev.
  destruct l as [|x l]; [reflexivity|].
  destruct (sort_right_last (x :: l) Hnan Hidx ltac:(congruence)) as (pre & b & -> & Hb).
  rewrite rev_app_distr. simpl. exact Hb.
Qed.

End SortFacts.

(** ** The cycle search *)

Lemma pulse_lists_length buf :
  length (pulse_center_times buf) = length (pulse_clusters buf)
  /\ length (pulse_widths buf) = length (pulse_clusters buf)
  /\ length (pulse_voltages buf) = length (pulse_clusters buf).
Proof.
  unfold pulse_center_times, pulse_widths, pulse_voltages.
  rewrite !length_map. auto.
Qed.

Lemma slice_length {A} start n (l : list A) :
  length (slice start n l) = Nat.min n (length l - start).
Proof. unfold slice. rewrite length_take, length_drop. reflexivity. Qed.

Lemma zip4_length ts ws cs vs n :
  length ts = n -> length ws = n -> length cs = n -> length vs = n ->
  length (zip4 ts ws cs vs) = n.
Proof. unfold zip4. intros. rewrite !length_zip_with. lia. Qed.

(** The code's score is the specification's formula at the nominal duration
    1000/256 ms, with the consistency taken as 0 when the mean spacing is not
    positive. *)
Lemma quality_score_spec pulses widths :
  quality_score pulses widths = spec_quality EXPECTED_CYCLE_DURATION_MS true pulses widths.
Proof.
  unfold quality_score, spec_quality, spec_duration_error, spec_width_error,
    spec_spacing_consistency, spec_span, cycle_duration, avg_pulse_width.
  destruct (0 <? Np.mean (spacings_of pulses)); reflexivity.
Qed.

Lemma scan_cycle_some buf i c :
  scan_cycle buf i = Some c ->
  window_ok buf i = true
  /\ c_start_idx c = i
  /\ c_quality c = quality_score (window_pulses buf i) (window_widths buf i)
  /\ c_pulses c = window_pulses buf i
  /\ c_widths c = window_widths buf i
  /\ c_clusters c = slice i EXPECTED_PULSE_COUNT (pulse_clusters buf)
  /\ c_voltages c = slice i EXPECTED_PULSE_COUNT (pulse_voltages buf)
  /\ length (c_pulses c) = 6%nat
  /\ Py.sort_by pd_time (zip4 (c_pulses c) (c_widths c) (c_clusters c) (c_voltages c))
     = zip4 (c_sorted_pulse_times c) (c_sorted_pulse_widths c)
         (c_sorted_pulse_clusters c) (c_sorted_pulse_voltages c)
  /\ length (c_sorted_pulse_times c) = 6%nat
  /\ length (c_sorted_pulse_widths c) = 6%nat
  /\ length (c_sorted_pulse_clusters c) = 6%nat
  /\ length (c_sorted_pulse_voltages c) = 6%nat.
Proof.
  unfold scan_cycle, window_ok, window_pulses, window_widths.
  destruct (length (slice i EXPECTED_PULSE_COUNT (pulse_center_times buf)) =? EXPECTED_PULSE_COUNT)%nat
    eqn:Hlen; simpl; [|discriminate].
  destruct (cycle_ok _ _) eqn:Hok; [|discriminate].
  intros [= <-]. simpl.
  apply Nat.eqb_eq in Hlen.
  destruct (pulse_lists_length buf) as (Ht & Hw & Hv).
  assert (Hroom : 6 <= length (pulse_clusters buf) - i).
  { rewrite slice_length, Ht in Hlen. unfold EXPECTED_PULSE_COUNT in Hlen. lia. }
  assert (Hlen_w : length (slice i EXPECTED_PULSE_COUNT (pulse_widths buf)) = 6%nat).
  { rewrite slice_length, Hw. unfold EXPECTED_PULSE_COUNT. lia. }
  assert (Hlen_c : length (slice i EXPECTED_PULSE_COUNT (pulse_clusters buf)) = 6%nat).
  { rewrite slice_length. unfold EXPECTED_PULSE_COUNT. lia. }
  assert (Hlen_v : length (slice i EXPECTED_PULSE_COUNT (pulse_voltages buf)) = 6%nat).
  { rewrite slice_length, Hv. unfold EXPECTED_PULSE_COUNT. lia. }
  set (data := Py.sort_by pd_time _).
  assert (Hdata : length data = 6%nat).
  { unfold data. rewrite sort_by_length. apply zip4_length; assumption. }
  repeat split; try reflexivity; try assumption; try (rewrite length_map; exact Hdata).
  clear. induction data as [|[[[t w] cl] v] data IH]; [reflexivity|].
  simpl. unfold zip4 in *. simpl. rewrite <- IH. reflexivity.
Qed.

Lemma scan_cycle_none buf i : window_ok buf i = false -> scan_cycle buf i = None.
Proof.
  unfold scan_cycle, window_ok, window_pulses, window_widths. intros ->.
  destruct (negb _); reflexivity.
Qed.

Lemma scan_cycle_ok buf i :
  window_ok buf i = true -> exists c, scan_cycle buf i = Some c.
Proof.
  unfold scan_cycle, window_ok, window_pulses, window_widths. intros Hok. rewrite Hok.
  unfold cycle_ok, pulse_count_ok in Hok.
  apply andb_true_iff in Hok as [_ Hcount]. rewrite Hcount. simpl. eauto.
Qed.

Lemma scanned_cycles_scores_on buf (starts : list nat) :
  map (fun c => (c_start_idx c, c_quality c)) (omap (scan_cycle buf) starts)
  = map (fun i => (i, quality_score (window_pulses buf i) (window_widths buf i)))
      (List.filter (window_ok buf) starts).
Proof.
  induction starts as [|i starts IH]; [reflexivity|]. simpl.
  destruct (window_ok buf i) eqn:Hok.
  - destruct (scan_cycle_ok buf i Hok) as [c Hc]. rewrite Hc. simpl.
    apply scan_cycle_some in Hc as (_ & Hi & Hq & _). rewrite Hi, Hq. f_equal. exact IH.
  - rewrite (scan_cycle_none buf i Hok). exact IH.
Qed.

Lemma scanned_cycles_in buf c :
  In c (scanned_cycles buf) -> scan_cycle buf (c_start_idx c) = Some c.
Proof.
  unfold scanned_cycles. intros Hc. apply list_elem_of_In, list_elem_of_omap in Hc.
  destruct Hc as (i & _ & Hi). pose proof (scan_cycle_some _ _ _ Hi) as (_ & -> & _). exact Hi.
Qed.

Lemma scanned_cycles_start_sorted_on buf (starts : list nat) :
  StronglySorted lt starts ->
  StronglySorted (fun a b => c_start_idx a < c_start_idx b) (omap (scan_cycle buf) starts).
Proof.
  induction 1 as [|i starts Hs IH Hall]; [constructor|]. simpl.
  destruct (scan_cycle buf i) as [c|] eqn:Hc; [|exact IH].
  constructor; [exact IH|].
  apply scan_cycle_some in Hc as (_ & -> & _).
  apply Forall_forall. intros c' Hc'. apply list_elem_of_omap in Hc' as (j & Hj & Hcj).
  apply scan_cycle_some in Hcj as (_ & -> & _).
  rewrite Forall_forall in Hall. apply Hall, Hj.
Qed.

Lemma seq_strongly_sorted start len : StronglySorted lt (seq start len).
Proof.
  revert start. induction len as [|len IH]; intros start; simpl; constructor; [apply IH|].
  apply Forall_forall. intros j Hj. apply list_elem_of_In, in_seq in Hj. lia.
Qed.

Lemma scanned_cycles_start_sorted buf :
  StronglySorted (fun a b => c_start_idx a < c_start_idx b) (scanned_cycles buf).
Proof. apply scanned_cycles_start_sorted_on, seq_strongly_sorted. Qed.

Lemma scanned_cycles_not_nan buf :
  Forall (fun c => not_nan (c_quality c)) (scanned_cycles buf).
Proof.
  apply Forall_forall. intros c Hc. apply list_elem_of_In, scanned_cycles_in in Hc.
  apply scan_cycle_some in Hc as (_ & _ & -> & _). apply max2_0_not_nan.
Qed.

Lemma valid_cycles_in buf c : In c (valid_cycles buf) <-> In c (scanned_cycles buf).
Proof.
  unfold valid_cycles. rewrite <- !list_elem_of_In.
  rewrite (sort_by_reverse_perm c_quality (scanned_cycles buf)). reflexivity.
Qed.

Lemma valid_cycles_nil buf : valid_cycles buf = [] <-> scanned_cycles buf = [].
Proof.
  unfold valid_cycles. split; intros H.
  - apply Permutation_nil_r. rewrite <- H. symmetry. apply sort_by_reverse_perm.
  - rewrite H. reflexivity.
Qed.

(** The batch statistics of a batch that is not empty. *)
Lemma initial_result_returns v voltages :
  exists r, initial_result (v :: voltages) = Returned r
    /\ detected r = false
    /\ vs_mean (voltage_stats r) = Np.mean (v :: voltages)
    /\ vs_std (voltage_stats r) = Np.std (v :: voltages)
    /\ Np.min (v :: voltages) = Some (vs_min (voltage_stats r))
    /\ Np.max (v :: voltages) = Some (vs_max (voltage_stats r)).
Proof. eexists. unfold initial_result. simpl. repeat split. Qed.

Lemma detect_returns v voltages :
  exists r, detect_cycle_in_batch (v :: voltages) = Returned r
    /\ vs_mean (voltage_stats r) = Np.mean (v :: voltages)
    /\ vs_std (voltage_stats r) = Np.std (v :: voltages)
    /\ Np.min (v :: voltages) = Some (vs_min (voltage_stats r))
    /\ Np.max (v :: voltages) = Some (vs_max (voltage_stats r))
    /\ (detected r = true -> valid_cycles (v :: voltages) <> []).
Proof.
  unfold detect_cycle_in_batch.
  destruct (initial_result_returns v voltages) as (r0 & -> & Hd & Hmean & Hstd & Hmin & Hmax).
  simpl. destruct (_ <? _)%Z.
  - exists r0. repeat split; try assumption. congruence.
  - destruct (valid_cycles (v :: voltages)) as [|best rest] eqn:Hvalid.
    + exists r0. repeat split; try assumption. congruence.
    + eexists. split; [reflexivity|]. simpl. repeat split; try assumption. congruence.
Qed.

(** A scan that meets no high sample leaves the clusters as they are. *)
Lemma cluster_scan_all_low mask i acc :
  Forall (fun high => high = false) mask -> cluster_scan mask i acc [] false = acc.
Proof.
  intros H. revert i. induction H as [|high mask -> _ IH]; intros i; simpl; [reflexivity|].
  apply IH.
Qed.

Lemma pulse_clusters_all_low buf :
  Forall (fun v => (VOLTAGE_THRESHOLD <? v) = false) buf -> pulse_clusters buf = [].
Proof.
  intros H. unfold pulse_clusters, pulse_mask. apply cluster_scan_all_low.
  apply Forall_map. exact H.
Qed.

Lemma few_clusters_no_cycle buf :
  length (pulse_clusters buf) < EXPECTED_PULSE_COUNT -> scanned_cycles buf = [].
Proof.
  intros H. unfold scanned_cycles, start_indices.
  destruct (pulse_lists_length buf) as (-> & _).
  replace (Z.to_nat _) with 0%nat by (unfold EXPECTED_PULSE_COUNT in *; lia).
  reflexivity.
Qed.

Lemma leb_ltb_absurd (x y : float) : (x <=? y) = true -> (y <? x) = true -> False.
Proof.
  rewrite leb_compare, ltb_compare. intros (c & Hc & Hgt) Hlt.
  apply SFcompare_opp in Hlt. simpl in Hlt. congruence.
Qed.

Lemma Sorted_map_key {A} (key : A -> float) (l : list A) :
  Sorted (not_inverted key) l -> Sorted (fun a b => (b <? a) = false) (map key l).
Proof.
  induction 1 as [|a l _ IH Hhd]; simpl; constructor; [exact IH|].
  destruct Hhd; simpl; constructor. assumption.
Qed.

Lemma StronglySorted_map_key {A} (key : A -> float) (l : list A) :
  StronglySorted (fun a b => (key a <=? key b) = true) l ->
  StronglySorted (fun a b => (a <=? b) = true) (map key l).
Proof.
  induction 1 as [|a l _ IH Hall]; simpl; constructor; [exact IH|].
  apply Forall_map. exact Hall.
Qed.

Lemma zip4_times ts ws cs vs n :
  length ts = n -> length ws = n -> length cs = n -> length vs = n ->
  map pd_time (zip4 ts ws cs vs) = ts.
Proof.
  revert ts ws cs vs. induction n as [|n IH]; intros [|t ts] [|w ws] [|c cs] [|v vs];
    simpl; try discriminate; intros; [reflexivity|].
  unfold zip4 in *. simpl. unfold pd_time at 1. simpl. f_equal. apply IH; lia.
Qed.

Lemma scan_cycle_window_lengths buf i c :
  scan_cycle buf i = Some c ->
  length (c_pulses c) = 6%nat /\ length (c_widths c) = 6%nat
  /\ length (c_clusters c) = 6%nat /\ length (c_voltages c) = 6%nat.
Proof.
  intros Hc.
  pose proof (scan_cycle_some _ _ _ Hc)
    as (_ & _ & _ & Hp & Hw & Hcl & Hv & Hlen & _).
  destruct (pulse_lists_length buf) as (Ht & Hwl & Hvl).
  assert (Hroom : 6 <= length (pulse_clusters buf) - i).
  { rewrite Hp in Hlen. unfold window_pulses in Hlen.
    rewrite slice_length, Ht in Hlen. unfold EXPECTED_PULSE_COUNT in Hlen. lia. }
  rewrite Hw, Hcl, Hv. unfold window_widths. rewrite !slice_length, Hwl, Hvl.
  unfold EXPECTED_PULSE_COUNT. repeat split; try assumption; lia.
Qed.

Lemma scan_cycle_sorted_times buf i c :
  scan_cycle buf i = Some c ->
  c_sorted_pulse_times c
  = map pd_time
      (Py.sort_by pd_time (zip4 (c_pulses c) (c_widths c) (c_clusters c) (c_voltages c))).
Proof.
  unfold scan_cycle. destruct (negb _); [discriminate|].
  destruct (cycle_ok _ _); [|discriminate]. intros [= <-]. reflexivity.
Qed.

(** ** Detection results *)

(** C2, as stated, fails: on the empty batch the detector raises (numpy's
    minimum of an empty array), so not every batch yields a result. *)
Lemma detection_raises_on_empty_batch :
  detect_cycle_in_batch [] = Raised ValueError
  /\ ~ (forall voltages, exists r, detect_cycle_in_batch voltages = Returned r).
Proof.
  split; [reflexivity|]. intros H. destruct (H []) as [r Hr]. discriminate Hr.
Qed.

(** Every scanned cycle stems from its start index. *)
Lemma scanned_cycles_same_start buf c1 c2 :
  In c1 (scanned_cycles buf) -> In c2 (scanned_cycles buf) ->
  c_start_idx c1 = c_start_idx c2 -> c1 = c2.
Proof.
  intros H1 H2 E. apply scanned_cycles_in in H1, H2. rewrite E in H1. congruence.
Qed.

(** C4, as stated, fails: the code's nominal cycle duration is 1000/256 =
    3.90625 ms, not 3.9 ms, and on the regular six-pulse batch the two scores
    differ. *)
Lemma quality_nominal_is_not_3_9 :
  exists c, In c (scanned_cycles (six_pulses 0 0.3))
    /\ c_quality c <> spec_quality 3.9 false (c_pulses c) (c_widths c).
Proof.
  eexists. split.
  - vm_compute. left. reflexivity.
  - intros H. apply (f_equal Prim2SF) in H. vm_compute in H. discriminate H.
Qed.

(** C4, amended: the scanned cycles are the windows that pass the span,
    width and spacing checks, in scan order, each scored
    [max(0, 1 - (duration_error + width_error + (1 - spacing_consistency)) / 3)]
    with duration_error = |span - 3.90625| / 3.90625 (the nominal duration
    being 1000/256 ms), width_error = |mean_width - 0.24| / 0.24 and
    spacing_consistency = max(0, 1 - stddev/mean) (0 when the mean spacing is
    not positive); a window that fails a check gives no entry, and sorting
    adds or drops none. *)
Theorem valid_windows_scored buf :
  EXPECTED_CYCLE_DURATION_MS = 3.90625
  /\ map (fun c => (c_start_idx c, c_quality c)) (scanned_cycles buf)
     = map (fun i => (i, spec_quality 3.90625 true (window_pulses buf i) (window_widths buf i)))
         (List.filter (window_ok buf) (start_indices buf))
  /\ (forall c, In c (valid_cycles buf) <-> In c (scanned_cycles buf)).
Proof.
  split; [reflexivity|]. split; [|apply valid_cycles_in].
  unfold scanned_cycles. rewrite scanned_cycles_scores_on.
  apply map_ext. intros i. rewrite quality_score_spec. reflexivity.
Qed.

(** C2, amended: on every batch that is not empty the detector returns a
    result (it does not raise) that carries the mean, standard deviation,
    minimum and maximum of the whole batch, with detected = false whenever no
    window of six clusters passes the checks, in particular with fewer than
    six clusters and with no sample above the threshold; [sample_data] never
    raises, and returns before the detector on an empty batch. *)
Theorem detection_result_of_batch :
  (forall voltages, voltages <> [] ->
     exists r, detect_cycle_in_batch voltages = Returned r
       /\ vs_mean (voltage_stats r) = Np.mean voltages
       /\ vs_std (voltage_stats r) = Np.std voltages
       /\ Np.min voltages = Some (vs_min (voltage_stats r))
       /\ Np.max voltages = Some (vs_max (voltage_stats r))
       /\ (scanned_cycles voltages = [] -> detected r = false)
       /\ (length (pulse_clusters voltages) < 6 -> detected r = false)
       /\ (Forall (fun v => (VOLTAGE_THRESHOLD <? v) = false) voltages -> detected r = false))
  /\ (forall now batch s, exists s', sample_data now batch s = Returned s'
        /\ (map snd batch = [] -> s' = s)).
Proof.
  split.
  - intros [|v voltages] Hne; [congruence|].
    destruct (detect_returns v voltages) as (r & Hr & Hmean & Hstd & Hmin & Hmax & Hdet).
    exists r. repeat split; try assumption.
    + intros Hnone. destruct (detected r) eqn:E; [|reflexivity].
      exfalso. apply Hdet; [reflexivity|]. apply valid_cycles_nil, Hnone.
    + intros Hfew. destruct (detected r) eqn:E; [|reflexivity].
      exfalso. apply Hdet; [reflexivity|]. apply valid_cycles_nil, few_clusters_no_cycle, Hfew.
    + intros Hlow. destruct (detected r) eqn:E; [|reflexivity].
      exfalso. apply Hdet; [reflexivity|]. apply valid_cycles_nil, few_clusters_no_cycle.
      rewrite (pulse_clusters_all_low _ Hlow). unfold EXPECTED_PULSE_COUNT. simpl. lia.
  - intros now batch s. unfold sample_data. destruct (adc s); [|eauto].
    destruct (map snd batch) as [|v voltages] eqn:Hv; [eauto|].
    destruct (detect_returns v voltages) as (r & -> & _). simpl.
    destruct (detected r); eexists; (split; [reflexivity|discriminate]).
Qed.

Lemma detection_result_of_quiet_batch :
  exists r, detect_cycle_in_batch quiet_batch = Returned r /\ detected r = false
    /\ vs_mean (voltage_stats r) = 0.05 /\ vs_std (voltage_stats r) = 0.
Proof.
  destruct (proj1 detection_result_of_batch quiet_batch ltac:(discriminate))
    as (r & Hr & Hmean & Hstd & _ & _ & _ & _ & Hlow).
  exists r. split; [exact Hr|]. split.
  - apply Hlow.
    apply Forall_forall. intros v Hv. apply list_elem_of_In, repeat_spec in Hv. subst v.
    reflexivity.
  - rewrite Hmean, Hstd. split; vm_compute; reflexivity.
Defined.

(** The detector's check of the batch length never fires on a batch of 1
    to 100000 samples: the samples of one cycle are about a fifth of the
    batch. *)
Lemma buffer_too_small_spec voltages :
  (Z.of_nat (length voltages) <? samples_per_cycle voltages)%Z
  = buffer_too_small (Z.of_nat (length voltages)).
Proof. reflexivity. Qed.

Lemma none_too_small_spec count : forall n,
  none_too_small count n = true ->
  forall z, (n <= z < n + Z.of_nat count)%Z -> buffer_too_small z = false.
Proof.
  induction count as [|count IH]; intros n Hall z Hz; [lia|].
  cbn [none_too_small] in Hall. apply andb_true_iff in Hall as [Hn Hrest].
  destruct (Z.eq_dec z n) as [->|Hne]; [apply negb_true_iff, Hn|].
  apply (IH (Z.succ n) Hrest). lia.
Qed.

Lemma batches_long_enough voltages :
  voltages <> [] -> (Z.of_nat (length voltages) <= 100000)%Z ->
  (Z.of_nat (length voltages) <? samples_per_cycle voltages)%Z = false.
Proof.
  intros Hne Hlen. rewrite buffer_too_small_spec.
  assert (Hall : none_too_small (Z.to_nat 100000) 1 = true) by (vm_compute; reflexivity).
  apply (none_too_small_spec _ _ Hall).
  destruct voltages; [congruence|]. simpl length in *. lia.
Qed.

(** A window that passes the checks starts at an index of the scan, so the
    scan finds a cycle exactly when some window passes. *)
Lemma window_ok_start buf i : window_ok buf i = true -> In i (start_indices buf).
Proof.
  unfold window_ok, cycle_ok, pulse_count_ok, window_pulses, slice. intros Hok.
  apply andb_true_iff in Hok as [_ Hcount]. apply Nat.eqb_eq in Hcount.
  rewrite length_take, length_drop in Hcount. unfold EXPECTED_PULSE_COUNT in *.
  unfold start_indices, EXPECTED_PULSE_COUNT. apply in_seq. lia.
Qed.

Lemma scanned_cycles_window buf :
  scanned_cycles buf <> [] <-> exists i, window_ok buf i = true.
Proof.
  split.
  - intros Hne. destruct (scanned_cycles buf) as [|c rest] eqn:E; [congruence|].
    assert (Hin : In c (scanned_cycles buf)) by (rewrite E; left; reflexivity).
    exists (c_start_idx c). apply scanned_cycles_in, scan_cycle_some in Hin. apply Hin.
  - intros (i & Hok) Hnil. destruct (scan_cycle_ok buf i Hok) as (c & Hc).
    assert (Hin : c ∈ scanned_cycles buf).
    { unfold scanned_cycles. apply list_elem_of_omap. exists i.
      split; [apply list_elem_of_In, window_ok_start, Hok|exact Hc]. }
    rewrite Hnil in Hin. inversion Hin.
Qed.

Lemma detected_iff voltages r :
  detect_cycle_in_batch voltages = Returned r ->
  (detected r = true
   <-> (Z.of_nat (length voltages) <? samples_per_cycle voltages)%Z = false
       /\ scanned_cycles voltages <> []).
Proof.
  intros Hr. unfold detect_cycle_in_batch in Hr.
  destruct (initial_result voltages) as [r0|] eqn:Hinit; [|discriminate].
  assert (Hd0 : detected r0 = false).
  { unfold initial_result in Hinit. destruct (Np.min voltages); [|discriminate].
    destruct (Np.max voltages); [|discriminate]. simpl in Hinit. injection Hinit as <-.
    reflexivity. }
  simpl in Hr. rewrite <- valid_cycles_nil.
  destruct (_ <? _)%Z.
  - injection Hr as <-. rewrite Hd0. split; [discriminate|intros [H _]; discriminate H].
  - destruct (valid_cycles voltages) as [|best rest].
    + injection Hr as <-. rewrite Hd0. split; [discriminate|intros [_ H]; congruence].
    + injection Hr as <-. simpl. split; [intros _; split; [reflexivity|discriminate]|reflexivity].
Qed.

Lemma promoted_cycle_is_best voltages r :
  detect_cycle_in_batch voltages = Returned r -> detected r = true ->
  exists best,
    In best (scanned_cycles voltages)
    /\ (forall c, In c (scanned_cycles voltages) -> (c_quality c <=? c_quality best) = true)
    /\ (forall c, In c (scanned_cycles voltages) ->
          c_start_idx c < c_start_idx best -> (c_quality c <? c_quality best) = true)
    /\ (forall c, In c (scanned_cycles voltages) ->
          (c_quality best <=? c_quality c) = true ->
          c_start_idx c <= c_start_idx best -> c = best)
    /\ quality r = c_quality best /\ score r = c_quality best
    /\ sorted_pulse_times r = Some (c_sorted_pulse_times best)
    /\ sorted_pulse_widths r = Some (c_sorted_pulse_widths best)
    /\ sorted_pulse_clusters r = Some (c_sorted_pulse_clusters best)
    /\ sorted_pulse_voltages r = Some (c_sorted_pulse_voltages best)
    /\ zip4 (c_sorted_pulse_times best) (c_sorted_pulse_widths best)
         (c_sorted_pulse_clusters best) (c_sorted_pulse_voltages best)
       ≡ₚ zip4 (c_pulses best) (c_widths best) (c_clusters best) (c_voltages best)
    /\ length (c_sorted_pulse_times best) = 6%nat
    /\ Sorted (fun a b => (b <? a) = false) (c_sorted_pulse_times best)
    /\ (Forall not_nan (c_pulses best) ->
        StronglySorted (fun a b => (a <=? b) = true) (c_sorted_pulse_times best)).
Proof.
  unfold detect_cycle_in_batch. intros Hr Hdet.
  destruct (initial_result voltages) as [r0|] eqn:Hinit; [|discriminate].
  assert (Hd0 : detected r0 = false).
  { unfold initial_result in Hinit. destruct (Np.min voltages); [|discriminate].
    destruct (Np.max voltages); [|discriminate]. simpl in Hinit. injection Hinit as <-.
    reflexivity. }
  simpl in Hr. destruct (_ <? _)%Z; [congruence|].
  pose proof (sort_by_reverse_head c_quality c_start_idx (scanned_cycles voltages)
                (scanned_cycles_not_nan voltages) (scanned_cycles_start_sorted voltages))
    as Hhead.
  fold (valid_cycles voltages) in Hhead.
  destruct (valid_cycles voltages) as [|best rest]; [congruence|].
  injection Hr as <-. simpl.
  destruct Hhead as (Hin & Hmax & Hfirst).
  pose proof (scanned_cycles_in _ _ Hin) as Hscan.
  pose proof (scan_cycle_some _ _ _ Hscan)
    as (_ & _ & _ & _ & _ & _ & _ & _ & Hsorted & Hlen & _).
  pose proof (scan_cycle_window_lengths _ _ _ Hscan) as (Hlp & Hlw & Hlc & Hlv).
  pose proof (scanned_cycles_not_nan voltages) as Hnan. rewrite Forall_forall in Hnan.
  exists best. repeat split; try reflexivity; try assumption.
  - intros c Hc. apply leb_of_not_ltb.
    + apply Hnan, list_elem_of_In, Hc.
    + apply Hnan, list_elem_of_In, Hin.
    + apply Hmax, Hc.
  - intros c Hc Hle Hstart.
    apply (scanned_cycles_same_start voltages); try assumption.
    destruct (decide (c_start_idx c = c_start_idx best)) as [E|NE]; [exact E|].
    exfalso. apply (leb_ltb_absurd _ _ Hle). apply Hfirst; [exact Hc|lia].
  - rewrite <- Hsorted. apply sort_by_perm.
  - rewrite (scan_cycle_sorted_times _ _ _ Hscan). apply Sorted_map_key, sort_by_sorted.
  - intros Htimes. rewrite (scan_cycle_sorted_times _ _ _ Hscan).
    apply StronglySorted_map_key, sorted_not_nan_ascending; [|apply sort_by_sorted].
    rewrite (sort_by_perm pd_time (zip4 _ _ _ _)).
    apply Forall_forall. intros a Ha. rewrite Forall_forall in Htimes. apply Htimes.
    rewrite <- (zip4_times (c_pulses best) (c_widths best) (c_clusters best)
                  (c_voltages best) 6%nat) by assumption.
    apply list_elem_of_In, in_map, list_elem_of_In, Ha.
Qed.

(** C9: the detector reports a detection exactly when the batch is not
    shorter than the samples of one cycle and some window of six consecutive
    pulses passes the checks; for a batch of up to 100000 samples the first
    condition always holds, so a batch with a valid window is detected.
    When a batch is detected, the result is taken from one scanned cycle:
    none has a greater quality, every cycle scanned before it has a strictly
    smaller one (ties go to the earliest start), and no other cycle meets
    both; the result's quality, score and sorted pulse lists are that
    cycle's, its six (time, width, cluster, voltage) items are those of the
    window rearranged, and the times ascend (no later time compares less than
    its predecessor; with no NaN among them, each is at most every later
    one). *)
Theorem best_cycle_promoted voltages r :
  detect_cycle_in_batch voltages = Returned r ->
  (detected r = true
   <-> (samples_per_cycle voltages <= Z.of_nat (length voltages))%Z
       /\ exists start_idx, window_ok voltages start_idx = true)
  /\ ((Z.of_nat (length voltages) <= 100000)%Z ->
      (exists start_idx, window_ok voltages start_idx = true) -> detected r = true)
  /\ (detected r = true ->
      exists best,
        In best (scanned_cycles voltages)
        /\ (forall c, In c (scanned_cycles voltages) -> (c_quality c <=? c_quality best) = true)
        /\ (forall c, In c (scanned_cycles voltages) ->
              c_start_idx c < c_start_idx best -> (c_quality c <? c_quality best) = true)
        /\ (forall c, In c (scanned_cycles voltages) ->
              (c_quality best <=? c_quality c) = true ->
              c_start_idx c <= c_start_idx best -> c = best)
        /\ quality r = c_quality best /\ score r = c_quality best
        /\ sorted_pulse_times r = Some (c_sorted_pulse_times best)
        /\ sorted_pulse_widths r = Some (c_sorted_pulse_widths best)
        /\ sorted_pulse_clusters r = Some (c_sorted_pulse_clusters best)
        /\ sorted_pulse_voltages r = Some (c_sorted_pulse_voltages best)
        /\ zip4 (c_sorted_pulse_times best) (c_sorted_pulse_widths best)
             (c_sorted_pulse_clusters best) (c_sorted_pulse_voltages best)
           ≡ₚ zip4 (c_pulses best) (c_widths best) (c_clusters best) (c_voltages best)
        /\ length (c_sorted_pulse_times best) = 6%nat
        /\ Sorted (fun a b => (b <? a) = false) (c_sorted_pulse_times best)
        /\ (Forall not_nan (c_pulses best) ->
            StronglySorted (fun a b => (a <=? b) = true) (c_sorted_pulse_times best))).
Proof.
  intros Hr. pose proof (detected_iff voltages r Hr) as Hiff.
  rewrite scanned_cycles_window, Z.ltb_ge in Hiff.
  split; [exact Hiff|]. split.
  - intros Hlen Hwin. apply Hiff. split; [|exact Hwin].
    apply Z.ltb_ge, batches_long_enough; [|exact Hlen].
    intros ->. discriminate Hr.
  - apply promoted_cycle_is_best, Hr.
Qed.

Lemma best_cycle_of_uneven_batch :
  exists r best,
    detect_cycle_in_batch (uneven_pulses 0 0.3) = Returned r
    /\ detected r = true
    /\ In best (scanned_cycles (uneven_pulses 0 0.3))
    /\ quality r = c_quality best
    /\ sorted_pulse_times r = Some (c_sorted_pulse_times best)
    /\ (forall c, In c (scanned_cycles (uneven_pulses 0 0.3)) ->
          (c_quality c <=? c_quality best) = true).
Proof.
  destruct (detect_cycle_in_batch (uneven_pulses 0 0.3)) as [r|e] eqn:E;
    [|vm_compute in E; discriminate E].
  destruct (best_cycle_promoted _ r E) as (_ & Hwindow & Hbest).
  assert (Hlen : (Z.of_nat (length (uneven_pulses 0 0.3)) <= 100000)%Z)
    by (vm_compute; discriminate).
  assert (Hok : window_ok (uneven_pulses 0 0.3) 1 = true) by (vm_compute; reflexivity).
  pose proof (Hwindow Hlen (ex_intro _ 1%nat Hok)) as Hd.
  destruct (Hbest Hd) as (best & Hin & Hmax & _ & _ & Hq & _ & Ht & _).
  exists r, best. repeat split; assumption.
Defined.

(** ** What each step of sample_data leaves alone *)

Ltac break_matches :=
  repeat match goal with
  | |- context [match ?x with _ => _ end] => destruct x eqn:?; simpl
  end.

Lemma auto_adjust_gain_frame channel voltage_batch lo hi s :
  let s' := auto_adjust_gain channel voltage_batch lo hi s in
  lock_part s' = lock_part s
  /\ sample_buffer s' = sample_buffer s
  /\ wavelength_cycle_count s' = wavelength_cycle_count s
  /\ auto_gain_calls s' = S (auto_gain_calls s)
  /\ (adc s' = None <-> adc s = None).
Proof.
  unfold auto_adjust_gain, try_set_gain. simpl.
  break_matches; repeat split; try reflexivity; try congruence.
Qed.

Lemma record_batch_frame now voltages s :
  let s' := record_batch now voltages s in
  lock_part s' = lock_part s
  /\ sample_buffer s' = sample_buffer s
  /\ auto_gain_calls s' = auto_gain_calls s
  /\ adc s' = adc s.
Proof. repeat split. Qed.

Lemma buffer_append_lookup key x d w :
  buffer_append key x d !!! w
  = if decide (key = w) then (d !!! w) ++ [x] else d !!! w.
Proof.
  unfold buffer_append. destruct (decide (key = w)) as [->|Hne].
  - apply lookup_total_insert_eq.
  - apply lookup_total_insert_ne, Hne.
Qed.

Lemma assign_pulses_frame pulses i s :
  let s' := assign_pulses i pulses s in
  lock_part s' = lock_part s
  /\ adc s' = adc s
  /\ continuous_sample_buffer s' = continuous_sample_buffer s
  /\ wavelength_cycle_count s' = wavelength_cycle_count s
  /\ auto_gain_calls s' = auto_gain_calls s
  /\ forall w, exists added,
       sample_buffer s' !!! w = sample_buffer s !!! w ++ added
       /\ length added = assigned_to w i (length pulses).
Proof.
  revert i s. induction pulses as [|[[t cl] v] pulses IH]; intros i s; simpl.
  - repeat split. intros w. exists []. rewrite app_nil_r. split; reflexivity.
  - destruct (wavelengths !! i) as [wl|] eqn:Hw.
    + destruct (IH (S i) (set_sample_buffer
                   (buffer_append wl (v / Py.float_of_Z (normalising_gain s)) (sample_buffer s)) s))
        as (Hl & Ha & Hc & Hn & Hg & Hb).
      simpl in *. repeat split; try assumption.
      intros w. destruct (Hb w) as (added & Hadd & Hlen).
      rewrite Hadd, buffer_append_lookup. unfold assigned_to in *. simpl. rewrite Hw.
      destruct (decide (wl = w)) as [->|Hne].
      * rewrite bool_decide_eq_true_2 by reflexivity.
        eexists. rewrite <- app_assoc. split; [reflexivity|]. simpl. rewrite Hlen. reflexivity.
      * rewrite bool_decide_eq_false_2 by congruence.
        exists added. split; [reflexivity|exact Hlen].
    + destruct (IH (S i) s) as (Hl & Ha & Hc & Hn & Hg & Hb).
      repeat split; try assumption.
      intros w. destruct (Hb w) as (added & Hadd & Hlen).
      exists added. split; [exact Hadd|]. unfold assigned_to in *. simpl. rewrite Hw.
      rewrite bool_decide_eq_false_2 by congruence. exact Hlen.
Qed.

Lemma assigned_to_wavelength w :
  assigned_to w 0 6 = if bool_decide (In w wavelengths) then 1%nat else 0%nat.
Proof.
  destruct (decide (In w wavelengths)) as [Hin|Hin].
  - rewrite (bool_decide_eq_true_2 _ Hin). simpl in Hin.
    destruct Hin as [<-|[<-|[<-|[<-|[<-|[<-|[]]]]]]]; reflexivity.
  - rewrite (bool_decide_eq_false_2 _ Hin). unfold assigned_to. simpl in *.
    repeat match goal with
    | |- context [bool_decide (Some ?a = Some w)] =>
        rewrite (bool_decide_eq_false_2 (Some a = Some w)) by (intros [= <-]; tauto)
    end.
    reflexivity.
Qed.

Lemma process_cycle_frame voltages c s :
  six_sorted c ->
  let s' := process_cycle voltages c s in
  lock_part s' = lock_part s
  /\ (adc s' = None <-> adc s = None)
  /\ auto_gain_calls s' = (auto_gain_calls s + (if has_low_pulse c then 1 else 0))%nat
  /\ forall w, exists added,
       sample_buffer s' !!! w = sample_buffer s !!! w ++ added
       /\ length added = if bool_decide (In w wavelengths) then 1%nat else 0%nat.
Proof.
  intros (Ht & Hc & Hv). unfold process_cycle. rewrite Ht, Hc.
  change ((6 =? 6)%nat && (6 =? 6)%nat) with true. cbv iota.
  set (pulses := zip _ _).
  assert (Hp : length pulses = 6%nat).
  { unfold pulses. rewrite !length_zip_with. lia. }
  destruct (assign_pulses_frame pulses 0 s) as (Hl & Ha & _ & _ & Hg & Hb).
  rewrite Hp in Hb. fold (has_low_pulse c).
  set (s1 := assign_pulses 0 pulses s) in *.
  set (s2 := set_wavelength_cycle_count _ s1).
  assert (Hb2 : forall w, exists added,
             sample_buffer s2 !!! w = sample_buffer s !!! w ++ added
             /\ length added = if bool_decide (In w wavelengths) then 1%nat else 0%nat).
  { intros w. rewrite <- assigned_to_wavelength. apply Hb. }
  destruct (has_low_pulse c).
  - destruct (auto_adjust_gain_frame 0 voltages 0.1 1.0 s2) as (Hl' & Hb' & _ & Hg' & Ha').
    cbv zeta in *. rewrite Hl', Hb', Hg', Ha'.
    change (lock_part s2) with (lock_part s1). change (adc s2) with (adc s1).
    change (auto_gain_calls s2) with (auto_gain_calls s1).
    rewrite Hl, Hg, Ha. repeat split; try tauto; try lia.
  - cbv zeta.
    change (lock_part s2) with (lock_part s1). change (adc s2) with (adc s1).
    change (auto_gain_calls s2) with (auto_gain_calls s1).
    rewrite Hl, Hg, Ha. repeat split; try tauto; try lia.
Qed.

Lemma process_cycles_fold_frame voltages cycles s :
  Forall six_sorted cycles ->
  let s' := fold_left (fun s c => process_cycle voltages c s) cycles s in
  lock_part s' = lock_part s
  /\ (adc s' = None <-> adc s = None)
  /\ auto_gain_calls s' = (auto_gain_calls s + length (List.filter has_low_pulse cycles))%nat
  /\ forall w, exists added,
       sample_buffer s' !!! w = sample_buffer s !!! w ++ added
       /\ length added = if bool_decide (In w wavelengths) then length cycles else 0%nat.
Proof.
  intros Hsix. revert s. induction Hsix as [|c cycles Hc _ IH]; intros s; simpl.
  - repeat split; try tauto; try lia. intros w. exists []. rewrite app_nil_r.
    split; [reflexivity|]. destruct (bool_decide _); reflexivity.
  - destruct (process_cycle_frame voltages c s Hc) as (Hl & Ha & Hg & Hb).
    destruct (IH (process_cycle voltages c s)) as (Hl' & Ha' & Hg' & Hb').
    simpl in *. rewrite Hl', Hl, Hg', Hg, Ha', Ha. repeat split; try tauto.
    + destruct (has_low_pulse c); simpl; lia.
    + intros w. destruct (Hb w) as (a1 & E1 & L1). destruct (Hb' w) as (a2 & E2 & L2).
      exists (a1 ++ a2). rewrite E2, E1, <- app_assoc. split; [reflexivity|].
      rewrite length_app, L1, L2. destruct (bool_decide _); reflexivity.
Qed.

Lemma valid_cycles_six_sorted buf : Forall six_sorted (valid_cycles buf).
Proof.
  apply Forall_forall. intros c Hc.
  apply list_elem_of_In, valid_cycles_in, scanned_cycles_in, scan_cycle_some in Hc.
  destruct Hc as (_ & _ & _ & _ & _ & _ & _ & _ & _ & Ht & _ & Hc & Hv).
  repeat split; assumption.
Qed.

(** The result of a batch that is not empty, and the cycles it hands on. *)
Lemma detect_cases v voltages :
  exists r, detect_cycle_in_batch (v :: voltages) = Returned r
    /\ detects (v :: voltages) = detected r
    /\ processed_cycles (v :: voltages) = (if detected r then cycles_to_process r else [])
    /\ Forall six_sorted (cycles_to_process r)
    /\ length (cycles_to_process r) <= 3.
Proof.
  destruct (detect_returns v voltages) as (r & Hr & _).
  exists r. unfold detects, processed_cycles. rewrite Hr.
  repeat split; try reflexivity.
  - unfold detect_cycle_in_batch in Hr.
    destruct (initial_result (v :: voltages)) as [r0|] eqn:Hinit; [|discriminate].
    assert (Hnone : all_valid_cycles r0 = None).
    { unfold initial_result in Hinit. simpl in Hinit. injection Hinit as <-. reflexivity. }
    simpl in Hr. unfold cycles_to_process. apply Forall_take.
    destruct (_ <? _)%Z.
    + injection Hr as <-. rewrite Hnone. constructor.
    + destruct (valid_cycles (v :: voltages)) as [|best rest] eqn:Hvalid.
      * injection Hr as <-. rewrite Hnone. constructor.
      * injection Hr as <-. simpl. rewrite <- Hvalid.
        apply valid_cycles_six_sorted.
  - unfold cycles_to_process. rewrite length_take. lia.
Qed.

Lemma on_detected_frame now voltages r s :
  Forall six_sorted (cycles_to_process r) ->
  let s' := on_detected now voltages r s in
  consecutive_cycles s' = S (consecutive_cycles s)
  /\ is_locked s' = (if (LOCK_THRESHOLD <=? S (consecutive_cycles s))%nat then true else is_locked s)
  /\ no_pattern_timer s' = None
  /\ pattern_detection_active s' = false
  /\ pattern_lost_signals s' = pattern_lost_signals s
  /\ (adc s' = None <-> adc s = None)
  /\ auto_gain_calls s'
     = (auto_gain_calls s + length (List.filter has_low_pulse (cycles_to_process r)))%nat
  /\ forall w, exists added,
       sample_buffer s' !!! w = sample_buffer s !!! w ++ added
       /\ length added
          = if bool_decide (In w wavelengths) then length (cycles_to_process r) else 0%nat.
Proof.
  intros Hsix. unfold on_detected, process_cycles.
  match goal with |- context [fold_left ?f ?l ?s0] =>
    destruct (process_cycles_fold_frame voltages l s0 Hsix) as (Hl & Ha & Hg & Hb);
    set (s1 := fold_left f l s0) in *; clearbody s1
  end.
  unfold lock_part in Hl. cbn in Hl. injection Hl as Hcc Hlk Htm Hfl Hst Hsig.
  cbn in Ha, Hg, Hb.
  set (s2 := set_current_wavelength _ s1).
  set (s3 := set_stats _ s2).
  set (s4 := set_consecutive_cycles _ s3).
  change (consecutive_cycles s4) with (S (consecutive_cycles s1)).
  rewrite Hcc.
  destruct (LOCK_THRESHOLD <=? S (consecutive_cycles s))%nat; cbn;
    rewrite ?Hcc, ?Hlk, ?Htm, ?Hfl, ?Hsig; repeat split; try assumption; try tauto.
Qed.

Lemma on_not_detected_frame voltages s :
  let s' := on_not_detected voltages s in
  consecutive_cycles s' = 0%nat
  /\ is_locked s' = false
  /\ no_pattern_timer s'
     = (if pattern_detection_active s then no_pattern_timer s else Some 3000%Z)
  /\ pattern_detection_active s' = true
  /\ pattern_lost_signals s' = pattern_lost_signals s
  /\ (adc s' = None <-> adc s = None)
  /\ auto_gain_calls s' = S (auto_gain_calls s)
  /\ sample_buffer s' = sample_buffer s.
Proof.
  unfold on_not_detected.
  match goal with |- context [auto_adjust_gain ?ch ?vb ?lo ?hi ?s0] =>
    destruct (auto_adjust_gain_frame ch vb lo hi s0) as (Hl & Hb & _ & Hg & Ha);
    set (s1 := auto_adjust_gain ch vb lo hi s0) in *; clearbody s1
  end.
  unfold lock_part in Hl. cbv zeta in *.
  injection Hl as Hcc Hlk Htm Hfl Hst Hsig.
  rewrite Hcc, Hlk, Htm, Hfl, Hsig, Hb, Hg, Ha.
  destruct (pattern_detection_active s) eqn:E; cbn; rewrite ?E; repeat split; tauto.
Qed.

(** The two ways [sample_data] ends. *)
Lemma sample_data_cases now batch s :
  ((adc s = None \/ map snd batch = []) /\ sample_data now batch s = Returned s)
  \/ (adc s <> None /\ map snd batch <> []
      /\ exists r, detect_cycle_in_batch (map snd batch) = Returned r
           /\ detects (map snd batch) = detected r
           /\ processed_cycles (map snd batch)
              = (if detected r then cycles_to_process r else [])
           /\ Forall six_sorted (cycles_to_process r)
           /\ length (cycles_to_process r) <= 3
           /\ sample_data now batch s
              = Returned (if detected r
                          then on_detected now (map snd batch) r
                                 (record_batch now (map snd batch) s)
                          else on_not_detected (map snd batch)
                                 (record_batch now (map snd batch) s))).
Proof.
  unfold sample_data. destruct (adc s) eqn:Hadc; [|left; auto].
  destruct (map snd batch) as [|v voltages] eqn:Hv; [left; auto|].
  right. split; [congruence|]. split; [congruence|].
  destruct (detect_cases v voltages) as (r & Hr & Hd & Hp & Hsix & Hlen).
  exists r. rewrite Hr. simpl. repeat split; try assumption.
  destruct (detected r); reflexivity.
Qed.

Lemma sample_data_returns now batch s : exists s', sample_data now batch s = Returned s'.
Proof.
  destruct (sample_data_cases now batch s) as [(_ & H)|(_ & _ & r & _ & _ & _ & _ & _ & H)];
    rewrite H; eauto.
Qed.

(** ** The pattern-based history *)

Lemma clear_fold_lookup (params : list string) (d : gmap string (list float)) w base :
  d !!! w = base \/ d !!! w = [] ->
  let d' :=
    fold_left
      (fun d param => match d !!! param with [] => d | _ :: _ => <[param := []]> d end)
      params d in
  d' !!! w = base \/ d' !!! w = [].
Proof.
  revert d. induction params as [|p params IH]; intros d Hd; [exact Hd|].
  simpl. apply IH. destruct (d !!! p) eqn:Hp; [exact Hd|].
  destruct (decide (p = w)) as [->|Hne].
  - right. apply lookup_total_insert_eq.
  - rewrite lookup_total_insert_ne by exact Hne. exact Hd.
Qed.

Lemma clear_stale_lookup current_time s w :
  sample_buffer (clear_stale current_time s) !!! w = sample_buffer s !!! w
  \/ sample_buffer (clear_stale current_time s) !!! w = [].
Proof.
  unfold clear_stale. destruct (cycle_timestamps (stats s)); [left; reflexivity|].
  destruct (_ && _); [|left; reflexivity].
  cbn [sample_buffer set_sample_buffer].
  apply clear_fold_lookup. left. reflexivity.
Qed.

Lemma trim_continuous_fold_frame recent (params : list string) s :
  sample_buffer (fold_left (trim_continuous recent) params s) = sample_buffer s.
Proof.
  revert s. induction params as [|p params IH]; intros s; [reflexivity|].
  simpl. rewrite IH. unfold trim_continuous. destruct (_ && _); reflexivity.
Qed.

(** C1, as stated, fails: nothing caps the pattern-based history.  After
    101 detected batches from the initial state the history of 700nm holds
    101 entries. *)
Lemma pattern_history_exceeds_100 :
  length (sample_buffer
            (run (repeat (Sample 0 (stamped (six_pulses 0 0.3))) 101) initial_window)
          !!! "700nm"%string) = 101%nat
  /\ ~ (forall evs w, length (sample_buffer (run evs initial_window) !!! w) <= 100).
Proof.
  assert (H : length (sample_buffer
                        (run (repeat (Sample 0 (stamped (six_pulses 0 0.3))) 101) initial_window)
                      !!! "700nm"%string) = 101%nat) by (vm_compute; reflexivity).
  split; [exact H|]. intros Hcap.
  specialize (Hcap (repeat (Sample 0 (stamped (six_pulses 0 0.3))) 101) "700nm"%string).
  rewrite H in Hcap. lia.
Qed.

(** C1, amended: the pattern-based history is not capped and [sample_data]
    drops nothing from it.  A batch appends to the end of each wavelength's
    history one entry per cycle it processes (at most three; none when nothing
    is detected) and leaves the earlier entries in place; the reporting step
    either leaves a wavelength's history as it is or, once the last detection
    is stale, empties it. *)
Theorem pattern_history_only_grows :
  (forall now batch s s' w,
     sample_data now batch s = Returned s' ->
     exists added,
       sample_buffer s' !!! w = sample_buffer s !!! w ++ added
       /\ length added <= 3
       /\ (adc s <> None -> In w wavelengths ->
           length added = length (processed_cycles (map snd batch))))
  /\ (forall current_time s w,
        sample_buffer (update_graph_from_buffer current_time s) !!! w = sample_buffer s !!! w
        \/ sample_buffer (update_graph_from_buffer current_time s) !!! w = []).
Proof.
  split.
  - intros now batch s s' w Hs.
    destruct (sample_data_cases now batch s)
      as [([Hadc|Hempty] & Hret)|(Hadc & Hne & r & Hr & Hd & Hp & Hsix & Hlen & Hret)];
      rewrite Hret in Hs; injection Hs as <-.
    + exists []. rewrite app_nil_r. repeat split; [simpl; lia|congruence].
    + exists []. rewrite app_nil_r. repeat split; [simpl; lia|].
      intros _ _. rewrite Hempty. reflexivity.
    + rewrite Hp. destruct (detected r).
      * destruct (on_detected_frame now (map snd batch) r
                    (record_batch now (map snd batch) s) Hsix)
          as (_ & _ & _ & _ & _ & _ & _ & Hb).
        destruct (Hb w) as (added & Hadd & Hl). exists added.
        split; [exact Hadd|]. rewrite Hl. destruct (bool_decide (In w wavelengths)) eqn:E.
        -- split; [exact Hlen|]. reflexivity.
        -- split; [lia|]. intros _ Hin. apply bool_decide_eq_false in E. contradiction.
      * destruct (on_not_detected_frame (map snd batch) (record_batch now (map snd batch) s))
          as (_ & _ & _ & _ & _ & _ & _ & Hb).
        cbv zeta in Hb. rewrite Hb. exists []. rewrite app_nil_r.
        repeat split; simpl; lia.
  - intros current_time s w. unfold update_graph_from_buffer.
    rewrite trim_continuous_fold_frame. apply clear_stale_lookup.
Qed.

Lemma pattern_history_grows_by_one :
  exists s' added,
    sample_data 0 (stamped (six_pulses 0 0.3)) initial_window = Returned s'
    /\ sample_buffer s' !!! "800nm"%string
       = sample_buffer initial_window !!! "800nm"%string ++ added
    /\ length added = 1%nat.
Proof.
  destruct (sample_data 0 (stamped (six_pulses 0 0.3)) initial_window) as [s'|e] eqn:E;
    [|vm_compute in E; discriminate E].
  destruct (proj1 pattern_history_only_grows _ _ _ _ "800nm"%string E)
    as (added & Hadd & _ & Hlen).
  exists s', added. repeat split; [exact Hadd|].
  rewrite Hlen; [vm_compute; reflexivity|intros H; discriminate H|].
  right. left. reflexivity.
Defined.

(** ** The lock state *)

(** C5: from the unlocked state with no detection counted, one detected
    batch leaves the state unlocked and a second one in a row locks it; a
    batch without detection resets the count of consecutive detections to 0
    and unlocks, whatever the state. *)
Theorem lock_after_two_detections :
  (forall now1 batch1 now2 batch2 s s1 s2,
     adc s <> None -> consecutive_cycles s = 0%nat -> is_locked s = false ->
     detects (map snd batch1) = true -> detects (map snd batch2) = true ->
     sample_data now1 batch1 s = Returned s1 ->
     sample_data now2 batch2 s1 = Returned s2 ->
     (consecutive_cycles s1 = 1%nat /\ is_locked s1 = false)
     /\ (consecutive_cycles s2 = 2%nat /\ is_locked s2 = true))
  /\ (forall now batch s s',
        adc s <> None -> map snd batch <> [] -> detects (map snd batch) = false ->
        sample_data now batch s = Returned s' ->
        consecutive_cycles s' = 0%nat /\ is_locked s' = false).
Proof.
  assert (Hstep : forall now batch s s',
             adc s <> None -> detects (map snd batch) = true ->
             sample_data now batch s = Returned s' ->
             adc s' <> None
             /\ consecutive_cycles s' = S (consecutive_cycles s)
             /\ is_locked s'
                = (if (LOCK_THRESHOLD <=? S (consecutive_cycles s))%nat
                   then true else is_locked s)).
  { intros now batch s s' Hadc Hdet Hs.
    destruct (sample_data_cases now batch s)
      as [([Hnone|Hempty] & _)|(_ & _ & r & _ & Hd & _ & Hsix & _ & Hret)].
    - contradiction.
    - rewrite Hempty in Hdet. discriminate Hdet.
    - rewrite Hret in Hs. injection Hs as <-. rewrite Hdet in Hd. rewrite <- Hd.
      destruct (on_detected_frame now (map snd batch) r
                  (record_batch now (map snd batch) s) Hsix)
        as (Hcc & Hlk & _ & _ & _ & Ha & _).
      cbv zeta in *. rewrite Hcc, Hlk. repeat split. tauto. }
  split.
  - intros now1 batch1 now2 batch2 s s1 s2 Hadc Hcc Hlk Hd1 Hd2 Hs1 Hs2.
    destruct (Hstep _ _ _ _ Hadc Hd1 Hs1) as (Hadc1 & Hcc1 & Hlk1).
    destruct (Hstep _ _ _ _ Hadc1 Hd2 Hs2) as (_ & Hcc2 & Hlk2).
    rewrite Hcc in *. rewrite Hcc1 in *. rewrite Hlk in *.
    repeat split; assumption.
  - intros now batch s s' Hadc Hne Hdet Hs.
    destruct (sample_data_cases now batch s)
      as [([Hnone|Hempty] & _)|(_ & _ & r & _ & Hd & _ & _ & _ & Hret)]; try contradiction.
    rewrite Hret in Hs. injection Hs as <-. rewrite Hdet in Hd. rewrite <- Hd.
    destruct (on_not_detected_frame (map snd batch) (record_batch now (map snd batch) s))
      as (Hcc & Hlk & _).
    split; assumption.
Qed.

Lemma lock_after_two_detections_run :
  exists s1 s2,
    sample_data 0 (stamped (six_pulses 0 0.3)) initial_window = Returned s1
    /\ sample_data 1 (stamped (seven_pulses 0 0.3)) s1 = Returned s2
    /\ is_locked s1 = false /\ is_locked s2 = true.
Proof.
  assert (Hadc : adc initial_window <> None) by (intros H; discriminate H).
  assert (Hd1 : detects (map snd (stamped (six_pulses 0 0.3))) = true)
    by (vm_compute; reflexivity).
  assert (Hd2 : detects (map snd (stamped (seven_pulses 0 0.3))) = true)
    by (vm_compute; reflexivity).
  destruct (sample_data 0 (stamped (six_pulses 0 0.3)) initial_window) as [s1|e] eqn:E1;
    [|vm_compute in E1; discriminate E1].
  destruct (sample_data_returns 1 (stamped (seven_pulses 0 0.3)) s1) as (s2 & E2).
  destruct (proj1 lock_after_two_detections 0 (stamped (six_pulses 0 0.3))
              1 (stamped (seven_pulses 0 0.3)) initial_window s1 s2
              Hadc eq_refl eq_refl Hd1 Hd2 E1 E2)
    as ((_ & Hl1) & (_ & Hl2)).
  exists s1, s2. repeat split; assumption.
Defined.

(** ** Calls of the gain controller *)

(** C7, as stated, fails: a detected batch whose pulses all reach 0.1 V does
    not call the gain controller.  The regular six-pulse batch with pulses of
    1.5 V is detected at gain 4; the controller is not called and the gain
    stays 4, although samples exceed 1.0 V. *)
Lemma detected_batch_skips_gain_controller :
  exists s',
    sample_data 0 (stamped (six_pulses 0 1.5)) (window_with_gain 4 true) = Returned s'
    /\ detects (six_pulses 0 1.5) = true
    /\ any_above 1.0 (six_pulses 0 1.5) = true
    /\ auto_gain_calls s' = auto_gain_calls (window_with_gain 4 true)
    /\ normalising_gain s' = 4%Z.
Proof.
  eexists. split; [vm_compute; reflexivity|]. repeat split; vm_compute; reflexivity.
Qed.

(** C7, amended: a batch without detection calls the gain controller
    exactly once; a detected batch calls it once for every processed cycle
    (at most three) that has a pulse of |voltage| < 0.1 V, and not at all
    when there is none. *)
Theorem gain_controller_calls now batch s s' :
  adc s <> None -> map snd batch <> [] ->
  sample_data now batch s = Returned s' ->
  auto_gain_calls s'
  = (auto_gain_calls s
     + (if detects (map snd batch)
        then length (List.filter has_low_pulse (processed_cycles (map snd batch)))
        else 1))%nat.
Proof.
  intros Hadc Hne Hs.
  destruct (sample_data_cases now batch s)
    as [([Hnone|Hempty] & _)|(_ & _ & r & _ & Hd & Hp & Hsix & _ & Hret)]; try contradiction.
  rewrite Hret in Hs. injection Hs as <-. rewrite Hd, Hp.
  destruct (detected r).
  - destruct (on_detected_frame now (map snd batch) r
                (record_batch now (map snd batch) s) Hsix)
      as (_ & _ & _ & _ & _ & _ & Hg & _).
    exact Hg.
  - destruct (on_not_detected_frame (map snd batch) (record_batch now (map snd batch) s))
      as (_ & _ & _ & _ & _ & _ & Hg & _).
    cbv zeta in Hg. rewrite Hg. simpl. lia.
Qed.

Lemma gain_controller_calls_examples :
  (exists s',
     sample_data 0 (stamped quiet_batch) initial_window = Returned s'
     /\ auto_gain_calls s' = 1%nat)
  /\ (exists s',
        sample_data 0 (stamped faint_pulses) initial_window = Returned s'
        /\ detects (map snd (stamped faint_pulses)) = true
        /\ auto_gain_calls s' = 1%nat
        /\ normalising_gain s' = 2%Z).
Proof.
  assert (Hadc : adc initial_window <> None) by (intros H; discriminate H).
  split.
  - destruct (sample_data 0 (stamped quiet_batch) initial_window) as [s'|e] eqn:E;
      [|vm_compute in E; discriminate E].
    assert (Hne : map snd (stamped quiet_batch) <> []).
    { intros H. vm_compute in H. discriminate H. }
    exists s'. split; [reflexivity|].
    rewrite (gain_controller_calls 0 (stamped quiet_batch) initial_window s' Hadc Hne E).
    vm_compute. reflexivity.
  - destruct (sample_data 0 (stamped faint_pulses) initial_window) as [s'|e] eqn:E;
      [|vm_compute in E; discriminate E].
    assert (Hne : map snd (stamped faint_pulses) <> []).
    { intros H. vm_compute in H. discriminate H. }
    exists s'. split; [reflexivity|]. split; [vm_compute; reflexivity|]. split.
    + rewrite (gain_controller_calls 0 (stamped faint_pulses) initial_window s' Hadc Hne E).
      vm_compute. reflexivity.
    + vm_compute in E. injection E as <-. reflexivity.
Defined.

(** ** The empty batch *)

(** C10: on an empty batch [sample_data] returns with the state as it was:
    no history gains an entry, the lock counter and flag, the gain, the
    silence timer and its flag are untouched and the gain controller is not
    called; the detector, which raises on an empty batch, is not reached. *)
Theorem empty_batch_is_noop now s :
  detect_cycle_in_batch (map snd (@nil (float * float))) = Raised ValueError
  /\ sample_data now [] s = Returned s
  /\ step s (Sample now []) = s.
Proof.
  assert (H : sample_data now [] s = Returned s).
  { unfold sample_data. destruct (adc s); reflexivity. }
  repeat split; [exact H|]. simpl. rewrite H. reflexivity.
Qed.

(** ** The gain controller *)

Lemma empty_buffers_lookup w : empty_buffers !!! w = [].
Proof.
  unfold empty_buffers. induction PARAMETERS as [|p params IH]; simpl.
  - rewrite lookup_total_empty. reflexivity.
  - destruct (decide (p = w)) as [->|Hne].
    + apply lookup_total_insert_eq.
    + rewrite lookup_total_insert_ne by exact Hne. exact IH.
Qed.

Ltac ladder_cases g :=
  unfold current_gain_idx, find_gain_idx, gain_values;
  destruct (Z.eqb_spec g 1); [|destruct (Z.eqb_spec g 2);
    [|destruct (Z.eqb_spec g 4); [|destruct (Z.eqb_spec g 8)]]].

(** A step on the ladder never lands on the gain it starts from. *)
Lemma ladder_step_down_changes g g' :
  (0 <? current_gain_idx g)%nat = true ->
  driver_gain_values !! nth (current_gain_idx g - 1) gain_steps 0%nat = Some g' ->
  g' <> g.
Proof. ladder_cases g; simpl; intros H [= <-]; try discriminate H; lia. Qed.

Lemma ladder_step_up_changes g g' :
  (current_gain_idx g <? length gain_steps - 1)%nat = true ->
  driver_gain_values !! nth (current_gain_idx g + 1) gain_steps 0%nat = Some g' ->
  g' <> g.
Proof. ladder_cases g; simpl; intros H [= <-]; try discriminate H; lia. Qed.

Lemma try_set_gain_effect gain drv s g' :
  adc s = Some (ADS131M02_adc drv) ->
  (forall g, driver_gain_values !! gain = Some g -> g <> gain_of_channel 0 drv) ->
  let s' := try_set_gain 0 gain drv s in
  sample_buffer s' = sample_buffer s
  /\ (channel_gains_of s' <> channel_gains_of s ->
      continuous_sample_buffer s' = empty_buffers)
  /\ (channel_gains_of s' = channel_gains_of s ->
      continuous_sample_buffer s' = continuous_sample_buffer s)
  /\ (spi_ok drv = true -> driver_gain_values !! gain = Some g' ->
      normalising_gain s' = g').
Proof.
  intros Hadc Hchange. unfold try_set_gain, set_gain. simpl.
  destruct (spi_ok drv) eqn:Hok; simpl.
  - destruct (driver_gain_values !! gain) as [g|] eqn:Hg; simpl.
    + repeat split; try reflexivity.
      * intros Hsame. exfalso. unfold channel_gains_of in Hsame. simpl in Hsame.
        rewrite Hadc in Hsame. injection Hsame as Hsame.
        apply (Hchange g); [reflexivity|]. simpl. rewrite <- Hsame. reflexivity.
      * intros _ [= <-]. reflexivity.
    + repeat split; try reflexivity; try congruence.
  - repeat split; try reflexivity; try congruence.
Qed.

(** C8: the gain controller never touches the pattern-based histories; when
    it changes the gain it resets the continuous history of every wavelength
    to empty, and when the gain stays it leaves the continuous histories as
    they were. *)
Theorem gain_change_clears_continuous_history channel voltage_batch lo hi s :
  let s' := auto_adjust_gain channel voltage_batch lo hi s in
  sample_buffer s' = sample_buffer s
  /\ (channel_gains_of s' <> channel_gains_of s ->
      continuous_sample_buffer s' = empty_buffers
      /\ forall w, continuous_sample_buffer s' !!! w = [])
  /\ (channel_gains_of s' = channel_gains_of s ->
      continuous_sample_buffer s' = continuous_sample_buffer s).
Proof.
  assert (Hsame : forall s0 : MainWindow,
             s0 = set_auto_gain_calls (S (auto_gain_calls s)) s ->
             sample_buffer s0 = sample_buffer s
             /\ (channel_gains_of s0 <> channel_gains_of s ->
                 continuous_sample_buffer s0 = empty_buffers
                 /\ forall w, continuous_sample_buffer s0 !!! w = [])
             /\ (channel_gains_of s0 = channel_gains_of s ->
                 continuous_sample_buffer s0 = continuous_sample_buffer s)).
  { intros s0 ->. split; [reflexivity|]. split.
    - intros Hdiff. exfalso. apply Hdiff. reflexivity.
    - intros _. reflexivity. }
  assert (Hset : forall gain drv,
             adc s = Some (ADS131M02_adc drv) ->
             (forall g, driver_gain_values !! gain = Some g -> g <> gain_of_channel 0 drv) ->
             let s0 := try_set_gain 0 gain drv
                         (set_auto_gain_calls (S (auto_gain_calls s)) s) in
             sample_buffer s0 = sample_buffer s
             /\ (channel_gains_of s0 <> channel_gains_of s ->
                 continuous_sample_buffer s0 = empty_buffers
                 /\ forall w, continuous_sample_buffer s0 !!! w = [])
             /\ (channel_gains_of s0 = channel_gains_of s ->
                 continuous_sample_buffer s0 = continuous_sample_buffer s)).
  { intros gain drv Hadc Hchange.
    destruct (try_set_gain_effect gain drv
                (set_auto_gain_calls (S (auto_gain_calls s)) s) 0%Z Hadc Hchange)
      as (Hb & Hc & Hk & _).
    cbv zeta. split; [exact Hb|]. split; [|exact Hk].
    intros Hdiff. split; [apply Hc, Hdiff|].
    intros w. rewrite (Hc Hdiff). apply empty_buffers_lookup. }
  unfold auto_adjust_gain. cbv zeta.
  change (adc (set_auto_gain_calls (S (auto_gain_calls s)) s)) with (adc s).
  destruct (adc s) as [[drv|]|] eqn:Hadc; try (apply Hsame; reflexivity).
  destruct (negb (channel =? 0)%nat) eqn:Hch; [apply Hsame; reflexivity|].
  apply negb_false_iff, Nat.eqb_eq in Hch. subst channel.
  destruct voltage_batch as [|v rest]; [apply Hsame; reflexivity|].
  destruct (any_above hi (v :: rest)).
  - destruct (0 <? current_gain_idx (gain_of_channel 0 drv))%nat eqn:Hidx;
      [|apply Hsame; reflexivity].
    apply Hset; [reflexivity|]. intros g Hg.
    apply (ladder_step_down_changes _ _ Hidx Hg).
  - destruct (_ && _); [|apply Hsame; reflexivity].
    destruct (current_gain_idx (gain_of_channel 0 drv) <? length gain_steps - 1)%nat eqn:Hidx;
      [|apply Hsame; reflexivity].
    apply Hset; [reflexivity|]. intros g Hg.
    apply (ladder_step_up_changes _ _ Hidx Hg).
Qed.

Lemma gain_change_clears_on_loud_batch :
  let s := record_batch 0 (six_pulses 0.12 1.5) (window_with_gain 4 true) in
  let s' := auto_adjust_gain 0 (six_pulses 0.12 1.5) 0.1 1.0 s in
  normalising_gain s = 4%Z /\ normalising_gain s' = 2%Z
  /\ sample_buffer s' = sample_buffer s
  /\ continuous_sample_buffer s' = empty_buffers.
Proof.
  cbv zeta.
  destruct (gain_change_clears_continuous_history 0 (six_pulses 0.12 1.5) 0.1 1.0
              (record_batch 0 (six_pulses 0.12 1.5) (window_with_gain 4 true)))
    as (Hb & Hc & _).
  split; [vm_compute; reflexivity|]. split; [vm_compute; reflexivity|].
  split; [exact Hb|]. apply Hc. vm_compute. intros H. discriminate H.
Defined.

(** C3: with the ADS131M02 at a gain of the ladder {1, 2, 4, 8} and a gain
    write that succeeds, the controller called with the thresholds 0.1 V and
    1.0 V moves the rung of the gain as follows: one down when some sample has
    |voltage| > 1.0 (none at the lowest rung); otherwise one up when some
    sample has |voltage| < 0.1 and the greatest |voltage| is at most 1.0 (none
    at the highest rung); otherwise not at all.  The rung stays within the
    ladder. *)
Theorem gain_step_policy voltage_batch s drv :
  adc s = Some (ADS131M02_adc drv) -> spi_ok drv = true ->
  In (gain_of_channel 0 drv) gain_values ->
  let s' := auto_adjust_gain 0 voltage_batch 0.1 1.0 s in
  gain_values !! gain_rung s = Some (normalising_gain s)
  /\ gain_values !! gain_rung s' = Some (normalising_gain s')
  /\ (any_above 1.0 voltage_batch = true -> gain_rung s' = (gain_rung s - 1)%nat)
  /\ (any_above 1.0 voltage_batch = false ->
      any_below 0.1 voltage_batch = true -> (max_voltage voltage_batch <=? 1.0) = true ->
      gain_rung s' = Nat.min (gain_rung s + 1) (length gain_values - 1))
  /\ (any_above 1.0 voltage_batch = false ->
      (any_below 0.1 voltage_batch && (max_voltage voltage_batch <=? 1.0)) = false ->
      gain_rung s' = gain_rung s)
  /\ gain_rung s' <= length gain_values - 1.
Proof.
  intros Hadc Hok Hin. cbv zeta. destruct drv as [[g0 g1] ok]. simpl in Hok, Hin. subst ok.
  unfold gain_rung, normalising_gain, auto_adjust_gain, try_set_gain, set_gain.
  change (adc (set_auto_gain_calls (S (auto_gain_calls s)) s)) with (adc s).
  rewrite Hadc. cbv zeta.
  change (negb (0 =? 0)%nat) with false. cbv iota.
  destruct voltage_batch as [|v rest].
  - destruct Hin as [<-|[<-|[<-|[<-|[]]]]];
      cbn; rewrite ?Hadc; cbn; repeat split; try reflexivity; try discriminate; try lia.
  - remember (any_above 1.0 (v :: rest)) as above.
    remember (any_below 0.1 (v :: rest)) as below.
    remember (max_voltage (v :: rest) <=? 1.0) as bounded.
    destruct Hin as [<-|[<-|[<-|[<-|[]]]]]; destruct above, below, bounded;
      cbn; rewrite ?Hadc; cbn; repeat split; try reflexivity; try discriminate; try lia.
Qed.

Lemma gain_step_policy_examples :
  gain_rung (auto_adjust_gain 0 (six_pulses 0.12 1.5) 0.1 1.0 (window_with_gain 4 true)) = 1%nat
  /\ gain_rung (auto_adjust_gain 0 quiet_batch 0.1 1.0 (window_with_gain 2 true)) = 2%nat.
Proof.
  split.
  - destruct (gain_step_policy (six_pulses 0.12 1.5) (window_with_gain 4 true)
                {| channel_gains := (4%Z, 1%Z); spi_ok := true |} eq_refl eq_refl)
      as (_ & _ & Hdown & _).
    + simpl. right. right. left. reflexivity.
    + rewrite Hdown; [reflexivity|vm_compute; reflexivity].
  - destruct (gain_step_policy quiet_batch (window_with_gain 2 true)
                {| channel_gains := (2%Z, 1%Z); spi_ok := true |} eq_refl eq_refl)
      as (_ & _ & _ & Hup & _).
    + simpl. right. left. reflexivity.
    + rewrite Hup; [reflexivity|vm_compute; reflexivity..].
Defined.

(** ** The silence timer *)

Lemma quiet_sample_effect now batch s :
  detects (map snd batch) = false ->
  let s' := step s (Sample now batch) in
  pattern_lost_signals s' = pattern_lost_signals s
  /\ (pattern_detection_active s = true ->
      no_pattern_timer s' = no_pattern_timer s /\ pattern_detection_active s' = true)
  /\ (pattern_detection_active s = false ->
      (no_pattern_timer s' = no_pattern_timer s /\ pattern_detection_active s' = false)
      \/ (no_pattern_timer s' = Some 3000%Z /\ pattern_detection_active s' = true)
         /\ adc s <> None /\ map snd batch <> []).
Proof.
  intros Hdet. cbv zeta. unfold step.
  destruct (sample_data_cases now batch s)
    as [(_ & ->)|(Hadc & Hne & r & _ & Hd & _ & _ & _ & ->)].
  - repeat split; auto.
  - rewrite Hdet in Hd. rewrite <- Hd.
    destruct (on_not_detected_frame (map snd batch) (record_batch now (map snd batch) s))
      as (_ & _ & Htm & Hfl & Hsig & _).
    cbv zeta in *. rewrite Htm, Hfl, Hsig.
    change (pattern_detection_active (record_batch now (map snd batch) s))
      with (pattern_detection_active s).
    change (no_pattern_timer (record_batch now (map snd batch) s)) with (no_pattern_timer s).
    change (pattern_lost_signals (record_batch now (map snd batch) s))
      with (pattern_lost_signals s).
    split; [reflexivity|]. split.
    + intros Ht. rewrite Ht. split; reflexivity.
    + intros Hf. rewrite Hf. right. repeat split; assumption.
Qed.

Lemma total_elapsed_quiet evs : Forall quiet_event evs -> (0 <= total_elapsed evs)%Z.
Proof.
  induction 1 as [|ev evs Hev _ IH]; [reflexivity|].
  unfold total_elapsed in *. simpl. destruct ev; simpl in *; lia.
Qed.

Lemma total_elapsed_cons ev evs :
  total_elapsed (ev :: evs) = (elapsed_of ev + total_elapsed evs)%Z.
Proof. reflexivity. Qed.

(** While the time is not up, the armed timer counts down and no signal is
    raised. *)
Lemma armed_run evs : forall s remaining,
  Forall quiet_event evs ->
  no_pattern_timer s = Some remaining -> pattern_detection_active s = true ->
  (total_elapsed evs < remaining)%Z ->
  pattern_lost_signals (run evs s) = pattern_lost_signals s
  /\ no_pattern_timer (run evs s) = Some (remaining - total_elapsed evs)%Z
  /\ pattern_detection_active (run evs s) = true.
Proof.
  induction evs as [|ev evs IH]; intros s remaining Hq Htm Hfl Hlt.
  - unfold total_elapsed. simpl. rewrite Z.sub_0_r. auto.
  - apply Forall_cons in Hq as [Hev Hq]. rewrite total_elapsed_cons in *.
    pose proof (total_elapsed_quiet evs Hq) as Hpos.
    change (run (ev :: evs) s) with (run evs (step s ev)).
    destruct ev as [now batch|dt]; simpl in Hev.
    + destruct (quiet_sample_effect now batch s Hev) as (Hsig & Harmed & _).
      destruct (Harmed Hfl) as (Htm' & Hfl'). rewrite Htm in Htm'.
      destruct (IH _ remaining Hq Htm' Hfl') as (H1 & H2 & H3); [simpl in Hlt; lia|].
      rewrite H1, H2, H3, Hsig. simpl. repeat split; try reflexivity; try (f_equal; lia).
    + simpl in Hlt. unfold step, elapse. rewrite Htm.
      destruct (Z.leb_spec remaining dt); [lia|].
      destruct (IH (set_no_pattern_timer (Some (remaining - dt)%Z) s) (remaining - dt)%Z Hq
                  eq_refl Hfl) as (H1 & H2 & H3); [lia|].
      rewrite H1, H2, H3. simpl. repeat split; try reflexivity; try (f_equal; lia).
Qed.

(** From the disarmed state no signal is raised within 3000 ms. *)
Lemma disarmed_run evs : forall s,
  Forall quiet_event evs ->
  no_pattern_timer s = None -> pattern_detection_active s = false ->
  (total_elapsed evs < 3000)%Z ->
  pattern_lost_signals (run evs s) = pattern_lost_signals s.
Proof.
  induction evs as [|ev evs IH]; intros s Hq Htm Hfl Hlt; [reflexivity|].
  apply Forall_cons in Hq as [Hev Hq]. rewrite total_elapsed_cons in Hlt.
  pose proof (total_elapsed_quiet evs Hq) as Hpos.
  change (run (ev :: evs) s) with (run evs (step s ev)).
  destruct ev as [now batch|dt]; simpl in Hev, Hlt.
  - destruct (quiet_sample_effect now batch s Hev) as (Hsig & _ & Hdis).
    destruct (Hdis Hfl) as [(Htm' & Hfl')|((Htm' & Hfl') & _)].
    + rewrite Htm in Htm'. rewrite (IH _ Hq Htm' Hfl'); [exact Hsig|lia].
    + destruct (armed_run evs _ 3000%Z Hq Htm' Hfl') as (H1 & _); [lia|].
      rewrite H1. exact Hsig.
  - unfold step, elapse. rewrite Htm. apply IH; try assumption. lia.
Qed.

Lemma signals_step s ev : pattern_lost_signals s <= pattern_lost_signals (step s ev).
Proof.
  destruct ev as [now batch|dt].
  - unfold step.
    destruct (sample_data_cases now batch s)
      as [(_ & ->)|(_ & _ & r & _ & _ & _ & Hsix & _ & ->)]; [lia|].
    destruct (detected r).
    + destruct (on_detected_frame now (map snd batch) r
                  (record_batch now (map snd batch) s) Hsix) as (_ & _ & _ & _ & Hsig & _).
      cbv zeta in Hsig. rewrite Hsig. simpl. lia.
    + destruct (on_not_detected_frame (map snd batch) (record_batch now (map snd batch) s))
        as (_ & _ & _ & _ & Hsig & _).
      cbv zeta in Hsig. rewrite Hsig. simpl. lia.
  - unfold step, elapse. destruct (no_pattern_timer s); [|lia].
    destruct (_ <=? _)%Z; simpl; lia.
Qed.

Lemma signals_run evs : forall s, pattern_lost_signals s <= pattern_lost_signals (run evs s).
Proof.
  induction evs as [|ev evs IH]; intros s; [reflexivity|].
  change (run (ev :: evs) s) with (run evs (step s ev)).
  etransitivity; [apply signals_step|apply IH].
Qed.

(** Once the time is up the signal has been raised: once, as long as a
    second timeout cannot have passed. *)
Lemma armed_run_fires evs : forall s remaining,
  Forall quiet_event evs ->
  no_pattern_timer s = Some remaining -> pattern_detection_active s = true ->
  (0 < remaining <= total_elapsed evs)%Z ->
  pattern_lost_signals s < pattern_lost_signals (run evs s)
  /\ ((total_elapsed evs < remaining + 3000)%Z ->
      pattern_lost_signals (run evs s) = S (pattern_lost_signals s)).
Proof.
  induction evs as [|ev evs IH]; intros s remaining Hq Htm Hfl Hle.
  - unfold total_elapsed in Hle. simpl in Hle. lia.
  - apply Forall_cons in Hq as [Hev Hq]. rewrite total_elapsed_cons in *.
    pose proof (total_elapsed_quiet evs Hq) as Hpos.
    change (run (ev :: evs) s) with (run evs (step s ev)).
    destruct ev as [now batch|dt]; simpl in Hev, Hle |- *.
    + destruct (quiet_sample_effect now batch s Hev) as (Hsig & Harmed & _).
      destruct (Harmed Hfl) as (Htm' & Hfl'). rewrite Htm in Htm'.
      destruct (IH _ remaining Hq Htm' Hfl') as (H1 & H2); [lia|].
      rewrite Hsig in H1, H2. split; [exact H1|exact H2].
    + unfold step, elapse. rewrite Htm.
      destruct (Z.leb_spec remaining dt) as [Hup|Hnot].
      * set (s1 := show_no_pattern_detected (set_no_pattern_timer None s)).
        assert (Hs1 : pattern_lost_signals s1 = S (pattern_lost_signals s)) by reflexivity.
        split.
        -- pose proof (signals_run evs s1). lia.
        -- intros Hlt. rewrite (disarmed_run evs s1 Hq eq_refl eq_refl); [exact Hs1|lia].
      * destruct (IH (set_no_pattern_timer (Some (remaining - dt)%Z) s) (remaining - dt)%Z Hq
                    eq_refl Hfl) as (H1 & H2); [lia|].
        split; [exact H1|]. intros Hlt. apply H2. lia.
Qed.

(** The status label: a batch without detection leaves it, a detected batch
    hides it, and the slot of the timer shows the text. *)
Lemma on_detected_label now voltages r s :
  Forall six_sorted (cycles_to_process r) ->
  status_label (on_detected now voltages r s)
  = {| text := text (status_label s); visible := false |}.
Proof.
  intros Hsix. unfold on_detected, process_cycles.
  match goal with |- context [fold_left ?f ?l ?s0] =>
    destruct (process_cycles_fold_frame voltages l s0 Hsix) as (Hl & _);
    set (s1 := fold_left f l s0) in *; clearbody s1
  end.
  unfold lock_part in Hl. cbn in Hl. injection Hl as Hcc Hlk Htm Hfl Hst Hsig.
  destruct (LOCK_THRESHOLD <=? _)%nat; cbn; rewrite Hst; reflexivity.
Qed.

Lemma on_not_detected_label voltages s :
  status_label (on_not_detected voltages s) = status_label s.
Proof.
  unfold on_not_detected.
  match goal with |- context [auto_adjust_gain ?ch ?vb ?lo ?hi ?s0] =>
    destruct (auto_adjust_gain_frame ch vb lo hi s0) as (Hl & _);
    set (s1 := auto_adjust_gain ch vb lo hi s0) in *; clearbody s1
  end.
  unfold lock_part in Hl. cbv zeta in Hl. injection Hl as Hcc Hlk Htm Hfl Hst Hsig.
  rewrite Hst. destruct (pattern_detection_active s); reflexivity.
Qed.

Lemma quiet_step_label s ev :
  quiet_event ev ->
  (pattern_lost_signals (step s ev) = pattern_lost_signals s
   /\ status_label (step s ev) = status_label s)
  \/ (pattern_lost_signals (step s ev) = S (pattern_lost_signals s)
      /\ status_label (step s ev) = no_pattern_label).
Proof.
  intros Hev. destruct ev as [now batch|dt]; simpl in Hev.
  - left. split; [apply (quiet_sample_effect now batch s Hev)|].
    unfold step.
    destruct (sample_data_cases now batch s)
      as [(_ & ->)|(_ & _ & r & _ & Hd & _ & _ & _ & ->)]; [reflexivity|].
    rewrite Hev in Hd. rewrite <- Hd. rewrite on_not_detected_label. reflexivity.
  - unfold step, elapse. destruct (no_pattern_timer s) as [remaining|]; [|left; split; reflexivity].
    destruct (remaining <=? dt)%Z; [right|left]; split; reflexivity.
Qed.

Lemma quiet_run_label evs : forall s,
  Forall quiet_event evs ->
  (pattern_lost_signals (run evs s) = pattern_lost_signals s
   /\ status_label (run evs s) = status_label s)
  \/ (pattern_lost_signals s < pattern_lost_signals (run evs s)
      /\ status_label (run evs s) = no_pattern_label).
Proof.
  induction evs as [|ev evs IH]; intros s Hq; [left; split; reflexivity|].
  apply Forall_cons in Hq as [Hev Hq].
  change (run (ev :: evs) s) with (run evs (step s ev)).
  destruct (quiet_step_label s ev Hev) as [(Hsig & Hlab)|(Hsig & Hlab)];
    destruct (IH (step s ev) Hq) as [(Hsig' & Hlab')|(Hsig' & Hlab')].
  - left. split; congruence.
  - right. split; [lia|assumption].
  - right. split; [lia|congruence].
  - right. split; [lia|assumption].
Qed.

(** C6: a batch without detection arms the 3000 ms timer when the flag of
    the timer is not set.  From then on, through batches without detection
    and passing time, no pattern-lost signal is raised and the status label
    stays as it was while less than 3000 ms have passed; once 3000 ms have
    passed the signal has been raised (exactly once before 6000 ms) and the
    label shows NO PATTERN DETECTED.  Raising the signal shows that label,
    disarms the timer and clears the flag, so that the next batch without
    detection arms it again.  A detected batch stops the timer, clears the
    flag and hides the label. *)
Theorem silence_timer :
  (forall now batch s s',
     adc s <> None -> map snd batch <> [] -> detects (map snd batch) = false ->
     pattern_detection_active s = false ->
     sample_data now batch s = Returned s' ->
     no_pattern_timer s' = Some 3000%Z /\ pattern_detection_active s' = true
     /\ status_label s' = status_label s)
  /\ (forall evs s,
        no_pattern_timer s = Some 3000%Z -> pattern_detection_active s = true ->
        Forall quiet_event evs ->
        ((total_elapsed evs < 3000)%Z ->
           pattern_lost_signals (run evs s) = pattern_lost_signals s
           /\ status_label (run evs s) = status_label s
           /\ no_pattern_timer (run evs s) = Some (3000 - total_elapsed evs)%Z
           /\ pattern_detection_active (run evs s) = true)
        /\ ((3000 <= total_elapsed evs)%Z ->
            pattern_lost_signals s < pattern_lost_signals (run evs s)
            /\ status_label (run evs s) = no_pattern_label)
        /\ ((3000 <= total_elapsed evs < 6000)%Z ->
            pattern_lost_signals (run evs s) = S (pattern_lost_signals s)))
  /\ (forall dt s remaining,
        no_pattern_timer s = Some remaining -> (remaining <= dt)%Z ->
        pattern_lost_signals (elapse dt s) = S (pattern_lost_signals s)
        /\ status_label (elapse dt s) = no_pattern_label
        /\ no_pattern_timer (elapse dt s) = None
        /\ pattern_detection_active (elapse dt s) = false)
  /\ (forall now batch s s',
        adc s <> None -> detects (map snd batch) = true ->
        sample_data now batch s = Returned s' ->
        no_pattern_timer s' = None /\ pattern_detection_active s' = false
        /\ pattern_lost_signals s' = pattern_lost_signals s
        /\ status_label s' = {| text := text (status_label s); visible := false |}).
Proof.
  split; [|split; [|split]].
  - intros now batch s s' Hadc Hne Hdet Hfl Hs.
    destruct (sample_data_cases now batch s)
      as [([Hnone|Hempty] & _)|(_ & _ & r & _ & Hd & _ & _ & _ & Hret)]; try contradiction.
    rewrite Hret in Hs. injection Hs as <-. rewrite Hdet in Hd. rewrite <- Hd.
    destruct (on_not_detected_frame (map snd batch) (record_batch now (map snd batch) s))
      as (_ & _ & Htm & Hfl' & _).
    cbv zeta in *. rewrite Htm, Hfl', on_not_detected_label.
    change (pattern_detection_active (record_batch now (map snd batch) s))
      with (pattern_detection_active s).
    rewrite Hfl. repeat split.
  - intros evs s Htm Hfl Hq. split; [|split].
    + intros Hlt. destruct (armed_run evs s 3000%Z Hq Htm Hfl Hlt) as (Hsig & Htm' & Hfl').
      repeat split; try assumption.
      destruct (quiet_run_label evs s Hq) as [(_ & Hlab)|(Hmore & _)]; [exact Hlab|lia].
    + intros Hle.
      destruct (armed_run_fires evs s 3000%Z Hq Htm Hfl ltac:(lia)) as (Hsig & _).
      split; [exact Hsig|].
      destruct (quiet_run_label evs s Hq) as [(Hsame & _)|(_ & Hlab)]; [lia|exact Hlab].
    + intros [Hle Hlt]. apply (armed_run_fires evs s 3000%Z); try assumption; lia.
  - intros dt s remaining Htm Hle. unfold elapse. rewrite Htm.
    destruct (Z.leb_spec remaining dt); [|lia]. repeat split.
  - intros now batch s s' Hadc Hdet Hs.
    destruct (sample_data_cases now batch s)
      as [([Hnone|Hempty] & _)|(_ & _ & r & _ & Hd & _ & Hsix & _ & Hret)].
    + contradiction.
    + rewrite Hempty in Hdet. discriminate Hdet.
    + rewrite Hret in Hs. injection Hs as <-. rewrite Hdet in Hd. rewrite <- Hd.
      destruct (on_detected_frame now (map snd batch) r
                  (record_batch now (map snd batch) s) Hsix)
        as (_ & _ & Htm & Hfl & Hsig & _).
      cbv zeta in *. rewrite Htm, Hfl, Hsig, (on_detected_label _ _ _ _ Hsix). repeat split.
Qed.

Lemma silence_timer_fires_at_3000 :
  let armed := step initial_window (Sample 0 (stamped quiet_batch)) in
  (pattern_lost_signals (run [Elapse 1000; Sample 1 (stamped quiet_batch); Elapse 1999] armed)
   = pattern_lost_signals armed
   /\ status_label (run [Elapse 1000; Sample 1 (stamped quiet_batch); Elapse 1999] armed)
      = status_label armed)
  /\ (pattern_lost_signals (run [Elapse 1000; Sample 1 (stamped quiet_batch); Elapse 2000] armed)
      = S (pattern_lost_signals armed)
      /\ status_label (run [Elapse 1000; Sample 1 (stamped quiet_batch); Elapse 2000] armed)
         = no_pattern_label).
Proof.
  cbv zeta.
  assert (Hquiet : detects (map snd (stamped quiet_batch)) = false)
    by (vm_compute; reflexivity).
  assert (Htm : no_pattern_timer (step initial_window (Sample 0 (stamped quiet_batch)))
                = Some 3000%Z) by (vm_compute; reflexivity).
  assert (Hfl : pattern_detection_active
                  (step initial_window (Sample 0 (stamped quiet_batch))) = true)
    by (vm_compute; reflexivity).
  split.
  - destruct (proj1 (proj2 silence_timer)
                [Elapse 1000; Sample 1 (stamped quiet_batch); Elapse 1999] _ Htm Hfl)
      as (Hbefore & _).
    + constructor; [simpl; lia|]. constructor; [exact Hquiet|].
      constructor; [simpl; lia|]. constructor.
    + destruct (Hbefore eq_refl) as (Hsig & Hlab & _). split; assumption.
  - destruct (proj1 (proj2 silence_timer)
                [Elapse 1000; Sample 1 (stamped quiet_batch); Elapse 2000] _ Htm Hfl)
      as (_ & Hshown & Hat).
    + constructor; [simpl; lia|]. constructor; [exact Hquiet|].
      constructor; [simpl; lia|]. constructor.
    + split; [apply Hat; split; [discriminate|reflexivity]|].
      apply Hshown. discriminate.
Defined.

(** * Further properties of the processing core *)

(** ** Invariants of the event loop *)

(** What a call of [sample_data] does to the lock state and the timer. *)
Lemma sample_data_lock_step now batch s s' :
  sample_data now batch s = Returned s' ->
  s' = s
  \/ (detects (map snd batch) = true
      /\ consecutive_cycles s' = S (consecutive_cycles s)
      /\ is_locked s'
         = (if (LOCK_THRESHOLD <=? S (consecutive_cycles s))%nat then true else is_locked s)
      /\ no_pattern_timer s' = None
      /\ pattern_detection_active s' = false
      /\ pattern_lost_signals s' = pattern_lost_signals s)
  \/ (detects (map snd batch) = false
      /\ consecutive_cycles s' = 0%nat
      /\ is_locked s' = false
      /\ no_pattern_timer s'
         = (if pattern_detection_active s then no_pattern_timer s else Some 3000%Z)
      /\ pattern_detection_active s' = true
      /\ pattern_lost_signals s' = pattern_lost_signals s).
Proof.
  intros Hs.
  destruct (sample_data_cases now batch s)
    as [(_ & Hret)|(_ & _ & r & _ & Hd & _ & Hsix & _ & Hret)];
    rewrite Hret in Hs; injection Hs as <-; [left; reflexivity|right].
  rewrite Hd. destruct (detected r).
  - left. split; [reflexivity|].
    destruct (on_detected_frame now (map snd batch) r
                (record_batch now (map snd batch) s) Hsix)
      as (Hcc & Hlk & Htm & Hfl & Hsig & _).
    repeat split; assumption.
  - right. split; [reflexivity|].
    destruct (on_not_detected_frame (map snd batch) (record_batch now (map snd batch) s))
      as (Hcc & Hlk & Htm & Hfl & Hsig & _).
    repeat split; assumption.
Qed.

Lemma step_sample_returns s now batch :
  sample_data now batch s = Returned (step s (Sample now batch)).
Proof.
  destruct (sample_data_returns now batch s) as (s' & Hs).
  unfold step. rewrite Hs. reflexivity.
Qed.

Lemma lock_consistent_step s ev : lock_consistent s -> lock_consistent (step s ev).
Proof.
  unfold lock_consistent, LOCK_THRESHOLD. intros Hinv. destruct ev as [now batch|dt].
  - destruct (sample_data_lock_step now batch s _ (step_sample_returns s now batch))
      as [->|[(_ & Hcc & Hlk & _)|(_ & Hcc & Hlk & _)]]; [exact Hinv| |].
    + rewrite Hcc, Hlk. unfold LOCK_THRESHOLD.
      destruct (Nat.leb_spec 2 (S (consecutive_cycles s))) as [Hle|Hlt]; [tauto|].
      split; [|lia]. intros Htrue. apply Hinv in Htrue. lia.
    + rewrite Hcc, Hlk. split; [discriminate|lia].
  - unfold step, elapse. destruct (no_pattern_timer s); [|exact Hinv].
    destruct (_ <=? _)%Z; exact Hinv.
Qed.

(** X1: along every sequence of batches and timer events, the lock flag is
    set exactly when at least two detections in a row have been counted. *)
Theorem lock_consistent_run evs s : lock_consistent s -> lock_consistent (run evs s).
Proof.
  revert s. induction evs as [|ev evs IH]; intros s Hinv; [exact Hinv|].
  change (run (ev :: evs) s) with (run evs (step s ev)).
  apply IH, lock_consistent_step, Hinv.
Qed.

Lemma lock_consistent_run_initial :
  lock_consistent
    (run [Sample 0 (stamped (six_pulses 0 0.3)); Elapse 20; Sample 1 (stamped quiet_batch)]
       initial_window).
Proof.
  apply lock_consistent_run. unfold lock_consistent, LOCK_THRESHOLD. simpl.
  split; [discriminate|lia].
Defined.

Lemma timer_consistent_step s ev : timer_consistent s -> timer_consistent (step s ev).
Proof.
  unfold timer_consistent. intros Hinv. destruct ev as [now batch|dt].
  - destruct (sample_data_lock_step now batch s _ (step_sample_returns s now batch))
      as [->|[(_ & _ & _ & Htm & Hfl & _)|(_ & _ & _ & Htm & Hfl & _)]]; [exact Hinv| |].
    + rewrite Htm, Hfl. split; [discriminate|congruence].
    + rewrite Htm, Hfl. split; [|reflexivity]. intros _.
      destruct (pattern_detection_active s); [|discriminate]. apply Hinv. reflexivity.
  - unfold step, elapse. destruct (no_pattern_timer s) as [remaining|] eqn:Htm;
      [|rewrite Htm; exact Hinv].
    destruct (_ <=? _)%Z; simpl.
    + split; [discriminate|congruence].
    + split; [discriminate|]. intros _. apply Hinv. discriminate.
Qed.

(** X2: along every sequence of batches and timer events, the flag
    [pattern_detection_active] is set exactly when the silence timer is
    running. *)
Theorem timer_consistent_run evs s : timer_consistent s -> timer_consistent (run evs s).
Proof.
  revert s. induction evs as [|ev evs IH]; intros s Hinv; [exact Hinv|].
  change (run (ev :: evs) s) with (run evs (step s ev)).
  apply IH, timer_consistent_step, Hinv.
Qed.

Lemma timer_consistent_run_initial :
  timer_consistent
    (run [Sample 0 (stamped quiet_batch); Elapse 3000; Sample 1 (stamped quiet_batch)]
       initial_window).
Proof.
  apply timer_consistent_run. unfold timer_consistent. simpl.
  split; [discriminate|congruence].
Defined.

(** ** The gain along the event loop *)

Lemma ladder_gain_of_step i g :
  driver_gain_values !! nth i gain_steps 0%nat = Some g -> In g gain_values.
Proof.
  unfold gain_steps, driver_gain_values, gain_values, GAIN_1, GAIN_2, GAIN_4, GAIN_8.
  do 4 (destruct i as [|i]; [cbn; intros [= <-]; tauto|]).
  cbn. destruct i; cbn; intros [= <-]; tauto.
Qed.

(** A call of the gain controller keeps the converter, or writes a gain of
    the ladder to channel 0 of an ADS131M02 whose SPI transfers complete. *)
Lemma auto_adjust_gain_adc channel voltage_batch lo hi s :
  let s' := auto_adjust_gain channel voltage_batch lo hi s in
  (adc s' = adc s /\ continuous_sample_buffer s' = continuous_sample_buffer s)
  \/ (exists drv g,
        adc s = Some (ADS131M02_adc drv) /\ spi_ok drv = true /\ In g gain_values
        /\ adc s' = Some (ADS131M02_adc {| channel_gains := (g, snd (channel_gains drv));
                                            spi_ok := spi_ok drv |})
        /\ continuous_sample_buffer s' = empty_buffers).
Proof.
  cbv zeta. unfold auto_adjust_gain. cbv zeta.
  change (adc (set_auto_gain_calls (S (auto_gain_calls s)) s)) with (adc s).
  destruct (adc s) as [[drv|]|] eqn:Hadc; try (left; split; [exact Hadc|reflexivity]).
  assert (Hset : forall i,
             let s0 := try_set_gain 0 (nth i gain_steps 0%nat) drv
                         (set_auto_gain_calls (S (auto_gain_calls s)) s) in
             (adc s0 = Some (ADS131M02_adc drv)
              /\ continuous_sample_buffer s0 = continuous_sample_buffer s)
             \/ (exists drv0 g,
                   Some (ADS131M02_adc drv) = Some (ADS131M02_adc drv0)
                   /\ spi_ok drv0 = true /\ In g gain_values
                   /\ adc s0 = Some (ADS131M02_adc {| channel_gains := (g, snd (channel_gains drv0));
                                                       spi_ok := spi_ok drv0 |})
                   /\ continuous_sample_buffer s0 = empty_buffers)).
  { intros i. cbv zeta. unfold try_set_gain, set_gain.
    change (negb ((0 =? 0)%nat || (0 =? 1)%nat)) with false. cbv iota.
    destruct (spi_ok drv) eqn:Hok; cbn [negb]; cbv iota;
      [|left; split; [exact Hadc|reflexivity]].
    destruct (driver_gain_values !! nth i gain_steps 0%nat) as [g|] eqn:Hg;
      [|left; split; [exact Hadc|reflexivity]].
    right. exists drv, g. rewrite Hok.
    split; [reflexivity|]. split; [reflexivity|].
    split; [exact (ladder_gain_of_step i g Hg)|]. split; reflexivity. }
  destruct (negb (channel =? 0)%nat) eqn:Hch; [left; split; [exact Hadc|reflexivity]|].
  apply negb_false_iff, Nat.eqb_eq in Hch. subst channel.
  destruct voltage_batch as [|v rest]; [left; split; [exact Hadc|reflexivity]|].
  destruct (any_above hi (v :: rest)).
  - destruct (0 <? _)%nat; [apply Hset|left; split; [exact Hadc|reflexivity]].
  - destruct (_ && _); [|left; split; [exact Hadc|reflexivity]].
    destruct (_ <? _)%nat; [apply Hset|left; split; [exact Hadc|reflexivity]].
Qed.

Lemma gain_moved_refl s : gain_moved s s.
Proof. left. split; reflexivity. Qed.

Lemma gain_moved_same s s0 s' :
  adc s0 = adc s -> continuous_sample_buffer s0 = continuous_sample_buffer s ->
  gain_moved s0 s' -> gain_moved s s'.
Proof. unfold gain_moved. intros -> ->. tauto. Qed.

Lemma gain_moved_after s s' s1 :
  adc s1 = adc s' -> continuous_sample_buffer s1 = continuous_sample_buffer s' ->
  gain_moved s s' -> gain_moved s s1.
Proof. unfold gain_moved. intros -> ->. tauto. Qed.

Lemma gain_moved_trans s1 s2 s3 : gain_moved s1 s2 -> gain_moved s2 s3 -> gain_moved s1 s3.
Proof.
  intros [(Ha & Hc)|(drv & g & Hadc & Hok & Hg & Ha & Hc)] H23.
  - apply (gain_moved_same s1 s2); assumption.
  - destruct H23 as [(Ha' & Hc')|(drv' & g' & Hadc' & Hok' & Hg' & Ha' & Hc')].
    + right. exists drv, g. rewrite Ha', Hc'. repeat split; assumption.
    + right. exists drv, g'. rewrite Ha in Hadc'. injection Hadc' as <-.
      repeat split; assumption.
Qed.

Lemma process_cycle_gain voltages c s : gain_moved s (process_cycle voltages c s).
Proof.
  unfold process_cycle. destruct (_ && _); [|apply gain_moved_refl].
  match goal with |- context [assign_pulses 0 ?p s] =>
    destruct (assign_pulses_frame p 0 s) as (_ & Ha & Hc & _);
    set (s1 := assign_pulses 0 p s) in *; clearbody s1
  end.
  cbv zeta in Ha, Hc.
  destruct (existsb _ _).
  - apply (gain_moved_same s (set_wavelength_cycle_count (S (wavelength_cycle_count s1)) s1));
      [exact Ha|exact Hc|].
    apply auto_adjust_gain_adc.
  - left. split; [exact Ha|exact Hc].
Qed.

Lemma process_cycles_gain voltages cycles s :
  gain_moved s (fold_left (fun s c => process_cycle voltages c s) cycles s).
Proof.
  revert s. induction cycles as [|c cycles IH]; intros s; [apply gain_moved_refl|].
  simpl. eapply gain_moved_trans; [apply process_cycle_gain|apply IH].
Qed.

Lemma on_detected_gain now voltages r s : gain_moved s (on_detected now voltages r s).
Proof.
  unfold on_detected, process_cycles.
  match goal with |- context [fold_left ?f ?l ?s0] =>
    pose proof (process_cycles_gain voltages l s0) as Hg;
    set (s1 := fold_left f l s0) in *; clearbody s1
  end.
  apply (gain_moved_same s) in Hg; [|reflexivity..].
  eapply gain_moved_after; [| |exact Hg].
  - destruct (_ <=? _)%nat; reflexivity.
  - destruct (_ <=? _)%nat; reflexivity.
Qed.

Lemma on_not_detected_gain voltages s : gain_moved s (on_not_detected voltages s).
Proof.
  unfold on_not_detected. cbv zeta.
  match goal with |- context [auto_adjust_gain ?ch ?vb ?lo ?hi ?s0] =>
    apply (gain_moved_same s s0);
      [| |exact (auto_adjust_gain_adc ch vb lo hi s0)]
  end.
  - cbn. destruct (pattern_detection_active s); reflexivity.
  - cbn. destruct (pattern_detection_active s); reflexivity.
Qed.

(** After the batch mean went to its wavelength, only the gain controller
    touches the converter and the continuous histories. *)
Lemma sample_data_gain now batch s s' :
  sample_data now batch s = Returned s' ->
  ((adc s = None \/ map snd batch = []) /\ s' = s)
  \/ (adc s <> None /\ map snd batch <> []
      /\ gain_moved (record_batch now (map snd batch) s) s').
Proof.
  intros Hs.
  destruct (sample_data_cases now batch s)
    as [(Hskip & Hret)|(Hadc & Hne & r & _ & _ & _ & _ & _ & Hret)];
    rewrite Hret in Hs; injection Hs as <-; [left; split; [exact Hskip|reflexivity]|right].
  split; [exact Hadc|]. split; [exact Hne|].
  destruct (detected r); [apply on_detected_gain|apply on_not_detected_gain].
Qed.

Lemma step_gain s ev :
  adc (step s ev) = adc s
  \/ exists drv g,
       adc s = Some (ADS131M02_adc drv) /\ spi_ok drv = true /\ In g gain_values
       /\ adc (step s ev) = Some (ADS131M02_adc {| channel_gains := (g, snd (channel_gains drv));
                                                    spi_ok := spi_ok drv |}).
Proof.
  destruct ev as [now batch|dt].
  - destruct (sample_data_gain now batch s _ (step_sample_returns s now batch))
      as [(_ & ->)|(_ & _ & [(Ha & _)|(drv & g & Hadc & Hok & Hg & Ha & _)])].
    + left. reflexivity.
    + left. exact Ha.
    + right. exists drv, g. repeat split; assumption.
  - left. unfold step, elapse. destruct (no_pattern_timer s); [|reflexivity].
    destruct (_ <=? _)%Z; reflexivity.
Qed.

(** X3: along every sequence of batches and timer events the gain that
    normalises the pulses stays a gain of the ladder {1, 2, 4, 8}, whether the
    gain writes succeed or fail. *)
Theorem gain_on_ladder_run evs s : gain_on_ladder s -> gain_on_ladder (run evs s).
Proof.
  revert s. induction evs as [|ev evs IH]; intros s Hinv; [exact Hinv|].
  change (run (ev :: evs) s) with (run evs (step s ev)). apply IH.
  unfold gain_on_ladder, normalising_gain in *.
  destruct (step_gain s ev) as [->|(drv & g & _ & _ & Hg & ->)]; [exact Hinv|exact Hg].
Qed.

Lemma gain_on_ladder_run_initial :
  gain_on_ladder
    (run [Sample 0 (stamped quiet_batch); Sample 1 (stamped (six_pulses 0.12 1.5))]
       initial_window).
Proof. apply gain_on_ladder_run. left. reflexivity. Defined.

(** X4: while the gain writes fail (the SPI transfer raises), no sequence of
    batches and timer events changes the converter's stored gains. *)
Theorem failed_gain_writes_keep_gain evs s drv :
  adc s = Some (ADS131M02_adc drv) -> spi_ok drv = false ->
  adc (run evs s) = Some (ADS131M02_adc drv).
Proof.
  revert s. induction evs as [|ev evs IH]; intros s Hadc Hok; [exact Hadc|].
  change (run (ev :: evs) s) with (run evs (step s ev)). apply IH; [|exact Hok].
  destruct (step_gain s ev) as [->|(drv' & g & Hadc' & Hok' & _)]; [exact Hadc|].
  rewrite Hadc in Hadc'. injection Hadc' as <-. congruence.
Qed.

Lemma failed_gain_writes_keep_gain_4 :
  adc (run [Sample 0 (stamped (six_pulses 0.12 1.5)); Sample 1 (stamped quiet_batch)]
         (window_with_gain 4 false))
  = Some (ADS131M02_adc {| channel_gains := (4%Z, 1%Z); spi_ok := false |}).
Proof. apply failed_gain_writes_keep_gain; reflexivity. Defined.

(** X5: a batch that is processed appends its mean voltage to the
    continuous history of one wavelength, the one the round-robin counter
    points at, and leaves the other continuous histories as they were; the
    only other outcome is that the gain controller then reset all of them. *)
Theorem continuous_history_round_robin now batch s s' :
  adc s <> None -> map snd batch <> [] ->
  sample_data now batch s = Returned s' ->
  let target := nth (continuous_wavelength_cycle s mod 6) PARAMETERS ""%string in
  (forall w, continuous_sample_buffer s' !!! w
             = if decide (target = w)
               then continuous_sample_buffer s !!! w ++ [Np.mean (map snd batch)]
               else continuous_sample_buffer s !!! w)
  \/ (forall w, continuous_sample_buffer s' !!! w = []).
Proof.
  intros Hadc Hne Hs. cbv zeta.
  destruct (sample_data_gain now batch s s' Hs)
    as [([Hnone|Hempty] & _)|(_ & _ & [(_ & Hc)|(drv & g & _ & _ & _ & _ & Hc)])];
    try contradiction.
  - left. intros w. rewrite Hc. simpl.
    change (S (continuous_wavelength_cycle s) - 1)%nat
      with (continuous_wavelength_cycle s - 0)%nat.
    rewrite Nat.sub_0_r. apply buffer_append_lookup.
  - right. intros w. rewrite Hc. apply empty_buffers_lookup.
Qed.

Lemma continuous_history_round_robin_first_batch :
  exists s',
    sample_data 0 (stamped (six_pulses 0 0.3)) initial_window = Returned s'
    /\ continuous_sample_buffer s' !!! "700nm"%string = [0.026999999999999996].
Proof.
  destruct (sample_data 0 (stamped (six_pulses 0 0.3)) initial_window) as [s'|e] eqn:E;
    [|vm_compute in E; discriminate E].
  assert (Hadc : adc initial_window <> None) by (intros H; discriminate H).
  assert (Hne : map snd (stamped (six_pulses 0 0.3)) <> []).
  { intros H. vm_compute in H. discriminate H. }
  destruct (continuous_history_round_robin 0 _ initial_window s' Hadc Hne E) as [H|H].
  - exists s'. split; [reflexivity|]. rewrite (H "700nm"%string).
    vm_compute. reflexivity.
  - exfalso. vm_compute in E. injection E as <-.
    specialize (H "700nm"%string). vm_compute in H. discriminate H.
Defined.

(** ** The binding of pulses to wavelengths *)







(** ** The pulse clusterer *)

Lemma strongly_sorted_snoc {A} (R : A -> A -> Prop) l x :
  StronglySorted R l -> Forall (fun y => R y x) l -> StronglySorted R (l ++ [x]).
Proof.
  induction 1 as [|y l Hs IH Hall]; intros Hx; simpl.
  - repeat constructor.
  - apply Forall_cons in Hx as [Hyx Hx]. constructor; [apply IH, Hx|].
    apply Forall_app. split; [exact Hall|]. constructor; [exact Hyx|constructor].
Qed.

Lemma seq_snoc a k : seq a k ++ [(a + k)%nat] = seq a (S k).
Proof. rewrite seq_S. reflexivity. Qed.

(** The scan, from any point it can reach: the clusters found so far are
    runs with a gap between any two of them and before the run in progress. *)
Lemma cluster_scan_spec mask :
  forall (i : nat) (acc : list (list nat)) (cur : list nat) (in_pulse : bool),
  (if in_pulse then exists a k : nat, cur = seq a (S k) /\ (a + S k)%nat = i else cur = []) ->
  Forall index_run acc ->
  StronglySorted gap_between acc ->
  Forall (fun c => forall x, In x c -> x + 1 < (if in_pulse then List.hd 0%nat cur else i)) acc ->
  let res := cluster_scan mask i acc cur in_pulse in
  Forall index_run res
  /\ StronglySorted gap_between res
  /\ concat res = concat acc ++ cur ++ marked mask i.
Proof.
  induction mask as [|high mask IH]; intros i acc cur in_pulse Hcur Hruns Hgaps Hbound; simpl.
  - destruct in_pulse; simpl.
    + destruct Hcur as (a & k & -> & Hi). simpl.
      split; [apply Forall_app; split; [exact Hruns|]|split].
      * constructor; [exists a, k; reflexivity|constructor].
      * apply strongly_sorted_snoc; [exact Hgaps|].
        eapply Forall_impl; [exact Hbound|]. simpl. intros c Hc x y Hx Hy.
        specialize (Hc x Hx). destruct Hy as [<-|Hy]; [lia|]. apply in_seq in Hy. lia.
      * rewrite concat_app. simpl. rewrite !app_nil_r. reflexivity.
    + subst cur. rewrite app_nil_r. auto.
  - destruct high, in_pulse; simpl.
    + destruct Hcur as (a & k & -> & Hi).
      assert (Hnext : seq a (S k) ++ [i] = seq a (S (S k))).
      { replace i with (a + S k)%nat by lia. apply seq_snoc. }
      destruct (IH (S i) acc (seq a (S k) ++ [i]) true) as (H1 & H2 & H3); try assumption.
      * exists a, (S k). split; [exact Hnext|lia].
      * split; [exact H1|]. split; [exact H2|]. rewrite H3, <- !app_assoc. reflexivity.
    + subst cur.
      destruct (IH (S i) acc [i] true) as (H1 & H2 & H3); try assumption.
      * exists i, 0%nat. split; [reflexivity|lia].
      * split; [exact H1|]. split; [exact H2|]. rewrite H3. reflexivity.
    + destruct Hcur as (a & k & -> & Hi). simpl.
      destruct (IH (S i) (acc ++ [a :: seq (S a) k]) [] false) as (H1 & H2 & H3).
      * reflexivity.
      * apply Forall_app. split; [exact Hruns|]. constructor; [exists a, k; reflexivity|constructor].
      * apply strongly_sorted_snoc; [exact Hgaps|].
        eapply Forall_impl; [exact Hbound|]. simpl. intros c Hc x y Hx Hy.
        specialize (Hc x Hx). destruct Hy as [<-|Hy]; [lia|]. apply in_seq in Hy. lia.
      * apply Forall_app. split.
        -- eapply Forall_impl; [exact Hbound|]. simpl. intros c Hc x Hx.
           specialize (Hc x Hx). lia.
        -- constructor; [|constructor]. intros x [<-|Hx]; [lia|]. apply in_seq in Hx. lia.
      * split; [exact H1|]. split; [exact H2|]. rewrite H3, concat_app. simpl.
        rewrite !app_nil_r, <- app_assoc. reflexivity.
    + subst cur.
      destruct (IH (S i) acc [] false) as (H1 & H2 & H3); try assumption.
      * reflexivity.
      * eapply Forall_impl; [exact Hbound|]. simpl. intros c Hc x Hx.
        specialize (Hc x Hx). lia.
      * split; [exact H1|]. split; [exact H2|]. rewrite H3. reflexivity.
Qed.

Lemma marked_filter mask : forall i,
  marked mask i = List.filter (fun j => nth (j - i) mask false) (seq i (length mask)).
Proof.
  induction mask as [|high mask IH]; intros i; [reflexivity|].
  simpl. rewrite Nat.sub_diag. rewrite IH.
  assert (Hext : List.filter (fun j => nth (j - S i) mask false) (seq (S i) (length mask))
                 = List.filter
                     (fun j => match (j - i)%nat with 0%nat => high | S m => nth m mask false end)
                     (seq (S i) (length mask))).
  { apply filter_ext_in. intros j Hj. apply in_seq in Hj.
    replace (j - i)%nat with (S (j - S i)) by lia. reflexivity. }
  rewrite Hext. destruct high; reflexivity.
Qed.

(** X7: the clusters of a batch are the maximal runs of samples above the
    threshold: every cluster is a run of consecutive indices that is not
    empty, at least one index separates any two clusters, and the clusters
    together hold exactly the indices of the samples above the threshold, in
    order. *)
Theorem clusters_are_maximal_runs buf :
  Forall index_run (pulse_clusters buf)
  /\ StronglySorted gap_between (pulse_clusters buf)
  /\ concat (pulse_clusters buf) = high_indices buf.
Proof.
  destruct (cluster_scan_spec (pulse_mask buf) 0 [] [] false eq_refl
              ltac:(constructor) ltac:(constructor) ltac:(constructor))
    as (H1 & H2 & H3).
  split; [exact H1|]. split; [exact H2|].
  unfold pulse_clusters. rewrite H3. simpl. rewrite marked_filter.
  unfold high_indices, pulse_mask. rewrite length_map.
  apply filter_ext_in. intros j Hj. rewrite Nat.sub_0_r.
  change false with ((fun v => VOLTAGE_THRESHOLD <? v) 0%float).
  apply (map_nth (fun v => VOLTAGE_THRESHOLD <? v)).
Qed.

(** ** The list of valid cycles *)

Lemma ltb_leb (x y : float) : (x <? y) = true -> (x <=? y) = true.
Proof.
  rewrite ltb_compare, leb_compare. intros H. exists Lt. split; [exact H|discriminate].
Qed.

Lemma max2_0_nonneg (x : float) : (0 <=? Py.max2 0 x) = true.
Proof.
  unfold Py.max2. destruct (0 <? x) eqn:E; [apply ltb_leb, E|reflexivity].
Qed.

Lemma strongly_sorted_rev {A} (R : A -> A -> Prop) l :
  StronglySorted R l -> StronglySorted (fun a b => R b a) (rev l).
Proof.
  induction 1 as [|x l _ IH Hall]; simpl; [constructor|].
  apply strongly_sorted_snoc; [exact IH|].
  apply Forall_forall. intros y Hy. rewrite Forall_forall in Hall. apply Hall.
  apply list_elem_of_In, in_rev, list_elem_of_In, Hy.
Qed.

(** X8: the list of all valid cycles in a result holds every scanned cycle
    once and is in order of quality, best first: no cycle in it has a greater
    quality than one that stands before it. *)
Theorem valid_cycles_best_first buf :
  valid_cycles buf ≡ₚ scanned_cycles buf
  /\ StronglySorted (fun a b => (c_quality b <=? c_quality a) = true) (valid_cycles buf).
Proof.
  split; [apply sort_by_reverse_perm|].
  unfold valid_cycles, Py.sort_by_reverse.
  apply (strongly_sorted_rev (fun a b => (c_quality a <=? c_quality b) = true)).
  apply sorted_not_nan_ascending; [|apply sort_by_sorted].
  rewrite (sort_by_perm c_quality (rev (scanned_cycles buf))), <- Permutation_rev.
  apply scanned_cycles_not_nan.
Qed.

(** X9: the quality and the score of every result are a number that is not
    negative, and a detected result reports six pulses, the count of the
    samples above the threshold, and all valid cycles with their count; the
    cycles handed on for wavelength assignment are the first three of them. *)
Theorem detection_result_fields voltages r :
  detect_cycle_in_batch voltages = Returned r ->
  not_nan (quality r) /\ (0 <=? quality r) = true /\ score r = quality r
  /\ (detected r = true ->
      pulse_count r = 6%nat
      /\ high_samples r = length (high_indices voltages)
      /\ all_valid_cycles r = Some (valid_cycles voltages)
      /\ total_valid_cycles r = Some (length (valid_cycles voltages))
      /\ cycles_to_process r = take 3 (valid_cycles voltages)).
Proof.
  unfold detect_cycle_in_batch. intros Hr.
  destruct (initial_result voltages) as [r0|] eqn:Hinit; [|discriminate].
  assert (H0 : quality r0 = 0%float /\ score r0 = 0%float /\ detected r0 = false).
  { unfold initial_result in Hinit. destruct (Np.min voltages); [|discriminate].
    destruct (Np.max voltages); [|discriminate]. simpl in Hinit. injection Hinit as <-.
    repeat split. }
  destruct H0 as (Hq0 & Hs0 & Hd0).
  assert (Hinitial : not_nan (quality r0) /\ (0 <=? quality r0) = true /\ score r0 = quality r0
                     /\ (detected r0 = true ->
                         pulse_count r0 = 6%nat
                         /\ high_samples r0 = length (high_indices voltages)
                         /\ all_valid_cycles r0 = Some (valid_cycles voltages)
                         /\ total_valid_cycles r0 = Some (length (valid_cycles voltages))
                         /\ cycles_to_process r0 = take 3 (valid_cycles voltages))).
  { rewrite Hq0, Hs0, Hd0. repeat split; discriminate. }
  simpl in Hr. destruct (_ <? _)%Z; [injection Hr as <-; exact Hinitial|].
  destruct (valid_cycles voltages) as [|best rest] eqn:Hvalid;
    [injection Hr as <-; exact Hinitial|].
  injection Hr as <-. cbn [quality score detected pulse_count high_samples all_valid_cycles
                           total_valid_cycles].
  assert (Hin : In best (scanned_cycles voltages)).
  { apply valid_cycles_in. rewrite Hvalid. left. reflexivity. }
  apply scanned_cycles_in, scan_cycle_some in Hin as (_ & _ & Hq & _).
  rewrite Hq. split; [apply max2_0_not_nan|]. split; [apply max2_0_nonneg|].
  split; [reflexivity|]. intros _. split; [reflexivity|]. split.
  - unfold count_high, high_indices.
    assert (Hcount : forall (l : list float) (i : nat),
               length (List.filter (fun v => VOLTAGE_THRESHOLD <? v) l)
               = length (List.filter (fun j => VOLTAGE_THRESHOLD <? nth (j - i) l 0)
                           (seq i (length l)))).
    { induction l as [|v l IH]; intros i; [reflexivity|]. simpl. rewrite Nat.sub_diag.
      assert (Hext : List.filter (fun j => VOLTAGE_THRESHOLD <? nth (j - S i) l 0)
                       (seq (S i) (length l))
                     = List.filter
                         (fun j => VOLTAGE_THRESHOLD
                                   <? match (j - i)%nat with 0%nat => v | S m => nth m l 0 end)
                         (seq (S i) (length l))).
      { apply filter_ext_in. intros j Hj. apply in_seq in Hj.
        replace (j - i)%nat with (S (j - S i)) by lia. reflexivity. }
      rewrite <- Hext. destruct (VOLTAGE_THRESHOLD <? v); simpl; rewrite (IH (S i)); reflexivity. }
    rewrite (Hcount voltages 0%nat). f_equal. apply filter_ext_in. intros j _.
    rewrite Nat.sub_0_r. reflexivity.
  - split; [reflexivity|]. split; [reflexivity|].
    assert (Htake : forall n (l : list ValidCycle), take (Nat.min n (length l)) l = take n l).
    { intros n l. destruct (Nat.min_spec n (length l)) as [(Hlt & ->)|(Hle & ->)];
        [reflexivity|]. rewrite !take_ge; [reflexivity|lia|lia]. }
    exact (Htake 3%nat (best :: rest)).
Qed.

Lemma detection_result_fields_six_pulses :
  exists r, detect_cycle_in_batch (six_pulses 0 0.3) = Returned r
    /\ (0 <=? quality r) = true /\ pulse_count r = 6%nat /\ high_samples r = 18%nat.
Proof.
  destruct (detect_cycle_in_batch (six_pulses 0 0.3)) as [r|e] eqn:E;
    [|vm_compute in E; discriminate E].
  assert (Hd : detected r = true).
  { vm_compute in E. injection E as <-. reflexivity. }
  destruct (detection_result_fields _ r E) as (_ & Hq & _ & Hdet).
  destruct (Hdet Hd) as (Hp & Hh & _).
  exists r. split; [reflexivity|]. split; [exact Hq|]. split; [exact Hp|].
  rewrite Hh. vm_compute. reflexivity.
Defined.

(** ** The reporting step and the two histories *)

Lemma clear_fold_clears (params : list string) (d : gmap string (list float)) w :
  In w params \/ d !!! w = [] ->
  fold_left
    (fun d param => match d !!! param with [] => d | _ :: _ => <[param := []]> d end)
    params d !!! w = [].
Proof.
  revert d. induction params as [|p params IH]; intros d [Hin|Hd]; simpl.
  - contradiction.
  - exact Hd.
  - apply IH. destruct Hin as [->|Hin]; [right|left; exact Hin].
    destruct (d !!! w) eqn:Hw; [exact Hw|]. apply lookup_total_insert_eq.
  - apply IH. right. destruct (d !!! p) eqn:Hp; [exact Hd|].
    destruct (decide (p = w)) as [->|Hne]; [apply lookup_total_insert_eq|].
    rewrite lookup_total_insert_ne by exact Hne. exact Hd.
Qed.

(** X10: the reporting step drops the pattern-based histories exactly when
    the last detection is more than 5 s old: then the history of each of the
    six wavelengths is empty afterwards; with a last detection at most 5 s
    old, or with no detection so far, the histories stay as they are. *)
Theorem stale_pattern_history_cleared current_time s :
  let age := current_time - List.last (cycle_timestamps (stats s)) 0 in
  (cycle_timestamps (stats s) <> [] -> (5.0 <? age) = true ->
   forall w, In w PARAMETERS ->
     sample_buffer (update_graph_from_buffer current_time s) !!! w = [])
  /\ (cycle_timestamps (stats s) = [] \/ (5.0 <? age) = false ->
      sample_buffer (update_graph_from_buffer current_time s) = sample_buffer s).
Proof.
  cbv zeta. unfold update_graph_from_buffer. rewrite !trim_continuous_fold_frame.
  unfold clear_stale, recent_pattern_detection. split.
  - intros Hne Hold w Hw. destruct (cycle_timestamps (stats s)) as [|t ts] eqn:Hts;
      [congruence|].
    rewrite Hold, andb_true_r.
    destruct (current_time - List.last (t :: ts) 0 <? 2.0) eqn:Hrecent.
    + exfalso. pose proof (ltb_trans _ _ _ Hold Hrecent) as H. vm_compute in H. discriminate H.
    + cbn [negb sample_buffer set_sample_buffer]. apply clear_fold_clears. left. exact Hw.
  - intros [Hnone|Hyoung].
    + rewrite Hnone. reflexivity.
    + destruct (cycle_timestamps (stats s)) as [|t ts]; [reflexivity|].
      rewrite Hyoung, andb_false_r. reflexivity.
Qed.

Lemma stale_pattern_history_cleared_after_6s :
  let s := step initial_window (Sample 0 (stamped (six_pulses 0 0.3))) in
  sample_buffer s !!! "700nm"%string <> []
  /\ sample_buffer (update_graph_from_buffer 6 s) !!! "700nm"%string = [].
Proof.
  cbv zeta. split; [vm_compute; intros H; discriminate H|].
  apply (proj1 (stale_pattern_history_cleared 6
                  (step initial_window (Sample 0 (stamped (six_pulses 0 0.3)))))).
  - vm_compute. intros H. discriminate H.
  - vm_compute. reflexivity.
  - left. reflexivity.
Defined.

Lemma last_n_length {A} n (l : list A) : length (last_n n l) = Nat.min n (length l).
Proof. unfold last_n. rewrite length_drop. lia. Qed.

Lemma last_n_suffix {A} n (l : list A) : exists dropped, l = dropped ++ last_n n l.
Proof. exists (take (length l - n) l). unfold last_n. symmetry. apply take_drop. Qed.

Lemma trimmed_idem continuous : trimmed (trimmed continuous) = trimmed continuous.
Proof.
  unfold trimmed. destruct (Nat.ltb_spec 100 (length continuous)) as [Hlong|Hshort].
  - rewrite last_n_length.
    destruct (Nat.ltb_spec 100 (Nat.min 50 (length continuous))); [lia|reflexivity].
  - destruct (Nat.ltb_spec 100 (length continuous)); [lia|reflexivity].
Qed.

(** With no recent detection every history that is not empty is reported
    from, so one round of the loop trims the history of its wavelength and
    leaves the others. *)
Lemma trim_continuous_exact s param w :
  continuous_sample_buffer (trim_continuous false s param) !!! w
  = if decide (param = w) then trimmed (continuous_sample_buffer s !!! w)
    else continuous_sample_buffer s !!! w.
Proof.
  unfold trim_continuous, trimmed.
  destruct (continuous_sample_buffer s !!! param) as [|x l] eqn:Hc.
  - simpl. destruct (decide (param = w)) as [<-|Hne]; [|reflexivity].
    rewrite Hc. reflexivity.
  - assert (Hrep : match sample_buffer s !!! param with
                   | [] => true | _ :: _ => negb false end = true)
      by (destruct (sample_buffer s !!! param); reflexivity).
    rewrite Hrep. cbn [andb].
    destruct (decide (param = w)) as [<-|Hne].
    + rewrite Hc. destruct (100 <? length (x :: l))%nat; [|apply Hc].
      cbn [continuous_sample_buffer set_continuous_sample_buffer].
      apply lookup_total_insert_eq.
    + destruct (100 <? length (x :: l))%nat; [|reflexivity].
      cbn [continuous_sample_buffer set_continuous_sample_buffer].
      apply lookup_total_insert_ne, Hne.
Qed.

Lemma trim_continuous_fold_exact (params : list string) : forall s w,
  continuous_sample_buffer (fold_left (trim_continuous false) params s) !!! w
  = if decide (w ∈ params) then trimmed (continuous_sample_buffer s !!! w)
    else continuous_sample_buffer s !!! w.
Proof.
  induction params as [|p params IH]; intros s w.
  - simpl. destruct (decide (w ∈ [])) as [Hin|_]; [inversion Hin|reflexivity].
  - cbn [fold_left]. rewrite IH, trim_continuous_exact.
    destruct (decide (p = w)) as [<-|Hne].
    + rewrite trimmed_idem. destruct (decide (p ∈ p :: params)) as [_|Hout].
      * destruct (decide (p ∈ params)); reflexivity.
      * exfalso. apply Hout. left.
    + destruct (decide (w ∈ params)) as [Hin|Hout];
        destruct (decide (w ∈ p :: params)) as [Hin'|Hout']; try reflexivity.
      * exfalso. apply Hout'. right. exact Hin.
      * exfalso. apply elem_of_cons in Hin' as [Heq|Hin']; [congruence|exact (Hout Hin')].
Qed.

(** X11: when no pattern was detected in the last 2 s, the reporting step
    keeps each of the six continuous histories whole when it holds at most
    100 entries and cuts it to its newest 50 entries when it holds more; a
    history of another key is left as it is.  So none of the six is left with
    more than 100 entries, and what is left is the end of what was there. *)
Theorem continuous_history_trimmed current_time s w :
  recent_pattern_detection current_time s = false ->
  let s' := update_graph_from_buffer current_time s in
  let continuous := continuous_sample_buffer s !!! w in
  (In w PARAMETERS ->
   continuous_sample_buffer s' !!! w
   = if (100 <? length continuous)%nat then last_n 50 continuous else continuous)
  /\ (~ In w PARAMETERS -> continuous_sample_buffer s' !!! w = continuous)
  /\ (In w PARAMETERS -> length (continuous_sample_buffer s' !!! w) <= 100)
  /\ exists dropped, continuous = dropped ++ continuous_sample_buffer s' !!! w.
Proof.
  intros Hrecent. cbv zeta. unfold update_graph_from_buffer. rewrite Hrecent.
  rewrite trim_continuous_fold_exact.
  assert (Hc : continuous_sample_buffer (clear_stale current_time s)
               = continuous_sample_buffer s).
  { unfold clear_stale. destruct (cycle_timestamps (stats s)); [reflexivity|].
    destruct (_ && _); reflexivity. }
  rewrite Hc. unfold trimmed.
  destruct (decide (w ∈ PARAMETERS)) as [Hin|Hout].
  - split; [reflexivity|]. split; [intros Hout; exfalso; apply Hout, list_elem_of_In, Hin|].
    destruct (Nat.ltb_spec 100 (length (continuous_sample_buffer s !!! w))) as [Hlong|Hshort].
    + split; [intros _; rewrite last_n_length; lia|apply last_n_suffix].
    + split; [intros _; exact Hshort|exists []; reflexivity].
  - assert (Hout' : ~ In w PARAMETERS) by (intros Hin; apply Hout, list_elem_of_In, Hin).
    split; [contradiction|]. split; [reflexivity|]. split; [contradiction|].
    exists []. reflexivity.
Qed.

Lemma continuous_history_trimmed_to_50 :
  continuous_sample_buffer (update_graph_from_buffer 9 long_history_window) !!! "800nm"%string
  = map Py.float_of_nat (seq 51 50).
Proof.
  rewrite (proj1 (continuous_history_trimmed 9 long_history_window "800nm"%string eq_refl)).
  - vm_compute. reflexivity.
  - right. left. reflexivity.
Defined.

(** ** The dynamic averaging window *)

(** X12: the averaging window is 10 when no detection lies within the last
    second, and otherwise six times the number of such detections, capped at
    30; it is never below 6, so the lower clamp of 3 never takes effect. *)
Theorem dynamic_window_values current_time s :
  get_dynamic_averaging_window current_time s
  = (if (cycles_in_last_second current_time s =? 0)%nat then 10%nat
     else Nat.min 30 (6 * cycles_in_last_second current_time s))
  /\ 6 <= get_dynamic_averaging_window current_time s <= 30.
Proof.
  unfold get_dynamic_averaging_window, cycles_in_last_second.
  destruct (cycle_timestamps (stats s)) as [|t ts]; [simpl; lia|].
  cbn [length Nat.ltb Nat.leb].
  set (n := length (List.filter _ (t :: ts))).
  destruct n as [|n]; [simpl; lia|].
  change (0 <? S n)%nat with true. change (S n =? 0)%nat with false. cbv iota. lia.
Qed.

(** ** The cycle statistics *)

Lemma pop_over_length {A} n (l : list A) (x : A) :
  length l <= n -> length (pop_over n (l ++ [x])) <= n.
Proof.
  intros Hl. unfold pop_over. rewrite length_app. simpl.
  destruct (Nat.ltb_spec n (length l + 1)).
  - destruct l; simpl in *; [lia|]. rewrite length_app. simpl. lia.
  - rewrite length_app. simpl. lia.
Qed.

(** A detection keeps every list of cycle statistics within its cap. *)
Lemma pop_over_count {A} cap n (l : list A) (x : A) :
  length l = Nat.min cap n -> length (pop_over cap (l ++ [x])) = Nat.min cap (S n).
Proof.
  intros Hl. unfold pop_over. rewrite length_app. simpl.
  destruct (Nat.ltb_spec cap (length l + 1)) as [Hlt|Hge].
  - destruct l as [|y l]; simpl in *; [lia|]. rewrite length_app. simpl. lia.
  - rewrite length_app. simpl. lia.
Qed.

Lemma update_statistics_in_step now voltages r st :
  stats_in_step st -> stats_in_step (update_statistics now voltages r st).
Proof.
  unfold stats_in_step. cbv zeta.
  intros (Hc & Ht & Hi & Hs & Hq & Hp & Hv & Hr & Hh).
  unfold update_statistics.
  cbn [cycle_detected_count total_cycles_detected cycle_timestamps cycle_intervals
       cycle_scores cycle_qualities cycle_pulse_counts cycle_voltage_stats
       cycle_rate_history pattern_quality_history].
  rewrite length_app. simpl length.
  set (n := length (cycle_timestamps st)) in *. clearbody n.
  replace (n + 1)%nat with (S n) by lia. replace (S n - 1)%nat with n by lia.
  set (intervals := if (1 <? S n)%nat then _ else _).
  set (qualities := pop_over 100 (cycle_qualities st ++ _)).
  assert (Hi' : length intervals = Nat.min 100 n).
  { unfold intervals. destruct n as [|n].
    - simpl. rewrite Hi. reflexivity.
    - change (1 <? S (S n))%nat with true. cbv iota.
      replace (S n - 1)%nat with n in Hi by lia. apply pop_over_count, Hi. }
  assert (Hq' : length qualities = Nat.min 100 (S n)) by apply pop_over_count, Hq.
  clearbody intervals qualities.
  repeat split; try (apply pop_over_count; assumption); try assumption; try congruence.
  - rewrite Hi'. destruct n as [|n].
    + simpl. rewrite Hr. reflexivity.
    + change (0 <? Nat.min 100 (S n))%nat with true. cbv iota.
      replace (S n - 1)%nat with n in Hr by lia. apply pop_over_count, Hr.
  - rewrite Hq'. change (0 <? Nat.min 100 (S n))%nat with true. cbv iota.
    apply pop_over_count, Hh.
Qed.

Lemma bookkeeping_eq s n ts st :
  bookkeeping s = (n, ts, st)
  -> adc_read_count s = n /\ sample_timestamps s = ts /\ stats s = st.
Proof. unfold bookkeeping. intros [= -> -> ->]. repeat split. Qed.

Lemma auto_adjust_gain_bookkeeping channel voltage_batch lo hi s :
  bookkeeping (auto_adjust_gain channel voltage_batch lo hi s) = bookkeeping s.
Proof.
  unfold auto_adjust_gain, try_set_gain. simpl. break_matches; reflexivity.
Qed.

Lemma assign_pulses_bookkeeping pulses : forall i s,
  bookkeeping (assign_pulses i pulses s) = bookkeeping s.
Proof.
  induction pulses as [|[[t cl] v] pulses IH]; intros i s; simpl; [reflexivity|].
  rewrite IH. destruct (wavelengths !! i); reflexivity.
Qed.

Lemma process_cycle_bookkeeping voltages c s :
  bookkeeping (process_cycle voltages c s) = bookkeeping s.
Proof.
  unfold process_cycle. destruct (_ && _); [|reflexivity].
  destruct (existsb _ _).
  - rewrite auto_adjust_gain_bookkeeping. unfold bookkeeping. simpl.
    apply (assign_pulses_bookkeeping _ 0%nat s).
  - unfold bookkeeping. simpl. apply (assign_pulses_bookkeeping _ 0%nat s).
Qed.

Lemma process_cycles_bookkeeping voltages cycles : forall s,
  bookkeeping (fold_left (fun s c => process_cycle voltages c s) cycles s) = bookkeeping s.
Proof.
  induction cycles as [|c cycles IH]; intros s; simpl; [reflexivity|].
  rewrite IH. apply process_cycle_bookkeeping.
Qed.

Lemma on_detected_bookkeeping now voltages r s :
  bookkeeping (on_detected now voltages r s)
  = (adc_read_count s, sample_timestamps s, update_statistics now voltages r (stats s)).
Proof.
  unfold on_detected, process_cycles.
  match goal with |- context [fold_left ?f ?l ?s0] =>
    pose proof (process_cycles_bookkeeping voltages l s0) as Hb;
    set (s1 := fold_left f l s0) in *; clearbody s1
  end.
  unfold bookkeeping in *. cbn in Hb. injection Hb as Hn Ht Hs.
  destruct (LOCK_THRESHOLD <=? _)%nat; cbn; rewrite Hn, Ht, Hs; reflexivity.
Qed.

Lemma on_not_detected_bookkeeping voltages s :
  bookkeeping (on_not_detected voltages s) = bookkeeping s.
Proof.
  unfold on_not_detected. rewrite auto_adjust_gain_bookkeeping.
  destruct (pattern_detection_active s) eqn:E; unfold bookkeeping; cbn; rewrite ?E; reflexivity.
Qed.

Lemma record_batch_counters now voltages s :
  counters_in_step s -> counters_in_step (record_batch now voltages s).
Proof.
  unfold counters_in_step, record_batch. cbn. intros (Hn & Hst). split; [|exact Hst].
  rewrite length_app, repeat_length, Hn. reflexivity.
Qed.

Lemma counters_in_step_step s ev : counters_in_step s -> counters_in_step (step s ev).
Proof.
  intros Hinv. destruct ev as [now batch|dt].
  - unfold step.
    destruct (sample_data_cases now batch s)
      as [(_ & Hret)|(_ & _ & r & _ & _ & _ & _ & _ & Hret)]; rewrite Hret; [exact Hinv|].
    apply (record_batch_counters now (map snd batch)) in Hinv.
    set (s1 := record_batch now (map snd batch) s) in *. clearbody s1.
    destruct Hinv as (Hn & Hst). destruct (detected r).
    + destruct (bookkeeping_eq _ _ _ _ (on_detected_bookkeeping now (map snd batch) r s1))
        as (Hn' & Ht' & Hs').
      unfold counters_in_step. rewrite Hn', Ht', Hs'.
      split; [exact Hn|]. apply update_statistics_in_step, Hst.
    + destruct (bookkeeping_eq _ _ _ _ (on_not_detected_bookkeeping (map snd batch) s1))
        as (Hn' & Ht' & Hs').
      unfold counters_in_step. rewrite Hn', Ht', Hs'. split; assumption.
  - unfold step, elapse. destruct (no_pattern_timer s); [|exact Hinv].
    destruct (_ <=? _)%Z; exact Hinv.
Qed.

(** X13: along every sequence of batches and timer events the bookkeeping
    of a scan stays in step: there is one sample timestamp per sample read
    and one detection timestamp per detection counted (neither list is ever
    trimmed), the lists of scores, qualities, pulse counts and voltage
    statistics hold the last 100 detections, the intervals the last 100 from
    the second detection on, and the rate and quality histories the last
    50. *)
Theorem counters_in_step_run evs s : counters_in_step s -> counters_in_step (run evs s).
Proof.
  revert s. induction evs as [|ev evs IH]; intros s Hinv; [exact Hinv|].
  change (run (ev :: evs) s) with (run evs (step s ev)).
  apply IH, counters_in_step_step, Hinv.
Qed.

Lemma counters_in_step_run_initial :
  counters_in_step
    (run [Sample 0 (stamped (six_pulses 0 0.3)); Elapse 20; Sample 1 (stamped quiet_batch)]
       initial_window).
Proof.
  apply counters_in_step_run. unfold counters_in_step, stats_in_step. simpl.
  repeat split; reflexivity.
Defined.

(** * The converters' drivers *)

(** ** ADS131M02: frames and the gain register *)

Section SpiFacts.

Local Open Scope Z_scope.

Context {Device : Type} (xfer2 : list Z -> Device -> list Z * Device).

Lemma pad_frame_spec fuel : forall n frame,
  (n - length frame <= fuel)%nat ->
  Spi.pad_frame fuel n frame = frame ++ repeat 0 (n - length frame)%nat.
Proof.
  induction fuel as [|fuel IH]; intros n frame Hfuel; simpl.
  - replace (n - length frame)%nat with 0%nat by lia. simpl. rewrite app_nil_r. reflexivity.
  - destruct (Nat.ltb_spec (length frame) n) as [Hlt|Hge].
    + rewrite IH by (rewrite length_app; simpl; lia).
      rewrite length_app. simpl. rewrite <- app_assoc. simpl.
      replace (n - length frame)%nat with (S (n - (length frame + 1)))%nat by lia.
      reflexivity.
    + replace (n - length frame)%nat with 0%nat by lia. simpl. rewrite app_nil_r. reflexivity.
Qed.

Lemma land_byte v : is_byte (Z.land v 0xFF).
Proof.
  unfold is_byte. change 0xFF with (Z.ones 8). rewrite Z.land_ones by lia.
  apply Z.mod_pos_bound. reflexivity.
Qed.

Lemma byte_pair_word v :
  Z.lor (Z.shiftl (Z.land (Z.shiftr v 8) 0xFF) 8) (Z.land v 0xFF) = Z.land v 0xFFFF.
Proof.
  change 0xFF with (Z.ones 8). change 0xFFFF with (Z.ones 16).
  apply Z.bits_inj'. intros n Hn.
  rewrite Z.lor_spec, !Z.land_spec, Z.shiftl_spec by lia.
  rewrite (Z.testbit_ones_nonneg 16 n), (Z.testbit_ones_nonneg 8 n) by lia.
  destruct (Z.ltb_spec n 8) as [Hlt|Hge].
  - rewrite (Z.testbit_neg_r _ (n - 8)) by lia.
    replace (n <? 16) with true by (symmetry; apply Z.ltb_lt; lia). reflexivity.
  - rewrite Z.land_spec, Z.shiftr_spec, Z.testbit_ones_nonneg by lia.
    replace (n - 8 + 8) with n by lia.
    replace (n - 8 <? 8) with (n <? 16); [rewrite andb_false_r, orb_false_r; reflexivity|].
    destruct (Z.ltb_spec n 16), (Z.ltb_spec (n - 8) 8); lia || reflexivity.
Qed.

(** X14: a command frame is the command as two bytes, high byte first, then
    the data, then zeros up to six bytes: it is never shorter than six
    bytes, the data is never cut, and a command beyond 16 bits is cut to its
    low 16 bits. *)
Theorem command_frame_layout command data :
  exists hi lo,
    Spi._create_command_frame command data
    = hi :: lo :: data ++ repeat 0 (4 - length data)%nat
    /\ is_byte hi /\ is_byte lo
    /\ Z.lor (Z.shiftl hi 8) lo = Z.land command 0xFFFF
    /\ length (Spi._create_command_frame command data) = Nat.max 6 (2 + length data).
Proof.
  exists (Z.land (Z.shiftr command 8) 0xFF), (Z.land command 0xFF).
  assert (Hframe : Spi._create_command_frame command data
                   = Z.land (Z.shiftr command 8) 0xFF :: Z.land command 0xFF
                     :: data ++ repeat 0 (4 - length data)%nat).
  { unfold Spi._create_command_frame.
    replace (match data with [] => _ | _ :: _ => _ end)
      with ([Z.land (Z.shiftr command 8) 0xFF; Z.land command 0xFF] ++ data)
      by (destruct data; reflexivity).
    rewrite pad_frame_spec by lia. rewrite length_app. simpl. reflexivity. }
  rewrite Hframe. repeat split; try apply land_byte.
  - apply byte_pair_word.
  - simpl. rewrite length_app, repeat_length. lia.
Qed.


(** Bitwise equalities between 16-bit words: bit by bit, the bits 0 to 15
    one at a time and the bits from 16 on at once. *)
Lemma testbit_beyond k c n : 0 <= c < 2 ^ k -> k <= n -> Z.testbit c n = false.
Proof.
  intros Hc Hn. destruct (Z.eq_dec c 0) as [->|Hne]; [apply Z.testbit_0_l|].
  apply Z.bits_above_log2; [lia|].
  assert (Z.log2 c < k); [|lia]. apply Z.log2_lt_pow2; lia.
Qed.

Lemma testbit_above c n : 0 <= c < 65536 -> 16 <= n -> Z.testbit c n = false.
Proof. apply (testbit_beyond 16). Qed.

Ltac bit_specs :=
  repeat first
    [ rewrite Z.lor_spec | rewrite Z.land_spec
    | rewrite Z.shiftl_spec by lia | rewrite Z.shiftr_spec by lia ].

Ltac bit_indices :=
  repeat match goal with
  | |- context [Z.testbit ?a ?k] =>
      lazymatch k with
      | Zpos _ => fail
      | Z0 => fail
      | Zneg _ => change (Z.testbit a k) with false
      | _ => let k' := eval vm_compute in k in change (Z.testbit a k) with (Z.testbit a k')
      end
  end.

Ltac bit_values :=
  repeat match goal with
  | |- context [Z.testbit ?a ?k] =>
      is_var a; let b := fresh "b" in set (b := Z.testbit a k); clearbody b
  end;
  vm_compute;
  repeat match goal with b : bool |- _ => destruct b end; reflexivity.

Ltac low_bit n :=
  subst n; bit_indices; bit_values.

Ltac bits16 :=
  apply Z.bits_inj'; let n := fresh "n" in let Hn := fresh "Hn" in
  intros n Hn; bit_specs;
  let H := fresh "H" in
  assert (H : n = 15 \/ n = 14 \/ n = 13 \/ n = 12 \/ n = 11 \/ n = 10 \/ n = 9
              \/ n = 8 \/ n = 7 \/ n = 6 \/ n = 5 \/ n = 4 \/ n = 3 \/ n = 2 \/ n = 1
              \/ n = 0 \/ 16 <= n) by lia;
  repeat (destruct H as [H|H]; [low_bit n|]).

Lemma gain_word_channel_0 gain_reg gain :
  let word := Z.lor (Z.land gain_reg 0xFFF8) (Z.land gain 0x07) in
  0 <= word < 65536
  /\ gain_field 0 word = Z.land gain 0x07
  /\ gain_field 1 word = gain_field 1 gain_reg
  /\ Z.land word 0xFF88 = Z.land gain_reg 0xFF88.
Proof.
  intros word. unfold gain_field. change (4 * 0) with 0. change (4 * 1) with 4.
  assert (Hword : Z.land word (Z.ones 16) = word).
  { unfold word. bits16.
    rewrite (testbit_above 0xFFF8 n), (testbit_above 0x07 n), (testbit_above (Z.ones 16) n)
      by (try exact H; vm_compute; split; congruence).
    rewrite !andb_false_r. reflexivity. }
  split; [rewrite <- Hword, Z.land_ones by lia; apply Z.mod_pos_bound; reflexivity|].
  unfold word. repeat split.
  - bits16.
    rewrite (testbit_above 0x07 n) by (try exact H; vm_compute; split; congruence).
    rewrite !andb_false_r. reflexivity.
  - bits16.
    rewrite (testbit_above 0x07 n) by (try exact H; vm_compute; split; congruence).
    rewrite !andb_false_r. reflexivity.
  - bits16.
    rewrite (testbit_above 0xFF88 n) by (try exact H; vm_compute; split; congruence).
    rewrite !andb_false_r. reflexivity.
Qed.


Lemma gain_word_channel_1 gain_reg gain :
  let word := Z.lor (Z.land gain_reg 0xFF8F) (Z.shiftl (Z.land gain 0x07) 4) in
  0 <= word < 65536
  /\ gain_field 1 word = Z.land gain 0x07
  /\ gain_field 0 word = gain_field 0 gain_reg
  /\ Z.land word 0xFF88 = Z.land gain_reg 0xFF88.
Proof.
  intros word. unfold gain_field. change (4 * 0) with 0. change (4 * 1) with 4.
  assert (Hword : Z.land word (Z.ones 16) = word).
  { unfold word. bits16.
    rewrite (testbit_above 0xFF8F n), (testbit_beyond 3 0x07 (n - 4)),
      (testbit_above (Z.ones 16) n)
      by (try lia; vm_compute; split; congruence).
    rewrite !andb_false_r. reflexivity. }
  split; [rewrite <- Hword, Z.land_ones by lia; apply Z.mod_pos_bound; reflexivity|].
  unfold word. repeat split.
  - bits16.
    rewrite (testbit_above 0x07 n) by (try exact H; vm_compute; split; congruence).
    rewrite !andb_false_r. reflexivity.
  - bits16.
    rewrite (testbit_above 0x07 n) by (try exact H; vm_compute; split; congruence).
    rewrite !andb_false_r. reflexivity.
  - bits16.
    rewrite (testbit_above 0xFF88 n) by (try exact H; vm_compute; split; congruence).
    rewrite !andb_false_r. reflexivity.
Qed.

Lemma read_register_sent reg_addr b :
  Spi.sent (snd (Spi.read_register xfer2 reg_addr b))
  = Spi.sent b
    ++ [Spi._create_command_frame
          (Z.lor (Z.lor Spi.CMD_RREG (Z.shiftl (Z.land reg_addr 0x1F) 7)) 0x01) [];
        Spi._create_command_frame Spi.CMD_NULL []].
Proof.
  unfold Spi.read_register, Spi._spi_transfer.
  destruct (xfer2 _ (Spi.device b)) as [r1 d1]. cbn [Spi.device Spi.sent].
  destruct (xfer2 _ d1) as [r2 d2].
  destruct (_ <=? _)%nat; cbn [snd Spi.sent]; rewrite <- app_assoc; reflexivity.
Qed.

Lemma write_register_sent reg_addr value b :
  Spi.sent (Spi.write_register xfer2 reg_addr value b)
  = Spi.sent b
    ++ [Spi._create_command_frame
          (Z.lor (Z.lor Spi.CMD_WREG (Z.shiftl (Z.land reg_addr 0x1F) 7)) 0x01)
          [Z.land (Z.shiftr value 8) 0xFF; Z.land value 0xFF]].
Proof.
  unfold Spi.write_register, Spi._spi_transfer.
  destruct (xfer2 _ (Spi.device b)) as [r1 d1]. reflexivity.
Qed.

Lemma set_gain_cases channel gain drv :
  channel = 0 \/ channel = 1 ->
  Spi.set_gain xfer2 channel gain drv
  = let r := Spi.read_register xfer2 Spi.REG_GAIN (Spi.bus drv) in
    let b := Spi.write_register xfer2 Spi.REG_GAIN (gain_word channel gain (fst r)) (snd r) in
    match Spi.py_index Spi.gain_values gain with
    | None => ({| Spi.channel_gains := Spi.channel_gains drv; Spi.bus := b |},
               Some IndexError)
    | Some g =>
        ({| Spi.channel_gains := <[Z.to_nat channel := g]> (Spi.channel_gains drv);
            Spi.bus := b |}, None)
    end.
Proof.
  intros Hch. unfold Spi.set_gain, gain_word.
  replace ((channel =? 0) || (channel =? 1)) with true by (destruct Hch as [->| ->]; reflexivity).
  cbn [negb]. destruct (Spi.read_register xfer2 Spi.REG_GAIN (Spi.bus drv)) as [gain_reg b].
  cbn [fst snd]. destruct (Spi.py_index _ _); reflexivity.
Qed.


Lemma frame_RREG_GAIN :
  Spi._create_command_frame
    (Z.lor (Z.lor Spi.CMD_RREG (Z.shiftl (Z.land Spi.REG_GAIN 0x1F) 7)) 0x01) []
  = [0xA2; 0x01; 0; 0; 0; 0].
Proof. reflexivity. Qed.

Lemma frame_NULL : Spi._create_command_frame Spi.CMD_NULL [] = [0; 0; 0; 0; 0; 0].
Proof. reflexivity. Qed.

Lemma frame_WREG_GAIN value :
  Spi._create_command_frame
    (Z.lor (Z.lor Spi.CMD_WREG (Z.shiftl (Z.land Spi.REG_GAIN 0x1F) 7)) 0x01)
    [Z.land (Z.shiftr value 8) 0xFF; Z.land value 0xFF]
  = [0x62; 0x01; Z.land (Z.shiftr value 8) 0xFF; Z.land value 0xFF; 0; 0].
Proof. reflexivity. Qed.

Lemma gain_word_fields channel gain gain_reg :
  channel = 0 \/ channel = 1 ->
  let word := gain_word channel gain gain_reg in
  0 <= word < 65536
  /\ gain_field channel word = Z.land gain 0x07
  /\ gain_field (1 - channel) word = gain_field (1 - channel) gain_reg
  /\ Z.land word 0xFF88 = Z.land gain_reg 0xFF88.
Proof.
  intros [-> | ->]; unfold gain_word; cbn [Z.eqb Z.sub Z.add Z.opp Z.pos_sub].
  - apply gain_word_channel_0.
  - apply gain_word_channel_1.
Qed.

(** X15: on channel 0 or 1 [set_gain] makes three transfers, whatever the
    gain asked for and whether or not it raises afterwards: the read command
    of the gain register, the null frame that fetches the answer, and the
    write command of the gain register with a 16-bit word, high byte first.
    In that word the three-bit field of the channel holds the low three bits
    of the gain; the field of the other channel and the bits outside the two
    fields are those of the word read. *)
Theorem set_gain_transfers channel gain drv :
  channel = 0 \/ channel = 1 ->
  exists word hi lo,
    Spi.sent (Spi.bus (fst (Spi.set_gain xfer2 channel gain drv)))
    = Spi.sent (Spi.bus drv)
      ++ [[0xA2; 0x01; 0; 0; 0; 0]; [0; 0; 0; 0; 0; 0]; [0x62; 0x01; hi; lo; 0; 0]]
    /\ is_byte hi /\ is_byte lo /\ word = Z.lor (Z.shiftl hi 8) lo
    /\ gain_field channel word = Z.land gain 0x07
    /\ gain_field (1 - channel) word
       = gain_field (1 - channel) (fst (Spi.read_register xfer2 Spi.REG_GAIN (Spi.bus drv)))
    /\ Z.land word 0xFF88
       = Z.land (fst (Spi.read_register xfer2 Spi.REG_GAIN (Spi.bus drv))) 0xFF88.
Proof.
  intros Hch. rewrite (set_gain_cases channel gain drv Hch). cbv zeta.
  set (r := Spi.read_register xfer2 Spi.REG_GAIN (Spi.bus drv)).
  destruct (gain_word_fields channel gain (fst r) Hch) as (Hword & Hfield & Hother & Hrest).
  set (word := gain_word channel gain (fst r)) in *.
  exists word, (Z.land (Z.shiftr word 8) 0xFF), (Z.land word 0xFF).
  assert (Hsent : Spi.sent (Spi.write_register xfer2 Spi.REG_GAIN word (snd r))
                  = Spi.sent (Spi.bus drv)
                    ++ [[0xA2; 0x01; 0; 0; 0; 0]; [0; 0; 0; 0; 0; 0];
                        [0x62; 0x01; Z.land (Z.shiftr word 8) 0xFF; Z.land word 0xFF; 0; 0]]).
  { rewrite write_register_sent. unfold r. rewrite read_register_sent.
    rewrite frame_RREG_GAIN, frame_NULL, frame_WREG_GAIN, <- app_assoc. reflexivity. }
  repeat split; try apply land_byte; try assumption.
  - destruct (Spi.py_index _ _); exact Hsent.
  - rewrite byte_pair_word. change 0xFFFF with (Z.ones 16).
    rewrite Z.land_ones by lia. symmetry. apply Z.mod_small. exact Hword.
Qed.


Lemma set_gain_other_channel channel gain drv :
  channel <> 0 -> channel <> 1 ->
  Spi.set_gain xfer2 channel gain drv = (drv, Some ValueError).
Proof.
  intros H0 H1. unfold Spi.set_gain.
  replace (channel =? 0) with false by (symmetry; apply Z.eqb_neq, H0).
  replace (channel =? 1) with false by (symmetry; apply Z.eqb_neq, H1).
  reflexivity.
Qed.

(** X16: the gain [set_gain] stores for the conversion to volts.  A gain
    code from 0 to 7 stores 2 to the power of the code, and a code from -8 to
    -1 counts from the end of the table, so that in both cases the stored
    gain is 2 to the power of the three bits written to the register.  Any
    other code raises IndexError after the register has been written: the
    stored gain stays and the three frames have been sent.  A channel other
    than 0 and 1 raises ValueError before anything is sent. *)
Theorem set_gain_stored_gain channel gain drv :
  (channel = 0 \/ channel = 1 -> -8 <= gain < 8 ->
     exists drv',
       Spi.set_gain xfer2 channel gain drv = (drv', None)
       /\ Spi.channel_gains drv'
          = <[Z.to_nat channel := 2 ^ Z.land gain 0x07]> (Spi.channel_gains drv))
  /\ (channel = 0 \/ channel = 1 -> gain < -8 \/ 8 <= gain ->
        exists drv',
          Spi.set_gain xfer2 channel gain drv = (drv', Some IndexError)
          /\ Spi.channel_gains drv' = Spi.channel_gains drv
          /\ length (Spi.sent (Spi.bus drv')) = (length (Spi.sent (Spi.bus drv)) + 3)%nat)
  /\ (channel <> 0 -> channel <> 1 ->
        Spi.set_gain xfer2 channel gain drv = (drv, Some ValueError)).
Proof.
  split; [|split].
  - intros Hch Hgain. rewrite (set_gain_cases channel gain drv Hch). cbv zeta.
    assert (Hg : Spi.py_index Spi.gain_values gain = Some (2 ^ Z.land gain 0x07)).
    { assert (H : gain = -8 \/ gain = -7 \/ gain = -6 \/ gain = -5 \/ gain = -4 \/ gain = -3
                  \/ gain = -2 \/ gain = -1 \/ gain = 0 \/ gain = 1 \/ gain = 2 \/ gain = 3
                  \/ gain = 4 \/ gain = 5 \/ gain = 6 \/ gain = 7) by lia.
      repeat (destruct H as [H|H]; [subst gain; reflexivity|]). subst gain. reflexivity. }
    rewrite Hg. eexists. split; reflexivity.
  - intros Hch Hgain. rewrite (set_gain_cases channel gain drv Hch). cbv zeta.
    assert (Hg : Spi.py_index Spi.gain_values gain = None).
    { unfold Spi.py_index, Spi.gain_values. cbn [length].
      destruct (Z.ltb_spec gain 0) as [Hneg|Hpos].
      - destruct (Z.leb_spec (- Z.of_nat 8) gain) as [Hle|Hgt]; [lia|reflexivity].
      - apply lookup_ge_None. cbn [length]. lia. }
    rewrite Hg. eexists. split; [reflexivity|]. split; [reflexivity|].
    cbn [Spi.bus]. rewrite write_register_sent, read_register_sent, !length_app.
    cbn [length]. lia.
  - apply set_gain_other_channel.
Qed.

Lemma lor_shiftl_add hi lo k :
  0 <= k -> 0 <= lo < 2 ^ k -> Z.lor (Z.shiftl hi k) lo = hi * 2 ^ k + lo.
Proof.
  intros Hk Hlo.
  assert (Hdisjoint : Z.land (Z.shiftl hi k) lo = 0).
  { apply Z.bits_inj'. intros n Hn. rewrite Z.land_spec, Z.testbit_0_l.
    destruct (Z.lt_ge_cases n k) as [Hlt|Hge].
    - rewrite Z.shiftl_spec_low by exact Hlt. reflexivity.
    - rewrite (testbit_beyond k lo n) by assumption. apply andb_false_r. }
  rewrite <- Z.lxor_lor, <- Z.add_nocarry_lxor by exact Hdisjoint.
  rewrite Z.shiftl_mul_pow2 by exact Hk. reflexivity.
Qed.

Lemma three_bytes a b c :
  is_byte a -> is_byte b -> is_byte c ->
  Z.lor (Z.lor (Z.shiftl a 16) (Z.shiftl b 8)) c = a * 65536 + b * 256 + c
  /\ 0 <= a * 65536 + b * 256 + c < 16777216.
Proof.
  unfold is_byte. intros Ha Hb Hc. split; [|lia].
  rewrite (Z.shiftl_mul_pow2 b 8) by lia.
  assert (H16 : Z.lor (Z.shiftl a 16) (b * 2 ^ 8) = a * 65536 + b * 256).
  { rewrite (lor_shiftl_add a (b * 2 ^ 8) 16) by lia. change (2 ^ 16) with 65536. lia. }
  rewrite H16.
  replace (a * 65536 + b * 256) with (Z.shiftl (a * 256 + b) 8)
    by (rewrite Z.shiftl_mul_pow2 by lia; change (2 ^ 8) with 256; lia).
  rewrite (lor_shiftl_add (a * 256 + b) c 8) by (change (2 ^ 8) with 256; lia).
  rewrite Z.shiftl_mul_pow2 by lia. change (2 ^ 8) with 256. lia.
Qed.

Lemma signed24_range data :
  0 <= data < 16777216 ->
  -8388608 <= Spi.signed24 data < 8388608
  /\ Spi.signed24 data mod 16777216 = data.
Proof.
  intros Hdata. unfold Spi.signed24.
  assert (Hbit : Z.land data 0x800000 = if Z.testbit data 23 then 0x800000 else 0).
  { change 0x800000 with (2 ^ 23). apply Z.bits_inj'. intros n Hn.
    rewrite Z.land_spec, Z.pow2_bits_eqb by lia.
    destruct (Z.eqb_spec 23 n) as [<-|Hne].
    - destruct (Z.testbit data 23); [rewrite Z.pow2_bits_true by lia; reflexivity|].
      rewrite Z.testbit_0_l. reflexivity.
    - rewrite andb_false_r. destruct (Z.testbit data 23); [|rewrite Z.testbit_0_l; reflexivity].
      rewrite Z.pow2_bits_false by lia. reflexivity. }
  rewrite Hbit.
  destruct (Z.lt_ge_cases data 8388608) as [Hlow|Hhigh].
  - rewrite (testbit_beyond 23 data 23) by (change (2 ^ 23) with 8388608; lia).
    cbn [Z.eqb]. split; [lia|]. apply Z.mod_small. lia.
  - assert (Htop : Z.testbit data 23 = true).
    { apply Z.testbit_true; [lia|]. change (2 ^ 23) with 8388608.
      replace (data / 8388608) with 1; [reflexivity|].
      apply Z.div_unique with (r := data - 8388608); lia. }
    rewrite Htop. cbn [Z.eqb]. split; [lia|].
    symmetry. apply Z.mod_unique with (q := -1); lia.
Qed.

Lemma pad_frame_NULL_12 :
  Spi.pad_frame 12 12 (Spi._create_command_frame Spi.CMD_NULL []) = repeat 0%Z 12.
Proof. reflexivity. Qed.

Lemma nth_byte (response : list Z) i :
  Forall is_byte response -> (i < length response)%nat -> is_byte (nth i response 0).
Proof.
  intros Hall Hi. rewrite Forall_forall in Hall. apply Hall.
  apply list_elem_of_In, nth_In, Hi.
Qed.

(** X17: [read_data_raw] sends nothing and returns None while the
    data-ready pin reads HIGH; otherwise it sends one frame of twelve zero
    bytes.  An answer shorter than twelve bytes gives None.  From an answer
    of at least twelve bytes it returns two codes, each between -2^23 and
    2^23 - 1 and equal modulo 2^24 to the three answer bytes of the channel
    (bytes 4 to 6 and 7 to 9) read as one number, high byte first. *)
Theorem read_data_raw_codes b :
  Spi.read_data_raw xfer2 true b = (None, b)
  /\ Spi.sent (snd (Spi.read_data_raw xfer2 false b)) = Spi.sent b ++ [repeat 0%Z 12]
  /\ ((length (fst (xfer2 (repeat 0%Z 12) (Spi.device b))) < 12)%nat ->
      fst (Spi.read_data_raw xfer2 false b) = None)
  /\ (forall response, response = fst (xfer2 (repeat 0%Z 12) (Spi.device b)) ->
      (12 <= length response)%nat -> Forall is_byte response ->
      exists ch0 ch1,
        fst (Spi.read_data_raw xfer2 false b) = Some [ch0; ch1]
        /\ -8388608 <= ch0 < 8388608 /\ -8388608 <= ch1 < 8388608
        /\ ch0 mod 16777216
           = nth 4 response 0 * 65536 + nth 5 response 0 * 256 + nth 6 response 0
        /\ ch1 mod 16777216
           = nth 7 response 0 * 65536 + nth 8 response 0 * 256 + nth 9 response 0).
Proof.
  split; [reflexivity|].
  unfold Spi.read_data_raw. rewrite pad_frame_NULL_12. unfold Spi._spi_transfer.
  destruct (xfer2 (repeat 0%Z 12) (Spi.device b)) as [response d]. cbn [fst snd].
  split; [destruct (12 <=? length response)%nat; reflexivity|]. split.
  - intros Hshort. destruct (Nat.leb_spec 12 (length response)); [lia|reflexivity].
  - intros ? -> Hlong Hbytes.
    destruct (Nat.leb_spec 12 (length response)); [|lia]. cbn [fst].
    destruct (three_bytes (nth 4 response 0) (nth 5 response 0) (nth 6 response 0))
      as (E0 & R0); try (apply nth_byte; [exact Hbytes|lia]).
    destruct (three_bytes (nth 7 response 0) (nth 8 response 0) (nth 9 response 0))
      as (E1 & R1); try (apply nth_byte; [exact Hbytes|lia]).
    rewrite E0, E1.
    destruct (signed24_range _ R0) as (S0 & M0). destruct (signed24_range _ R1) as (S1 & M1).
    eexists _, _. split; [reflexivity|]. repeat split; try apply S0; try apply S1; assumption.
Qed.

End SpiFacts.

Lemma set_gain_transfers_gain_4 :
  exists word hi lo,
    Spi.sent (Spi.bus (fst (Spi.set_gain steady_converter 0 2 fresh_driver)))
    = Spi.sent (Spi.bus fresh_driver)
      ++ [[0xA2; 0x01; 0; 0; 0; 0]; [0; 0; 0; 0; 0; 0]; [0x62; 0x01; hi; lo; 0; 0]]%Z
    /\ is_byte hi /\ is_byte lo /\ word = Z.lor (Z.shiftl hi 8) lo
    /\ gain_field 0 word = Z.land 2 0x07
    /\ gain_field (1 - 0) word
       = gain_field (1 - 0)
           (fst (Spi.read_register steady_converter Spi.REG_GAIN (Spi.bus fresh_driver)))
    /\ Z.land word 0xFF88
       = Z.land (fst (Spi.read_register steady_converter Spi.REG_GAIN (Spi.bus fresh_driver)))
           0xFF88.
Proof. apply (set_gain_transfers steady_converter 0 2 fresh_driver). left. reflexivity. Defined.

Lemma set_gain_stored_gain_4 :
  exists drv',
    Spi.set_gain steady_converter 0 2 fresh_driver = (drv', None)
    /\ Spi.channel_gains drv' = [4; 1]%Z.
Proof.
  apply (proj1 (set_gain_stored_gain steady_converter 0 2 fresh_driver));
    [left; reflexivity|lia].
Defined.

Lemma read_data_raw_codes_minus_1 :
  exists ch0 ch1,
    fst (Spi.read_data_raw steady_converter false (Spi.bus fresh_driver)) = Some [ch0; ch1]
    /\ (-8388608 <= ch0 < 8388608)%Z /\ (-8388608 <= ch1 < 8388608)%Z
    /\ (ch0 mod 16777216 = 255 * 65536 + 255 * 256 + 255)%Z
    /\ (ch1 mod 16777216 = 255 * 65536 + 255 * 256 + 255)%Z.
Proof.
  apply (proj2 (proj2 (proj2 (read_data_raw_codes steady_converter (Spi.bus fresh_driver))))
           (fst (steady_converter (repeat 0%Z 12) tt)) eq_refl).
  - simpl. lia.
  - vm_compute. repeat constructor; intros H; discriminate H.
Defined.

Section SetGainRefinement.

Context {Device : Type} (xfer2 : list Z -> Device -> list Z * Device).

(** X18: the driver model the processing core is verified against agrees
    with the driver on the bus.  While the transfers complete, a call that
    returns in the one returns in the other with the same two stored gains,
    and a call that raises in the one raises the same exception in the
    other and leaves the stored gains as they were. *)
Theorem set_gain_refines channel gain drv (on_bus : Spi.ADS131M02) :
  spi_ok drv = true ->
  Spi.channel_gains on_bus = gains_list drv ->
  exists on_bus',
    match set_gain channel gain drv with
    | Returned drv' =>
        Spi.set_gain xfer2 (Z.of_nat channel) (Z.of_nat gain) on_bus = (on_bus', None)
        /\ Spi.channel_gains on_bus' = gains_list drv'
    | Raised e =>
        Spi.set_gain xfer2 (Z.of_nat channel) (Z.of_nat gain) on_bus = (on_bus', Some e)
        /\ Spi.channel_gains on_bus' = gains_list drv
    end.
Proof.
  intros Hok Hgains. unfold set_gain. rewrite Hok. cbn [negb].
  destruct channel as [|[|channel]].
  - cbn [Nat.eqb orb negb].
    rewrite (set_gain_cases xfer2 (Z.of_nat 0) (Z.of_nat gain) on_bus) by (left; reflexivity).
    cbv zeta. destruct (lt_dec gain 8) as [Hlt|Hge].
    + assert (H : (gain = 0 \/ gain = 1 \/ gain = 2 \/ gain = 3 \/ gain = 4 \/ gain = 5
                   \/ gain = 6 \/ gain = 7)%nat) by lia.
      destruct H as [->|[->|[->|[->|[->|[->|[->| ->]]]]]]];
        (eexists; split; [reflexivity|]; cbn; rewrite Hgains; reflexivity).
    + assert (Hnone : driver_gain_values !! gain = None)
        by (apply lookup_ge_None; simpl; lia).
      assert (Hnone' : Spi.py_index Spi.gain_values (Z.of_nat gain) = None).
      { unfold Spi.py_index. destruct (Z.ltb_spec (Z.of_nat gain) 0); [lia|].
        apply lookup_ge_None. simpl. lia. }
      rewrite Hnone, Hnone'. eexists. split; [reflexivity|exact Hgains].
  - cbn [Nat.eqb orb negb].
    rewrite (set_gain_cases xfer2 (Z.of_nat 1) (Z.of_nat gain) on_bus) by (right; reflexivity).
    cbv zeta. destruct (lt_dec gain 8) as [Hlt|Hge].
    + assert (H : (gain = 0 \/ gain = 1 \/ gain = 2 \/ gain = 3 \/ gain = 4 \/ gain = 5
                   \/ gain = 6 \/ gain = 7)%nat) by lia.
      destruct H as [->|[->|[->|[->|[->|[->|[->| ->]]]]]]];
        (eexists; split; [reflexivity|]; cbn; rewrite Hgains; reflexivity).
    + assert (Hnone : driver_gain_values !! gain = None)
        by (apply lookup_ge_None; simpl; lia).
      assert (Hnone' : Spi.py_index Spi.gain_values (Z.of_nat gain) = None).
      { unfold Spi.py_index. destruct (Z.ltb_spec (Z.of_nat gain) 0); [lia|].
        apply lookup_ge_None. simpl. lia. }
      rewrite Hnone, Hnone'. eexists. split; [reflexivity|exact Hgains].
  - cbn [Nat.eqb orb negb]. exists on_bus. split; [|exact Hgains].
    apply set_gain_other_channel; lia.
Qed.

End SetGainRefinement.

Lemma set_gain_refines_gain_4 :
  exists on_bus',
    match set_gain 0 GAIN_4 {| channel_gains := (1, 1)%Z; spi_ok := true |} with
    | Returned drv' =>
        Spi.set_gain steady_converter (Z.of_nat 0) (Z.of_nat GAIN_4) fresh_driver
        = (on_bus', None)
        /\ Spi.channel_gains on_bus' = gains_list drv'
    | Raised e =>
        Spi.set_gain steady_converter (Z.of_nat 0) (Z.of_nat GAIN_4) fresh_driver
        = (on_bus', Some e)
        /\ Spi.channel_gains on_bus'
           = gains_list {| channel_gains := (1, 1)%Z; spi_ok := true |}
    end.
Proof.
  apply (set_gain_refines steady_converter 0 GAIN_4
           {| channel_gains := (1, 1)%Z; spi_ok := true |} fresh_driver); reflexivity.
Defined.

(** ** ADS7142: thresholds and readings *)

Section I2cFacts.

Local Open Scope Z_scope.

Lemma raw_value_bytes d0 d1 :
  is_byte d0 -> is_byte d1 -> raw_value d0 d1 = d0 * 16 + d1 / 16 /\ 0 <= raw_value d0 d1 < 4096.
Proof.
  unfold is_byte, raw_value. intros H0 H1.
  rewrite Z.shiftr_div_pow2 by lia. change (2 ^ 4) with 16.
  assert (Hq : 0 <= d1 / 16 < 16).
  { split; [apply Z.div_pos; lia|apply Z.div_lt_upper_bound; lia]. }
  rewrite lor_shiftl_add by (change (2 ^ 4) with 16; lia). change (2 ^ 4) with 16. lia.
Qed.

Lemma threshold_bytes raw :
  0 <= raw <= 4095 ->
  is_byte (Z.shiftr raw 4) /\ is_byte (Z.shiftl (Z.land raw 0x0F) 4)
  /\ raw_value (Z.shiftr raw 4) (Z.shiftl (Z.land raw 0x0F) 4) = raw.
Proof.
  intros Hraw. unfold is_byte, raw_value.
  change 0x0F with (Z.ones 4). rewrite Z.land_ones by lia.
  rewrite Z.shiftr_shiftl_l by lia. change (4 - 4) with 0. rewrite Z.shiftl_0_r.
  rewrite (Z.shiftl_mul_pow2 (raw mod 2 ^ 4)) by lia.
  rewrite Z.shiftr_div_pow2 by lia. change (2 ^ 4) with 16.
  pose proof (Z.mod_pos_bound raw 16 ltac:(lia)) as Hm.
  pose proof (Z.div_mod raw 16 ltac:(lia)) as Hdm.
  assert (Hq : 0 <= raw / 16 < 256).
  { split; [apply Z.div_pos; lia|apply Z.div_lt_upper_bound; lia]. }
  split; [exact Hq|]. split; [lia|].
  rewrite lor_shiftl_add by (change (2 ^ 4) with 16; lia). change (2 ^ 4) with 16. lia.
Qed.

(** X19: [set_threshold] on a channel from 0 to 7, with a reference voltage
    other than zero and a threshold whose raw value is finite, writes two
    registers: the threshold register of the channel and the next one.  Both
    values are bytes, and put together the way [read_channel] puts two
    register bytes together they give the raw threshold limited to 0..4095. *)
Theorem set_threshold_writes channel threshold drv raw :
  0 <= channel <= 7 ->
  (I2c.voltage_reference drv =? 0)%float = false ->
  I2c.int ((threshold / I2c.voltage_reference drv) * 4095.0)%float = inr raw ->
  exists drv' hi lo,
    I2c.set_threshold channel threshold drv = inr drv'
    /\ I2c.written drv'
       = I2c.written drv
         ++ [(I2c.THRESHOLD_CH0 + channel, hi); (I2c.THRESHOLD_CH0 + channel + 1, lo)]
    /\ is_byte hi /\ is_byte lo
    /\ raw_value hi lo = Z.max 0 (Z.min 4095 raw).
Proof.
  intros Hch Hvref Hint. unfold I2c.set_threshold.
  replace ((0 <=? channel) && (channel <=? 7)) with true
    by (symmetry; apply andb_true_iff; split; apply Z.leb_le; lia).
  cbn [negb]. rewrite Hvref, Hint.
  destruct (threshold_bytes (Z.max 0 (Z.min 4095 raw)) ltac:(lia)) as (Hhi & Hlo & Hraw).
  eexists _, _, _. split; [reflexivity|]. cbn [I2c.written I2c.write_register].
  rewrite <- app_assoc. split; [reflexivity|]. repeat split; try apply Hhi; try apply Hlo.
  exact Hraw.
Qed.


(** X20: the threshold registers of neighbouring channels overlap.  After
    the threshold of a channel and then the threshold of the next channel
    have been set, the last value written to the second register of the
    first channel is the high byte of the second threshold, not the low four
    bits of the first. *)
Theorem neighbour_threshold_overwrites channel t1 t2 drv drv1 drv2 raw2 :
  0 <= channel <= 6 ->
  I2c.set_threshold channel t1 drv = inr drv1 ->
  I2c.set_threshold (channel + 1) t2 drv1 = inr drv2 ->
  I2c.int ((t2 / I2c.voltage_reference drv) * 4095.0)%float = inr raw2 ->
  register_value (I2c.THRESHOLD_CH0 + channel + 1) (I2c.written drv2)
  = Some (Z.shiftr (Z.max 0 (Z.min 4095 raw2)) 4).
Proof.
  intros Hch H1 H2 Hint. unfold I2c.set_threshold in H1, H2.
  replace ((0 <=? channel) && (channel <=? 7)) with true in H1
    by (symmetry; apply andb_true_iff; split; apply Z.leb_le; lia).
  replace ((0 <=? channel + 1) && (channel + 1 <=? 7)) with true in H2
    by (symmetry; apply andb_true_iff; split; apply Z.leb_le; lia).
  cbn [negb] in H1, H2.
  destruct (I2c.voltage_reference drv =? 0)%float eqn:Hv; [discriminate|].
  destruct (I2c.int _) as [e|raw1]; [discriminate|]. injection H1 as <-.
  cbn [I2c.voltage_reference I2c.write_register] in H2. rewrite Hv, Hint in H2.
  injection H2 as <-. cbn [I2c.written I2c.write_register].
  unfold register_value. rewrite !fold_left_app. cbn [fold_left fst snd].
  unfold I2c.THRESHOLD_CH0.
  replace (32 + (channel + 1) + 1 =? 32 + channel + 1) with false by (symmetry; lia).
  replace (32 + (channel + 1) =? 32 + channel + 1) with true by (symmetry; lia).
  reflexivity.
Qed.

Lemma below_4096 (P : Z -> bool) :
  forallb P (map Z.of_nat (seq 0 4096)) = true -> forall z, 0 <= z < 4096 -> P z = true.
Proof.
  intros Hall z Hz. rewrite forallb_forall in Hall. apply Hall.
  apply in_map_iff. exists (Z.to_nat z). split; [lia|]. apply in_seq. lia.
Qed.

Lemma raw_to_voltage_range_only raw vref r written :
  0 <= r <= 5 ->
  I2c._raw_to_voltage raw
    {| I2c.voltage_reference := vref; I2c.input_range := r; I2c.written := written |}
  = I2c._raw_to_voltage raw
      {| I2c.voltage_reference := 0; I2c.input_range := r; I2c.written := [] |}.
Proof.
  intros Hr. assert (H : r = 0 \/ r = 1 \/ r = 2 \/ r = 3 \/ r = 4 \/ r = 5) by lia.
  destruct H as [->|[->|[->|[->|[->| ->]]]]]; reflexivity.
Qed.

Lemma raw_to_voltage_checked r :
  0 <= r <= 5 ->
  forallb (fun raw =>
             let voltage :=
               I2c._raw_to_voltage raw
                 {| I2c.voltage_reference := 0; I2c.input_range := r; I2c.written := [] |} in
             ((range_bounds r).1 <=? voltage)%float && (voltage <=? (range_bounds r).2)%float)
    (map Z.of_nat (seq 0 4096)) = true.
Proof.
  intros Hr. assert (H : r = 0 \/ r = 1 \/ r = 2 \/ r = 3 \/ r = 4 \/ r = 5) by lia.
  destruct H as [->|[->|[->|[->|[->| ->]]]]]; vm_compute; reflexivity.
Qed.

(** X21: [read_channel] on a channel from 0 to 7 and two register bytes
    returns a voltage, and when the input range is one of the six ranges of
    the converter the voltage lies within the bounds of that range. *)
Theorem read_channel_within_range channel d0 d1 more drv :
  0 <= channel <= 7 -> is_byte d0 -> is_byte d1 ->
  0 <= I2c.input_range drv <= 5 ->
  exists voltage,
    I2c.read_channel channel (d0 :: d1 :: more) drv = inr voltage
    /\ ((range_bounds (I2c.input_range drv)).1 <=? voltage)%float = true
    /\ (voltage <=? (range_bounds (I2c.input_range drv)).2)%float = true.
Proof.
  intros Hch H0 H1 Hrange. unfold I2c.read_channel.
  replace ((0 <=? channel) && (channel <=? 7)) with true
    by (symmetry; apply andb_true_iff; split; apply Z.leb_le; lia).
  cbn [negb]. eexists. split; [reflexivity|].
  fold (raw_value d0 d1). destruct (raw_value_bytes d0 d1 H0 H1) as (_ & Hraw).
  set (raw := raw_value d0 d1) in *. clearbody raw.
  destruct drv as [vref r written]. cbn [I2c.input_range] in *.
  rewrite raw_to_voltage_range_only by exact Hrange.
  apply andb_true_iff.
  exact (below_4096 _ (raw_to_voltage_checked r Hrange) raw Hraw).
Qed.

End I2cFacts.

Lemma set_threshold_writes_half_scale :
  exists drv' hi lo,
    I2c.set_threshold 0 1.25 fresh_ADS7142 = inr drv'
    /\ I2c.written drv'
       = I2c.written fresh_ADS7142
         ++ [(I2c.THRESHOLD_CH0 + 0, hi); (I2c.THRESHOLD_CH0 + 0 + 1, lo)]%Z
    /\ is_byte hi /\ is_byte lo
    /\ raw_value hi lo = Z.max 0 (Z.min 4095 2047).
Proof.
  apply (set_threshold_writes 0 1.25 fresh_ADS7142 2047);
    [lia|vm_compute; reflexivity|vm_compute; reflexivity].
Defined.

Lemma neighbour_threshold_overwrites_0_1 :
  exists drv1 drv2,
    I2c.set_threshold 0 1.25 fresh_ADS7142 = inr drv1
    /\ I2c.set_threshold 1 2.5 drv1 = inr drv2
    /\ register_value 0x21 (I2c.written drv2) = Some 255%Z.
Proof.
  eexists _, _. split; [vm_compute; reflexivity|]. split; [vm_compute; reflexivity|].
  eapply (neighbour_threshold_overwrites 0 1.25 2.5 fresh_ADS7142 _ _ 4095);
    [lia|vm_compute; reflexivity|vm_compute; reflexivity|vm_compute; reflexivity].
Defined.

Lemma read_channel_within_range_mid_scale :
  exists voltage,
    I2c.read_channel 0 [0x80; 0x00]%Z fresh_ADS7142 = inr voltage
    /\ ((range_bounds (I2c.input_range fresh_ADS7142)).1 <=? voltage) = true
    /\ (voltage <=? (range_bounds (I2c.input_range fresh_ADS7142)).2) = true.
Proof.
  apply (read_channel_within_range 0 0x80 0x00 [] fresh_ADS7142);
    unfold is_byte, fresh_ADS7142, I2c.RANGE_0_TO_2_5V; cbn [I2c.input_range]; lia.
Defined.

(** ** LTC6903: the command word *)

Section Ltc6903Facts.

Local Open Scope Z_scope.

Lemma find_oct_range frequency_hz :
  match find_oct frequency_hz oct_table with
  | Some oct_val => 0 <= oct_val <= 15
  | None => True
  end.
Proof.
  unfold oct_table. cbn [find_oct].
  repeat (destruct (_ && _); [lia|]). exact I.
Qed.

(** X22: for every frequency other than 0 (and below 2^53 in magnitude)
    [ltc6903_config_bytes] returns an octave from 0 to 15, a DAC code from 0
    to 1023 and two bytes; read as one 16-bit word, high byte first, the
    bytes hold the octave in bits 15 to 12 and the DAC code in bits 11 to 2,
    and the two lowest bits are zero.  On 0 the division raises. *)
Theorem ltc6903_command_word frequency_hz :
  ltc6903_config_bytes 0 = None
  /\ (frequency_hz <> 0 -> Z.abs frequency_hz < 2 ^ 53 ->
      exists oct_val dac b0 b1,
        ltc6903_config_bytes frequency_hz = Some (oct_val, dac, [b0; b1])
        /\ 0 <= oct_val <= 15 /\ 0 <= dac <= 1023
        /\ is_byte b0 /\ is_byte b1
        /\ Z.lor (Z.shiftl b0 8) b1 = oct_val * 4096 + dac * 4).
Proof.
  split; [reflexivity|]. intros Hne _. unfold ltc6903_config_bytes.
  replace (frequency_hz =? 0) with false by (symmetry; apply Z.eqb_neq, Hne).
  set (oct_val := match find_oct frequency_hz oct_table with
                  | Some oct_val => oct_val
                  | None => if frequency_hz <? 1039 then 0 else 15
                  end).
  assert (Hoct : 0 <= oct_val <= 15).
  { unfold oct_val. pose proof (find_oct_range frequency_hz) as H.
    destruct (find_oct frequency_hz oct_table); [exact H|].
    destruct (frequency_hz <? 1039); lia. }
  clearbody oct_val. cbv zeta.
  set (dac := Z.max 0 (Z.min 1023 _)).
  assert (Hdac : 0 <= dac <= 1023) by (unfold dac; lia).
  clearbody dac.
  set (command := Z.lor _ _).
  assert (Hcommand : command = oct_val * 4096 + dac * 4).
  { unfold command. change 0xF with (Z.ones 4). change 0x3FF with (Z.ones 10).
    rewrite !Z.land_ones by lia. change (2 ^ 4) with 16. change (2 ^ 10) with 1024.
    rewrite !Z.mod_small by lia.
    rewrite (Z.shiftl_mul_pow2 dac 2) by lia. change (2 ^ 2) with 4.
    rewrite lor_shiftl_add by (change (2 ^ 12) with 4096; lia).
    change (2 ^ 12) with 4096. reflexivity. }
  clearbody command.
  exists oct_val, dac, (Z.land (Z.shiftr command 8) 0xFF), (Z.land command 0xFF).
  split; [reflexivity|]. repeat split; try apply land_byte; try lia.
  rewrite byte_pair_word. change 0xFFFF with (Z.ones 16).
  rewrite Z.land_ones by lia. change (2 ^ 16) with 65536.
  rewrite Z.mod_small by lia. exact Hcommand.
Qed.

End Ltc6903Facts.

Lemma ltc6903_command_word_8192kHz :
  exists oct_val dac b0 b1,
    ltc6903_config_bytes 8192000 = Some (oct_val, dac, [b0; b1])
    /\ (0 <= oct_val <= 15)%Z /\ (0 <= dac <= 1023)%Z
    /\ is_byte b0 /\ is_byte b1
    /\ Z.lor (Z.shiftl b0 8) b1 = (oct_val * 4096 + dac * 4)%Z.
Proof. apply (proj2 (ltc6903_command_word 8192000)); [lia|reflexivity]. Defined.
